(** * Reconciliation engine of azure-terraform-agent: shallow embedding

    The development embeds, function by function, the pure core of
    - [src/terraform_parser.py]   (variable resolution, derived resource name),
    - [src/comparison_engine.py]  (indexing, matching, differencing, risk),
    - [src/cli_generator.py]      (synthesis of create / update commands),
    and states the properties of the specification over that embedding.

    Modelling conventions
    - A Python [str] is a [string] of bytes. [lower] and [strip] act on the
      ASCII range (A-Z, and the ASCII white space accepted by [str.isspace]);
      characters outside ASCII are left alone.
    - A dynamically typed Python value ([Any]) is a [value]; numbers are
      integers ([Z]); floating point numbers are not modelled.
    - A Python [dict] is an insertion-ordered association list ([pydict]);
      assignment [d[k] = v] is [dict_set]: it overwrites in place or appends.
    - A Python [set] of strings that is only tested for membership is a
      [gset string]. The one set that is iterated ([all_keys] in
      [_compare_tags]) is enumerated in first-insertion order; CPython's
      order depends on the string hash, and every statement below about it
      is about membership and counting only.
    - Code that can raise returns a [result]. *)

From Stdlib Require Import Ascii String ZArith Lia Permutation.
From stdpp Require Import base list strings gmap pretty sorting.

(** ** Exceptions *)

Inductive py_exn := TypeError | AttributeError.

Inductive result (A : Type) :=
  | Ok (a : A)
  | Raise (e : py_exn).
Arguments Ok {A} a.
Arguments Raise {A} e.

#[global] Instance result_ret : MRet result := @Ok.
#[global] Instance result_bind : MBind result := fun A B f m =>
  match m with
  | Ok a => f a
  | Raise e => Raise e
  end.

(** ** Python strings *)

Module PyStr.

Definition is_upper (c : ascii) : bool :=
  let n := nat_of_ascii c in (65 <=? n)%nat && (n <=? 90)%nat.

Definition lower_char (c : ascii) : ascii :=
  if is_upper c then ascii_of_nat (nat_of_ascii c + 32) else c.

(** [s.lower()] *)
Fixpoint lower (s : string) : string :=
  match s with
  | EmptyString => EmptyString
  | String c s' => String (lower_char c) (lower s')
  end.

(** ASCII characters for which [str.isspace] holds. *)
Definition is_space (c : ascii) : bool :=
  let n := nat_of_ascii c in
  ((9 <=? n)%nat && (n <=? 13)%nat) || ((28 <=? n)%nat && (n <=? 32)%nat).

Fixpoint lstrip (s : string) : string :=
  match s with
  | EmptyString => EmptyString
  | String c s' => if is_space c then lstrip s' else s
  end.

Fixpoint rstrip (s : string) : string :=
  match s with
  | EmptyString => EmptyString
  | String c s' =>
      match rstrip s' with
      | EmptyString => if is_space c then EmptyString else String c EmptyString
      | r => String c r
      end
  end.

(** [s.strip()] *)
Definition strip (s : string) : string := rstrip (lstrip s).

(** [s.startswith(p)] *)
Fixpoint startswith (p s : string) {struct p} : bool :=
  match p, s with
  | EmptyString, _ => true
  | String a p', String b s' => Ascii.eqb a b && startswith p' s'
  | String _ _, EmptyString => false
  end.

(** [sub in s] *)
Fixpoint contains (sub s : string) : bool :=
  startswith sub s ||
  match s with
  | EmptyString => false
  | String _ s' => contains sub s'
  end.

(** [s.endswith(p)] *)
Definition endswith (p s : string) : bool :=
  startswith (String.rev p) (String.rev s).

(** [s.split(sep)] for a one-character separator: never empty. *)
Fixpoint split (sep : ascii) (s : string) : list string :=
  match s with
  | EmptyString => [EmptyString]
  | String c s' =>
      if Ascii.eqb c sep then EmptyString :: split sep s'
      else match split sep s' with
           | h :: t => String c h :: t
           | [] => [String c EmptyString]
           end
  end.

(** [s.split(".")[-1]] *)
Definition last_part (s : string) : string := List.last (split "." s) EmptyString.

(** [sep.join(l)] *)
Definition join (sep : string) (l : list string) : string := String.concat sep l.

(** [s[i:]] *)
Fixpoint drop (n : nat) (s : string) : string :=
  match n, s with
  | O, _ => s
  | S n', String _ s' => drop n' s'
  | S _, EmptyString => EmptyString
  end.

(** [s[:-1]] *)
Fixpoint drop_last (s : string) : string :=
  match s with
  | EmptyString => EmptyString
  | String c EmptyString => EmptyString
  | String c s' => String c (drop_last s')
  end.

End PyStr.

(** ** Python values and dictionaries *)

(** The values a parsed HCL block or a scanned property bag can hold. *)
#[warnings="-register-all"]
Inductive value :=
  | VNone
  | VBool (b : bool)
  | VInt (n : Z)
  | VStr (s : string)
  | VList (l : list value)
  | VDict (d : list (string * value)).

(** Insertion-ordered dictionary with string keys. *)
Definition pydict (A : Type) := list (string * A).

Section Dict.
Context {A : Type}.

(** [d.get(k)] as an option: the binding of [k], if any. *)
Fixpoint dict_get (k : string) (d : pydict A) : option A :=
  match d with
  | [] => None
  | (k', v) :: d' => if String.eqb k k' then Some v else dict_get k d'
  end.

(** [k in d] *)
Definition dict_mem (k : string) (d : pydict A) : bool :=
  match dict_get k d with Some _ => true | None => false end.

(** [d[k] = v]: overwrite where the key stands, else append. *)
Fixpoint dict_set (k : string) (v : A) (d : pydict A) : pydict A :=
  match d with
  | [] => [(k, v)]
  | (k', v') :: d' =>
      if String.eqb k k' then (k, v) :: d' else (k', v') :: dict_set k v d'
  end.

(** [d.get(k, dflt)] *)
Definition dict_get_default (k : string) (dflt : A) (d : pydict A) : A :=
  match dict_get k d with Some v => v | None => dflt end.

Definition dict_keys (d : pydict A) : list string := map fst d.

End Dict.

(** [d.get(k)] on a dictionary of values: [None] when the key is absent. *)
Definition dict_get_none (k : string) (d : pydict value) : value :=
  dict_get_default k VNone d.

(** Truth value of [v] ([if v:], [v or w], [v and w]). *)
Definition truthy (v : value) : bool :=
  match v with
  | VNone => false
  | VBool b => b
  | VInt n => negb (n =? 0)%Z
  | VStr s => negb (String.eqb s "")
  | VList l => match l with [] => false | _ => true end
  | VDict d => match d with [] => false | _ => true end
  end.

(** [a == b] *)
Fixpoint py_eq (a b : value) {struct a} : bool :=
  match a, b with
  | VNone, VNone => true
  | VBool x, VBool y => Bool.eqb x y
  | VBool x, VInt n => (Z.b2z x =? n)%Z
  | VInt n, VBool x => (n =? Z.b2z x)%Z
  | VInt m, VInt n => (m =? n)%Z
  | VStr s, VStr t => String.eqb s t
  | VList l, VList m =>
      (fix go (l m : list value) {struct l} : bool :=
         match l, m with
         | [], [] => true
         | x :: l', y :: m' => py_eq x y && go l' m'
         | _, _ => false
         end) l m
  | VDict d, VDict e =>
      (length d =? length e)%nat &&
      (fix go (d : list (string * value)) : bool :=
         match d with
         | [] => true
         | (k, v) :: d' =>
             match dict_get k e with
             | Some w => py_eq v w
             | None => false
             end && go d'
         end) d
  | _, _ => false
  end.

(** [a < b]; ordering is undefined (TypeError) on [None], on dictionaries
    and across strings, numbers and lists. *)
Fixpoint py_lt (a b : value) {struct a} : result bool :=
  match a, b with
  | VBool x, VBool y => Ok (Z.b2z x <? Z.b2z y)%Z
  | VBool x, VInt n => Ok (Z.b2z x <? n)%Z
  | VInt n, VBool x => Ok (n <? Z.b2z x)%Z
  | VInt m, VInt n => Ok (m <? n)%Z
  | VStr s, VStr t => Ok (String.ltb s t)
  | VList l, VList m =>
      (fix go (l m : list value) {struct l} : result bool :=
         match l, m with
         | [], [] => Ok false
         | [], _ :: _ => Ok true
         | _ :: _, [] => Ok false
         | x :: l', y :: m' => if py_eq x y then go l' m' else py_lt x y
         end) l m
  | _, _ => Raise TypeError
  end.

(** [sorted(l)]: a stable sort that uses [<] only. The model inserts each
    element in front of the sorted remainder, moving it past the elements
    that are smaller; a comparison that raises makes the sort raise. On a
    list whose elements are pairwise ordered by [<] the outcome is that of
    any stable sort; on other lists CPython's sort may meet other pairs
    than the model does. *)
Fixpoint sorted_insert (x : value) (l : list value) : result (list value) :=
  match l with
  | [] => Ok [x]
  | y :: l' =>
      b ← py_lt y x;
      if b : bool then (r ← sorted_insert x l'; Ok (y :: r)) else Ok (x :: l)
  end.

Fixpoint sorted (l : list value) : result (list value) :=
  match l with
  | [] => Ok []
  | x :: l' => r ← sorted l'; sorted_insert x r
  end.

(** *** [str(v)] and [repr(v)] *)

Definition hex_digit (n : nat) : ascii :=
  if (n <? 10)%nat then ascii_of_nat (48 + n) else ascii_of_nat (87 + n).

Definition repr_char (quote : ascii) (c : ascii) : string :=
  let n := nat_of_ascii c in
  if Ascii.eqb c quote || Ascii.eqb c "\" then String "\" (String c "")
  else if (n =? 9)%nat then "\t"
  else if (n =? 10)%nat then "\n"
  else if (n =? 13)%nat then "\r"
  else if (n <? 32)%nat || (n =? 127)%nat then
    String "\" (String "x" (String (hex_digit (n / 16)) (String (hex_digit (n mod 16)) "")))
  else String c "".

Fixpoint repr_chars (quote : ascii) (s : string) : string :=
  match s with
  | EmptyString => EmptyString
  | String c s' => repr_char quote c +:+ repr_chars quote s'
  end.

(** [repr(s)] of a string: single quotes unless the string holds a single
    quote and no double quote. *)
Definition repr_str (s : string) : string :=
  let quote : ascii :=
    if PyStr.contains "'" s && negb (PyStr.contains (String (ascii_of_nat 34) "") s)
    then ascii_of_nat 34 else "'"%char in
  String quote (repr_chars quote s) +:+ String quote "".

Fixpoint py_repr (v : value) : string :=
  match v with
  | VNone => "None"
  | VBool true => "True"
  | VBool false => "False"
  | VInt n => pretty n
  | VStr s => repr_str s
  | VList l =>
      "[" +:+ PyStr.join ", " (map py_repr l) +:+ "]"
  | VDict d =>
      "{" +:+ PyStr.join ", "
                (map (fun kv : string * value => repr_str kv.1 +:+ ": " +:+ py_repr kv.2) d)
          +:+ "}"
  end.

(** [str(v)], also what an f-string interpolates. *)
Definition py_str (v : value) : string :=
  match v with
  | VStr s => s
  | _ => py_repr v
  end.

(** * terraform_parser.py *)

Definition TERRAFORM_TO_AZURE_TYPE : pydict string :=
  [ ("azurerm_resource_group", "Microsoft.Resources/resourceGroups");
    ("azurerm_storage_account", "Microsoft.Storage/storageAccounts");
    ("azurerm_storage_container", "Microsoft.Storage/storageAccounts/blobServices/containers");
    ("azurerm_virtual_network", "Microsoft.Network/virtualNetworks");
    ("azurerm_subnet", "Microsoft.Network/virtualNetworks/subnets");
    ("azurerm_network_security_group", "Microsoft.Network/networkSecurityGroups");
    ("azurerm_network_security_rule", "Microsoft.Network/networkSecurityGroups/securityRules");
    ("azurerm_public_ip", "Microsoft.Network/publicIPAddresses");
    ("azurerm_network_interface", "Microsoft.Network/networkInterfaces");
    ("azurerm_linux_virtual_machine", "Microsoft.Compute/virtualMachines");
    ("azurerm_windows_virtual_machine", "Microsoft.Compute/virtualMachines");
    ("azurerm_virtual_machine", "Microsoft.Compute/virtualMachines");
    ("azurerm_key_vault", "Microsoft.KeyVault/vaults");
    ("azurerm_key_vault_secret", "Microsoft.KeyVault/vaults/secrets");
    ("azurerm_key_vault_key", "Microsoft.KeyVault/vaults/keys") ].

Definition SUPPORTED_TERRAFORM_TYPES : list string :=
  [ "azurerm_storage_account";
    "azurerm_virtual_network";
    "azurerm_subnet";
    "azurerm_network_security_group";
    "azurerm_linux_virtual_machine";
    "azurerm_windows_virtual_machine";
    "azurerm_key_vault" ].

(** [TERRAFORM_TO_AZURE_TYPE.get(t, t)]: the canonical type of a
    declarative type. *)
Definition canonical_type (terraform_type : string) : string :=
  dict_get_default terraform_type terraform_type TERRAFORM_TO_AZURE_TYPE.

Module TerraformVariable.
Record t := mk {
  name : string;
  default : value;            (* [None] when the declaration has none *)
  description : option string;
  type : option string
}.
End TerraformVariable.

Module TerraformResource.

(** The three constructor arguments; the other attributes are set by
    [__post_init__] from these and are functions here. *)
Record t := mk {
  terraform_type : string;
  name : string;
  config : pydict value
}.

(** The marker put around an expression that is still unresolved. *)
Definition variable_marker (expr : string) : string :=
  "<variable: " +:+ expr +:+ ">".

Fixpoint _resolve_value (v : value) : string :=
  match v with
  | VStr s => if PyStr.contains "${" s then variable_marker s else s
  | VList [x] => _resolve_value x
  | _ => if truthy v then py_str v else ""
  end.

Definition azure_type (r : t) : string := canonical_type (terraform_type r).

Definition resource_name (r : t) : string :=
  _resolve_value (dict_get_default "name" (VStr (name r)) (config r)).

Definition location (r : t) : string :=
  _resolve_value (dict_get_default "location" (VStr "") (config r)).

Definition tags (r : t) : value :=
  dict_get_default "tags" (VDict []) (config r).

End TerraformResource.

Module TerraformParser.

Section Resolve.
(** [self.tfvars]: the caller's overrides; [variables]: the declared
    variables collected by the first pass. *)
Variable tfvars : pydict value.
Variable variables : pydict TerraformVariable.t.

(** The body of the [isinstance(value, str)] branch. *)
Definition resolve_str (s : string) : value :=
  if PyStr.startswith "${var." s && PyStr.endswith "}" s then
    let var_name := PyStr.drop_last (PyStr.drop 6 s) in
    match dict_get var_name tfvars with
    | Some v => v
    | None =>
        match dict_get var_name variables with
        | Some var =>
            match TerraformVariable.default var with
            | VNone => VStr s
            | dflt => dflt
            end
        | None => VStr s
        end
    end
  else VStr s.

Fixpoint _resolve_value (v : value) : value :=
  match v with
  | VStr s => resolve_str s
  | VList l => VList (map _resolve_value l)
  | VDict d =>
      VDict ((fix go (d : list (string * value)) :=
                match d with
                | [] => []
                | (k, x) :: d' => (k, _resolve_value x) :: go d'
                end) d)
  | _ => v
  end.

Definition _resolve_config (config : pydict value) : pydict value :=
  map (fun kv : string * value => (kv.1, _resolve_value kv.2)) config.

(** One resource block of the second pass of [parse_directory]. *)
Definition parse_resource (resource_type resource_name : string)
    (resource_config : pydict value) : TerraformResource.t :=
  TerraformResource.mk resource_type resource_name (_resolve_config resource_config).

End Resolve.

End TerraformParser.

(** [TerraformConfig.get_supported_resources] *)
Definition get_supported_resources (resources : list TerraformResource.t)
    : list TerraformResource.t :=
  filter (fun r => TerraformResource.terraform_type r ∈ SUPPORTED_TERRAFORM_TYPES) resources.

(** * azure_scanner.py *)

Module AzureResource.

Record t := mk {
  name : string;
  resource_type : string;
  location : string;
  resource_group : string;
  resource_id : string;
  tags : pydict value;
  properties : pydict value;
  sku : option (pydict value);
  kind : option string
}.

(** [getattr(r, attr, None)] on the data attributes of the class. *)
Definition getattr (r : t) (attr : string) : value :=
  if String.eqb attr "name" then VStr (name r)
  else if String.eqb attr "resource_type" then VStr (resource_type r)
  else if String.eqb attr "location" then VStr (location r)
  else if String.eqb attr "resource_group" then VStr (resource_group r)
  else if String.eqb attr "resource_id" then VStr (resource_id r)
  else if String.eqb attr "tags" then VDict (tags r)
  else if String.eqb attr "properties" then VDict (properties r)
  else if String.eqb attr "sku" then
    match sku r with Some d => VDict d | None => VNone end
  else if String.eqb attr "kind" then
    match kind r with Some k => VStr k | None => VNone end
  else VNone.

End AzureResource.

(** * comparison_engine.py *)

Inductive DifferenceType := MISSING_IN_AZURE | MISSING_IN_TERRAFORM | PROPERTY_DRIFT.

Inductive RiskLevel := LOW | MEDIUM | HIGH.

#[global] Instance DifferenceType_eq_dec : EqDecision DifferenceType.
Proof. solve_decision. Defined.
#[global] Instance RiskLevel_eq_dec : EqDecision RiskLevel.
Proof. solve_decision. Defined.

Module PropertyDifference.
Record t := mk {
  property_path : string;
  terraform_value : value;
  azure_value : value;
  description : string
}.
End PropertyDifference.

Module ResourceDifference.
Record t := mk {
  difference_type : DifferenceType;
  resource_name : string;
  resource_type : string;
  terraform_type : option string;
  terraform_resource : option TerraformResource.t;
  azure_resource : option AzureResource.t;
  property_differences : list PropertyDifference.t;
  risk_level : RiskLevel
}.
End ResourceDifference.

Module ComparisonResult.
Record t := mk {
  resource_group : string;
  differences : list ResourceDifference.t;
  azure_resource_count : nat;
  terraform_resource_count : nat;
  matched_count : nat
}.

Definition of_type (ty : DifferenceType) (r : t) : list ResourceDifference.t :=
  filter (fun d => ResourceDifference.difference_type d = ty) (differences r).

Definition missing_in_azure := of_type MISSING_IN_AZURE.
Definition missing_in_terraform := of_type MISSING_IN_TERRAFORM.
Definition drifted := of_type PROPERTY_DRIFT.
End ComparisonResult.

(** Field projection tables: declarative field name to dotted path into the
    live record, per declarative type. *)
Definition vm_property_mapping : pydict string :=
  [ ("name", "name");
    ("location", "location");
    ("size", "properties.vm_size");
    ("admin_username", "properties.os_profile.admin_username");
    ("computer_name", "properties.os_profile.computer_name");
    ("tags", "tags") ].

Definition PROPERTY_MAPPINGS : pydict (pydict string) :=
  [ ("azurerm_storage_account",
      [ ("name", "name");
        ("location", "location");
        ("account_tier", "properties.account_tier");
        ("account_replication_type", "properties.account_replication_type");
        ("access_tier", "properties.access_tier");
        ("enable_https_traffic_only", "properties.enable_https_traffic_only");
        ("min_tls_version", "properties.min_tls_version");
        ("allow_nested_items_to_be_public", "properties.allow_blob_public_access");
        ("tags", "tags") ]);
    ("azurerm_virtual_network",
      [ ("name", "name");
        ("location", "location");
        ("address_space", "properties.address_space");
        ("dns_servers", "properties.dns_servers");
        ("tags", "tags") ]);
    ("azurerm_network_security_group",
      [ ("name", "name");
        ("location", "location");
        ("tags", "tags") ]);
    ("azurerm_linux_virtual_machine", vm_property_mapping);
    ("azurerm_windows_virtual_machine", vm_property_mapping);
    ("azurerm_key_vault",
      [ ("name", "name");
        ("location", "location");
        ("sku_name", "properties.sku_name");
        ("soft_delete_retention_days", "properties.soft_delete_enabled");
        ("purge_protection_enabled", "properties.purge_protection_enabled");
        ("enabled_for_deployment", "properties.enabled_for_deployment");
        ("enabled_for_disk_encryption", "properties.enabled_for_disk_encryption");
        ("enabled_for_template_deployment", "properties.enabled_for_template_deployment");
        ("tags", "tags") ]) ].

(** A loop whose body can raise. *)
Fixpoint foldM {A S : Type} (f : S -> A -> result S) (l : list A) (s : S) : result S :=
  match l with
  | [] => Ok s
  | x :: l' => s' ← f s x; foldM f l' s'
  end.

Module ComparisonEngine.

(** *** Normalisation and deep equality *)

Fixpoint _normalize_value (v : value) : result value :=
  match v with
  | VNone => Ok VNone
  | VStr s => Ok (VStr (PyStr.strip (PyStr.lower s)))
  | VList l =>
      l' ← (fix go (l : list value) : result (list value) :=
              match l with
              | [] => Ok []
              | x :: l0 => x' ← _normalize_value x; r ← go l0; Ok (x' :: r)
              end) l;
      r ← sorted l';
      Ok (VList r)
  | VDict d =>
      d' ← (fix go (d : list (string * value)) : result (list (string * value)) :=
              match d with
              | [] => Ok []
              | (k, x) :: d0 => x' ← _normalize_value x; r ← go d0; Ok ((k, x') :: r)
              end) d;
      Ok (VDict d')
  | _ => Ok v
  end.

(** [set(d1.keys()) == set(d2.keys())] *)
Definition same_key_set (d1 d2 : pydict value) : bool :=
  forallb (fun k => dict_mem k d2) (dict_keys d1) &&
  forallb (fun k => dict_mem k d1) (dict_keys d2).

Fixpoint _values_equal (val1 val2 : value) {struct val1} : bool :=
  match val1, val2 with
  | VNone, VNone => true
  | VNone, _ => false
  | _, VNone => false
  | VList l1, VList l2 =>
      (length l1 =? length l2)%nat &&
      (fix go (l1 l2 : list value) {struct l1} : bool :=
         match l1, l2 with
         | v1 :: l1', v2 :: l2' => _values_equal v1 v2 && go l1' l2'
         | _, _ => true
         end) l1 l2
  | VDict d1, VDict d2 =>
      same_key_set d1 d2 &&
      (fix go (d : list (string * value)) : bool :=
         match d with
         | [] => true
         | (k, v1) :: d' => _values_equal v1 (dict_get_none k d2) && go d'
         end) d1
  | _, _ => py_eq val1 val2
  end.

(** *** Path traversal into the live record *)

(** The loop of [_get_nested_value] once the current value is no longer
    the resource object. *)
Fixpoint walk (parts : list string) (v : value) : value :=
  match parts with
  | [] => v
  | part :: rest =>
      match v with
      | VDict d =>
          match dict_get_none part d with
          | VNone => VNone
          | w => walk rest w
          end
      | _ => VNone
      end
  end.

Definition _get_nested_value (resource : AzureResource.t) (path : string) : value :=
  match PyStr.split "." path with
  | [] => VNone (* [split] never returns an empty list *)
  | part :: rest =>
      match AzureResource.getattr resource part with
      | VNone => VNone
      | w => walk rest w
      end
  end.

(** *** Tags *)

(** [(tags or {}).items()] *)
Definition items_or_empty (tags : value) : result (pydict value) :=
  if truthy tags then
    match tags with
    | VDict d => Ok d
    | _ => Raise AttributeError
    end
  else Ok [].

(** [{k.lower(): v for k, v in items}] *)
Definition lower_keys (items : pydict value) : pydict value :=
  fold_left (fun acc kv => dict_set (PyStr.lower kv.1) kv.2 acc) items [].

(** [set(a.keys()) | set(b.keys())], enumerated in first-insertion order. *)
Definition key_union (a b : pydict value) : list string :=
  dict_keys a ++ List.filter (fun k => negb (dict_mem k a)) (dict_keys b).

(** The body of the loop over [all_keys]. *)
Definition tag_diff (tf_tags_lower azure_tags_lower : pydict value) (key : string)
    : list PropertyDifference.t :=
  let tf_value := dict_get_none key tf_tags_lower in
  let azure_value := dict_get_none key azure_tags_lower in
  if negb (py_eq tf_value azure_value) then
    match tf_value, azure_value with
    | VNone, _ => []
    | _, VNone =>
        [ PropertyDifference.mk ("tags." +:+ key) tf_value VNone
            ("Tag '" +:+ key +:+ "' missing in Azure") ]
    | _, _ =>
        [ PropertyDifference.mk ("tags." +:+ key) tf_value azure_value
            ("Tag '" +:+ key +:+ "' value differs") ]
    end
  else [].

Definition _compare_tags (tf_tags azure_tags : value) : result (list PropertyDifference.t) :=
  tf_items ← items_or_empty tf_tags;
  azure_items ← items_or_empty azure_tags;
  let tf_tags_lower := lower_keys tf_items in
  let azure_tags_lower := lower_keys azure_items in
  let all_keys := key_union tf_tags_lower azure_tags_lower in
  Ok (flat_map (tag_diff tf_tags_lower azure_tags_lower) all_keys).

(** *** Projected fields *)

(** The body of the loop over the projection table: the differences of
    one projected field (none or one). *)
Definition field_diff (terraform_resource : TerraformResource.t)
    (azure_resource : AzureResource.t) (tf_prop azure_path : string)
    : result (list PropertyDifference.t) :=
  let tf_value := dict_get_none tf_prop (TerraformResource.config terraform_resource) in
  let azure_value := _get_nested_value azure_resource azure_path in
  match tf_value with
  | VNone => Ok []
  | _ =>
      if match tf_value with VStr s => PyStr.contains "<variable:" s | _ => false end
      then Ok []
      else
        tf_normalized ← _normalize_value tf_value;
        azure_normalized ← _normalize_value azure_value;
        if negb (_values_equal tf_normalized azure_normalized) then
          Ok [ PropertyDifference.mk tf_prop tf_value azure_value
                 ("Property '" +:+ tf_prop +:+ "' differs") ]
        else Ok []
  end.

Definition _compare_properties (terraform_resource : TerraformResource.t)
    (azure_resource : AzureResource.t) : result (list PropertyDifference.t) :=
  let mapping :=
    dict_get_default (TerraformResource.terraform_type terraform_resource) []
      PROPERTY_MAPPINGS in
  differences ←
    foldM (fun acc (m : string * string) =>
             ds ← field_diff terraform_resource azure_resource m.1 m.2;
             Ok (acc ++ ds))
          mapping [];
  let tf_tags := dict_get_default "tags" (VDict []) (TerraformResource.config terraform_resource) in
  let azure_tags := VDict (AzureResource.tags azure_resource) in
  tag_diffs ← _compare_tags tf_tags azure_tags;
  Ok (differences ++ tag_diffs).

(** *** Risk *)

Definition high_risk_properties : list string :=
  [ "network_rules"; "access_policies"; "security_rules";
    "admin_username"; "admin_password"; "sku_name"; "size" ].

Definition medium_risk_properties : list string :=
  [ "location"; "address_space"; "subnets"; "vm_size" ].

(** [diff.property_path.split(".")[-1]] *)
Definition leaf_name (d : PropertyDifference.t) : string :=
  PyStr.last_part (PropertyDifference.property_path d).

Definition in_set (names : list string) (d : PropertyDifference.t) : bool :=
  bool_decide (leaf_name d ∈ names).

Definition _assess_risk (differences : list PropertyDifference.t) : RiskLevel :=
  if existsb (in_set high_risk_properties) differences then HIGH
  else if existsb (in_set medium_risk_properties) differences then MEDIUM
  else LOW.

(** *** The two indices *)

(** [if ty not in index: index[ty] = {}] followed by
    [index[ty][key] = r]. *)
Definition index_insert {A : Type} (ty key : string) (r : A)
    (index : pydict (pydict A)) : pydict (pydict A) :=
  dict_set ty (dict_set key r (dict_get_default ty [] index)) index.

(** [index.get(ty, {}).get(key)] *)
Definition index_lookup {A : Type} (ty key : string)
    (index : pydict (pydict A)) : option A :=
  dict_get key (dict_get_default ty [] index).

Definition build_azure_index (azure_resources : list AzureResource.t)
    : pydict (pydict AzureResource.t) :=
  fold_left
    (fun index resource =>
       index_insert (AzureResource.resource_type resource)
         (PyStr.lower (AzureResource.name resource)) resource index)
    azure_resources [].

(** The lower-cased name under which a declarative resource is looked up:
    its derived resource name, or its block identifier when that is
    empty. *)
Definition name_key (resource : TerraformResource.t) : string :=
  if truthy (VStr (TerraformResource.resource_name resource))
  then PyStr.lower (TerraformResource.resource_name resource)
  else PyStr.lower (TerraformResource.name resource).

(** [resource.resource_name or resource.name] *)
Definition display_name (resource : TerraformResource.t) : string :=
  if truthy (VStr (TerraformResource.resource_name resource))
  then TerraformResource.resource_name resource
  else TerraformResource.name resource.

(** The declarative index; [compare] fills it and never reads it. *)
Definition build_terraform_index (terraform_resources : list TerraformResource.t)
    : pydict (pydict TerraformResource.t) :=
  fold_left
    (fun index resource =>
       index_insert (canonical_type (TerraformResource.terraform_type resource))
         (name_key resource) resource index)
    terraform_resources [].

(** *** The loop over the declarative resources *)

Record loop_state := mk_state {
  differences : list ResourceDifference.t;
  matched_azure : gset string;
  matched_terraform : gset string;
  matched_count : nat
}.

Definition initial_state : loop_state := mk_state [] ∅ ∅ 0.

Definition compare_step (azure_index : pydict (pydict AzureResource.t))
    (st : loop_state) (tf_resource : TerraformResource.t) : result loop_state :=
  let azure_type := canonical_type (TerraformResource.terraform_type tf_resource) in
  let resource_name := name_key tf_resource in
  if PyStr.contains "<variable:" resource_name then Ok st
  else
    match index_lookup azure_type resource_name azure_index with
    | None =>
        Ok (mk_state
              (differences st ++
               [ ResourceDifference.mk MISSING_IN_AZURE
                   (display_name tf_resource) azure_type
                   (Some (TerraformResource.terraform_type tf_resource))
                   (Some tf_resource) None [] MEDIUM ])
              (matched_azure st) (matched_terraform st) (matched_count st))
    | Some azure_resource =>
        let matched_azure' :=
          {[ azure_type +:+ ":" +:+ resource_name ]} ∪ matched_azure st in
        let matched_terraform' :=
          {[ TerraformResource.terraform_type tf_resource +:+ ":" +:+ resource_name ]}
            ∪ matched_terraform st in
        property_diffs ← _compare_properties tf_resource azure_resource;
        match property_diffs with
        | _ :: _ =>
            Ok (mk_state
                  (differences st ++
                   [ ResourceDifference.mk PROPERTY_DRIFT
                       (AzureResource.name azure_resource) azure_type
                       (Some (TerraformResource.terraform_type tf_resource))
                       (Some tf_resource) (Some azure_resource)
                       property_diffs (_assess_risk property_diffs) ])
                  matched_azure' matched_terraform' (matched_count st))
        | [] =>
            Ok (mk_state (differences st) matched_azure' matched_terraform'
                  (S (matched_count st)))
        end
    end.

(** *** The loop over the live index *)

Definition unmatched_of_type (matched_azure : gset string) (azure_type : string)
    (resources : pydict AzureResource.t) : list ResourceDifference.t :=
  flat_map
    (fun entry : string * AzureResource.t =>
       let key := azure_type +:+ ":" +:+ entry.1 in
       if bool_decide (key ∈ matched_azure) then []
       else [ ResourceDifference.mk MISSING_IN_TERRAFORM
                (AzureResource.name entry.2) azure_type
                None None (Some entry.2) [] LOW ])
    resources.

Definition unmatched_azure (matched_azure : gset string)
    (azure_index : pydict (pydict AzureResource.t)) : list ResourceDifference.t :=
  flat_map (fun entry : string * pydict AzureResource.t =>
              unmatched_of_type matched_azure entry.1 entry.2)
           azure_index.

Definition compare (resource_group : string)
    (azure_resources : list AzureResource.t)
    (terraform_resources : list TerraformResource.t) : result ComparisonResult.t :=
  let azure_index := build_azure_index azure_resources in
  st ← foldM (compare_step azure_index) terraform_resources initial_state;
  Ok (ComparisonResult.mk resource_group
        (differences st ++ unmatched_azure (matched_azure st) azure_index)
        (length azure_resources) (length terraform_resources)
        (matched_count st)).

End ComparisonEngine.

(** The module-level [compare_resources]. *)
Definition compare_resources := ComparisonEngine.compare.

(** * cli_generator.py *)

Module CliCommand.
Record t := mk {
  command : string;
  description : string;
  action : string;              (* create, update *)
  resource_name : string;
  resource_type : string;
  risk_level : RiskLevel;
  parameters : pydict string
}.
End CliCommand.

Module CliCommandGenerator.

(** One entry of [CLI_COMMANDS]. *)
Record cmd_config := mk_cmd {
  create : string;
  update : string;
  resource_name_param : string
}.

Definition CLI_COMMANDS : pydict cmd_config :=
  [ ("azurerm_storage_account",
      mk_cmd "az storage account create" "az storage account update" "--name");
    ("azurerm_virtual_network",
      mk_cmd "az network vnet create" "az network vnet update" "--name");
    ("azurerm_subnet",
      mk_cmd "az network vnet subnet create" "az network vnet subnet update" "--name");
    ("azurerm_network_security_group",
      mk_cmd "az network nsg create" "az network nsg update" "--name");
    ("azurerm_linux_virtual_machine",
      mk_cmd "az vm create" "az vm update" "--name");
    ("azurerm_windows_virtual_machine",
      mk_cmd "az vm create" "az vm update" "--name");
    ("azurerm_key_vault",
      mk_cmd "az keyvault create" "az keyvault update" "--name") ].

Definition vm_cli_mapping : pydict string :=
  [ ("location", "--location");
    ("size", "--size");
    ("admin_username", "--admin-username");
    ("tags", "--tags") ].

(** Declarative field name to CLI parameter, per declarative type. *)
Definition PROPERTY_MAPPINGS : pydict (pydict string) :=
  [ ("azurerm_storage_account",
      [ ("location", "--location");
        ("account_tier", "--sku");
        ("account_replication_type", "--sku");
        ("access_tier", "--access-tier");
        ("enable_https_traffic_only", "--https-only");
        ("min_tls_version", "--min-tls-version");
        ("allow_nested_items_to_be_public", "--allow-blob-public-access");
        ("tags", "--tags") ]);
    ("azurerm_virtual_network",
      [ ("location", "--location");
        ("address_space", "--address-prefixes");
        ("dns_servers", "--dns-servers");
        ("tags", "--tags") ]);
    ("azurerm_network_security_group",
      [ ("location", "--location");
        ("tags", "--tags") ]);
    ("azurerm_linux_virtual_machine", vm_cli_mapping);
    ("azurerm_windows_virtual_machine", vm_cli_mapping);
    ("azurerm_key_vault",
      [ ("location", "--location");
        ("sku_name", "--sku");
        ("enabled_for_deployment", "--enabled-for-deployment");
        ("enabled_for_disk_encryption", "--enabled-for-disk-encryption");
        ("enabled_for_template_deployment", "--enabled-for-template-deployment");
        ("tags", "--tags") ]) ].

(** [_is_variable]: does the value hold an unresolved variable? Only a
    string is inspected. *)
Definition _is_variable (v : value) : bool :=
  match v with
  | VStr s => PyStr.contains "<variable:" s || PyStr.contains "${" s
  | _ => false
  end.

Definition _format_param_value (v : value) : string :=
  match v with
  | VBool b => PyStr.lower (py_str v)
  | VList l => PyStr.join " " (map py_str l)
  | VDict d =>
      PyStr.join " " (map (fun kv : string * value => kv.1 +:+ "=" +:+ py_str kv.2) d)
  | _ => py_str v
  end.

Definition _handle_special_cases (terraform_type : string) (config : pydict value)
    (params : pydict string) : pydict string :=
  if String.eqb terraform_type "azurerm_storage_account" then
    let tier := dict_get_default "account_tier" (VStr "Standard") config in
    let replication := dict_get_default "account_replication_type" (VStr "LRS") config in
    if truthy tier && truthy replication
    then dict_set "--sku" (py_str tier +:+ "_" +:+ py_str replication) params
    else params
  else if String.eqb terraform_type "azurerm_linux_virtual_machine"
       || String.eqb terraform_type "azurerm_windows_virtual_machine" then
    let source_image := dict_get_default "source_image_reference" (VDict []) config in
    let source_image :=
      match source_image with
      | VList (first :: _) => first
      | _ => source_image
      end in
    match source_image with
    | VDict img =>
        let publisher := dict_get_none "publisher" img in
        let offer := dict_get_none "offer" img in
        let sku := dict_get_none "sku" img in
        let version := dict_get_default "version" (VStr "latest") img in
        if truthy publisher && truthy offer && truthy sku
        then dict_set "--image"
               (py_str publisher +:+ ":" +:+ py_str offer +:+ ":" +:+
                py_str sku +:+ ":" +:+ py_str version) params
        else params
    | _ => params
    end
  else params.

Definition dquote : string := String (ascii_of_nat 34) "".

(** The separator between the parts of a command: a space, a backslash,
    a line feed and four spaces. *)
Definition continuation : string :=
  String " " (String "\" (String (ascii_of_nat 10) "    ")).

Definition _build_command_string (base_cmd : string) (params : pydict string) : string :=
  PyStr.join continuation
    (base_cmd ::
     map (fun pv : string * string =>
            if PyStr.contains " " pv.2
            then pv.1 +:+ " " +:+ dquote +:+ pv.2 +:+ dquote
            else pv.1 +:+ " " +:+ pv.2)
         params).

(** The body of the loop of [_generate_create_command] over the parameter
    table: the parameter of one declarative field, when its value is set
    and passes [_is_variable]. *)
Definition create_param (tf_config : pydict value) (params : pydict string)
    (m : string * string) : pydict string :=
  let v := dict_get_none m.1 tf_config in
  match v with
  | VNone => params
  | _ => if _is_variable v then params
         else dict_set m.2 (_format_param_value v) params
  end.

(** The body of the loop of [_generate_update_command] over the field
    differences. *)
Definition update_param (prop_mapping : pydict string) (params : pydict string)
    (prop_diff : PropertyDifference.t) : pydict string :=
  let prop_name := PyStr.last_part (PropertyDifference.property_path prop_diff) in
  match dict_get prop_name prop_mapping,
        PropertyDifference.terraform_value prop_diff with
  | None, _ => params
  | Some _, VNone => params
  | Some cli_param, v =>
      if _is_variable v then params
      else dict_set cli_param (_format_param_value v) params
  end.

Section Generator.
(** [self.resource_group] and [self.subscription_id]. *)
Variable resource_group : string.
Variable subscription_id : option string.

(** The identity and scope parameters every command starts from. *)
Definition base_params (name_param resource_name : string) : pydict string :=
  let params := dict_set "--resource-group" resource_group
                  (dict_set name_param resource_name []) in
  match subscription_id with
  | Some sub => if truthy (VStr sub) then dict_set "--subscription" sub params else params
  | None => params
  end.

Definition _generate_create_command (diff : ResourceDifference.t) : option CliCommand.t :=
  match ResourceDifference.terraform_type diff, ResourceDifference.terraform_resource diff with
  | Some terraform_type, Some terraform_resource =>
      if negb (truthy (VStr terraform_type)) then None
      else
        match dict_get terraform_type CLI_COMMANDS with
        | None => None
        | Some cfg =>
            let base_cmd := create cfg in
            let name_param := resource_name_param cfg in
            let params := base_params name_param (ResourceDifference.resource_name diff) in
            let prop_mapping := dict_get_default terraform_type [] PROPERTY_MAPPINGS in
            let tf_config := TerraformResource.config terraform_resource in
            let params := fold_left (create_param tf_config) prop_mapping params in
            let params := _handle_special_cases terraform_type tf_config params in
            let cmd_str := _build_command_string base_cmd params in
            Some (CliCommand.mk cmd_str
                    ("Create " +:+ terraform_type +:+ " '" +:+
                     ResourceDifference.resource_name diff +:+ "'")
                    "create"
                    (ResourceDifference.resource_name diff)
                    (ResourceDifference.resource_type diff)
                    MEDIUM params)
        end
  | _, _ => None
  end.

Definition _generate_update_command (diff : ResourceDifference.t) : option CliCommand.t :=
  match ResourceDifference.terraform_type diff with
  | Some terraform_type =>
      if negb (truthy (VStr terraform_type)) then None
      else
        match dict_get terraform_type CLI_COMMANDS with
        | None => None
        | Some cfg =>
            let base_cmd := update cfg in
            let name_param := resource_name_param cfg in
            let params := base_params name_param (ResourceDifference.resource_name diff) in
            let prop_mapping := dict_get_default terraform_type [] PROPERTY_MAPPINGS in
            let params :=
              fold_left (update_param prop_mapping)
                (ResourceDifference.property_differences diff) params in
            if (length params <=? 3)%nat then None
            else
              let cmd_str := _build_command_string base_cmd params in
              let changed_props :=
                map PropertyDifference.property_path
                    (ResourceDifference.property_differences diff) in
              Some (CliCommand.mk cmd_str
                      ("Update " +:+ terraform_type +:+ " '" +:+
                       ResourceDifference.resource_name diff +:+ "' - properties: " +:+
                       PyStr.join ", " changed_props)
                      "update"
                      (ResourceDifference.resource_name diff)
                      (ResourceDifference.resource_type diff)
                      (ResourceDifference.risk_level diff)
                      params)
        end
  | None => None
  end.

(** The body of the loop of [generate_commands]: the command, if any,
    that one difference contributes. *)
Definition command_of (diff : ResourceDifference.t) : option CliCommand.t :=
  match ResourceDifference.difference_type diff with
  | MISSING_IN_AZURE => _generate_create_command diff
  | PROPERTY_DRIFT => _generate_update_command diff
  | MISSING_IN_TERRAFORM => None
  end.

Definition generate_commands (comparison_result : ComparisonResult.t) : list CliCommand.t :=
  fold_left
    (fun commands diff =>
       match command_of diff with
       | Some cmd => commands ++ [cmd]
       | None => commands
       end)
    (ComparisonResult.differences comparison_result) [].

End Generator.

End CliCommandGenerator.

(** The module-level [generate_cli_commands]. *)
Definition generate_cli_commands (comparison_result : ComparisonResult.t)
    (subscription_id : option string) : list CliCommand.t :=
  CliCommandGenerator.generate_commands
    (ComparisonResult.resource_group comparison_result) subscription_id comparison_result.

(** * executor.py *)

(** More of [str]: replacement and slicing. *)
Module PyStr2.

(** [s.replace(old, new)] for a non-empty [old]: the occurrences of [old]
    are replaced from the left, without overlap. [skip] counts the
    characters of a replaced occurrence that are still to be passed. *)
Fixpoint replace_from (skip : nat) (old new s : string) : string :=
  match s with
  | EmptyString => EmptyString
  | String c s' =>
      match skip with
      | S k => replace_from k old new s'
      | O =>
          if PyStr.startswith old s
          then new +:+ replace_from (String.length old - 1) old new s'
          else String c (replace_from 0 old new s')
      end
  end.

Definition replace (old new s : string) : string := replace_from 0 old new s.

(** [s[:n]] *)
Fixpoint take (n : nat) (s : string) : string :=
  match n, s with
  | S n', String c s' => String c (take n' s')
  | _, _ => EmptyString
  end.

End PyStr2.

Inductive ExecutionStatus :=
  | PENDING_APPROVAL | APPROVED | REJECTED | EXECUTING | SUCCESS | FAILED | SKIPPED.

#[global] Instance ExecutionStatus_eq_dec : EqDecision ExecutionStatus.
Proof. solve_decision. Defined.

Module ExecutionResult.
Record t := mk {
  command : CliCommand.t;
  status : ExecutionStatus;
  stdout : string;
  stderr : string;
  return_code : option Z;
  error_message : string
}.
End ExecutionResult.

(** What [subprocess.run] does with a command line: it returns with an exit
    code and the two captured streams, or raises [TimeoutExpired], or
    raises something else (whose text is [message]). *)
Inductive shell_outcome :=
  | Exited (returncode : Z) (stdout stderr : string)
  | TimeoutExpired
  | OtherException (message : string).

Module CommandExecutor.

Record t := mk {
  dry_run : bool;
  _approved_commands : gset Z;
  _rejected_commands : gset Z
}.

(** [CommandExecutor(dry_run)] *)
Definition init (dry_run : bool) : t := mk dry_run ∅ ∅.

Definition set_approval (self : t) (command_index : Z) (approved : bool) : t :=
  if approved then
    mk (dry_run self)
       ({[ command_index ]} ∪ _approved_commands self)
       (_rejected_commands self ∖ {[ command_index ]})
  else
    mk (dry_run self)
       (_approved_commands self ∖ {[ command_index ]})
       ({[ command_index ]} ∪ _rejected_commands self).

Definition approve_all (self : t) (commands : list CliCommand.t) : t :=
  mk (dry_run self)
     (fold_left (fun approved i => {[ Z.of_nat i ]} ∪ approved)
                (seq 0 (length commands)) (_approved_commands self))
     (_rejected_commands self).

Definition is_approved (self : t) (command_index : Z) : bool :=
  bool_decide (command_index ∈ _approved_commands self).

Section Shell.
(** The shell: the outcome of running a command line, given the command
    lines run before it. *)
Variable shell : list string -> string -> shell_outcome.

(** [_execute_command]: the result, and the command lines run so far with
    this one added. *)
Definition _execute_command (ran : list string) (command : CliCommand.t)
    : ExecutionResult.t * list string :=
  let cmd_str :=
    PyStr2.replace CliCommandGenerator.continuation " " (CliCommand.command command) in
  let result :=
    match shell ran cmd_str with
    | Exited returncode stdout stderr =>
        if (returncode =? 0)%Z then
          ExecutionResult.mk command SUCCESS stdout stderr (Some returncode) ""
        else
          ExecutionResult.mk command FAILED stdout stderr (Some returncode)
            ("Command failed with exit code " +:+ pretty returncode)
    | TimeoutExpired =>
        ExecutionResult.mk command FAILED "" "" None "Command timed out after 5 minutes"
    | OtherException message =>
        ExecutionResult.mk command FAILED "" "" None message
    end in
  (result, ran ++ [cmd_str]).

(** The body of the loop of [execute] for the command at index [i]. *)
Definition execute_one (self : t) (ran : list string) (i : nat) (cmd : CliCommand.t)
    : ExecutionResult.t * list string :=
  if bool_decide (Z.of_nat i ∈ _rejected_commands self) then
    (ExecutionResult.mk cmd REJECTED "" "" None "", ran)
  else if negb (bool_decide (Z.of_nat i ∈ _approved_commands self)) then
    (ExecutionResult.mk cmd PENDING_APPROVAL "" "" None "", ran)
  else if dry_run self then
    (ExecutionResult.mk cmd SKIPPED "" "" None "Dry run mode - command not executed", ran)
  else _execute_command ran cmd.

(** The loop of [execute] from index [i] on. *)
Fixpoint execute_from (self : t) (i : nat) (commands : list CliCommand.t)
    (ran : list string) : list ExecutionResult.t * list string :=
  match commands with
  | [] => ([], ran)
  | cmd :: rest =>
      let '(result, ran1) := execute_one self ran i cmd in
      let '(results, ran2) := execute_from self (S i) rest ran1 in
      (result :: results, ran2)
  end.

(** [execute]: the results, and the command lines run. *)
Definition execute (self : t) (commands : list CliCommand.t) (ran : list string)
    : list ExecutionResult.t * list string :=
  execute_from self 0 commands ran.

Definition execute_single (self : t) (command : CliCommand.t) (approved : bool)
    (ran : list string) : ExecutionResult.t * list string :=
  if negb approved then
    (ExecutionResult.mk command PENDING_APPROVAL "" "" None "", ran)
  else if dry_run self then
    (ExecutionResult.mk command SKIPPED "" "" None "Dry run mode - command not executed", ran)
  else _execute_command ran command.

End Shell.

End CommandExecutor.

(** The module-level [execute_with_approval]; [approved_indices] is [None]
    or a list of integers. *)
Definition execute_with_approval (shell : list string -> string -> shell_outcome)
    (commands : list CliCommand.t) (approved_indices : option (list Z)) (dry_run : bool)
    (ran : list string) : list ExecutionResult.t * list string :=
  let executor := CommandExecutor.init dry_run in
  let executor :=
    match approved_indices with
    | Some (idx :: rest) =>
        fold_left (fun ex i => CommandExecutor.set_approval ex i true) (idx :: rest) executor
    | _ => executor
    end in
  CommandExecutor.execute shell executor commands ran.

(** * agent_tools.py *)

(** The dictionary that [execute_commands] hands to [json.dumps], by the
    value of its [status] entry. *)
Inductive execute_response :=
  | Response_error (error : string)
  | Response_pending_approval (message : string)
      (commands : list (nat * string * RiskLevel * string))
  | Response_completed (dry_run : bool) (total success failed : nat)
      (results : list ExecutionResult.t).

(** [[x for i, x in enumerate(l) if keep(i)]], counting from [i]. *)
Fixpoint select_from {A : Type} (keep : nat -> bool) (i : nat) (l : list A) : list A :=
  match l with
  | [] => []
  | x :: l' => if keep i then x :: select_from keep (S i) l' else select_from keep (S i) l'
  end.

(** [execute_commands]; [session_commands] is the entry [commands] of the
    session state, if there is one. *)
Definition execute_commands (shell : list string -> string -> shell_outcome)
    (session_commands : option (list CliCommand.t))
    (command_indices : option (list Z)) (dry_run : bool) (ran : list string)
    : execute_response * list string :=
  match session_commands with
  | None =>
      (Response_error "No commands generated. Call generate_alignment_commands first.", ran)
  | Some commands =>
      match command_indices with
      | None | Some [] =>
          (Response_pending_approval
             "Please specify which commands to execute by their indices."
             (imap (fun i cmd =>
                      (i, CliCommand.description cmd, CliCommand.risk_level cmd,
                       CliCommand.command cmd))
                   commands),
           ran)
      | Some indices =>
          let invalid :=
            List.filter (fun i => (i <? 0)%Z || (Z.of_nat (length commands) <=? i)%Z) indices in
          match invalid with
          | _ :: _ =>
              (Response_error
                 ("Invalid command indices: " +:+ py_repr (VList (VInt <$> invalid))),
               ran)
          | [] =>
              let '(results, ran') :=
                execute_with_approval shell commands (Some indices) dry_run ran in
              let filtered_results :=
                select_from (fun i => bool_decide (Z.of_nat i ∈ indices)) 0 results in
              let success_count :=
                length (List.filter
                          (fun r => bool_decide (ExecutionResult.status r = SUCCESS))
                          filtered_results) in
              let failed_count :=
                length (List.filter
                          (fun r => bool_decide (ExecutionResult.status r = FAILED))
                          filtered_results) in
              (Response_completed dry_run (length filtered_results)
                 success_count failed_count filtered_results,
               ran')
          end
      end
  end.

(** * report_generator.py *)

Module MarkdownReportGenerator.

(** The two literals of the boolean case are the characters the source
    file holds. *)
Definition _format_value (v : value) : string :=
  match v with
  | VNone => "*not set*"
  | VBool b => if b then "âœ“" else "âœ—"
  | VDict d =>
      match d with
      | [] => "*empty*"
      | _ => PyStr.join ", "
               (map (fun kv : string * value => kv.1 +:+ "=" +:+ py_str kv.2) (take 3 d))
      end
  | VList l =>
      match l with
      | [] => "*empty*"
      | _ => PyStr.join ", " (map py_str (take 3 l))
      end
  | _ =>
      let str_val := py_str v in
      if (50 <? String.length str_val)%nat
      then PyStr2.take 47 str_val +:+ "..."
      else str_val
  end.

End MarkdownReportGenerator.

(** * Vocabulary of the specification *)

(** The text of a parameter still holds an unresolved marker or an
    unresolved variable expression. *)
Definition holds_unresolved (s : string) : bool :=
  PyStr.contains "<variable:" s || PyStr.contains "${" s.

(** The text holds no dot. *)
Fixpoint dot_free (s : string) : bool :=
  match s with
  | EmptyString => true
  | String c s' => negb (Ascii.eqb c ".") && dot_free s'
  end.

(** The leaf field name of a dotted path: the path itself when it has no
    dot, and otherwise what follows its last dot. This is stated on the
    text of the path and not through the code's [split]. *)
Inductive leaf_of : string → string → Prop :=
  | leaf_of_plain (leaf : string) :
      dot_free leaf = true → leaf_of leaf leaf
  | leaf_of_dotted (prefix leaf : string) :
      dot_free leaf = true → leaf_of (prefix +:+ "." +:+ leaf) leaf.

(** Some field difference of the list has its leaf field name in [names]. *)
Definition some_leaf_in (names : list string) (fds : list PropertyDifference.t) : Prop :=
  Exists (fun fd => ∃ leaf, leaf_of (PropertyDifference.property_path fd) leaf
                            ∧ leaf ∈ names) fds.

(** The two sets of field names of the specification, by the names the
    declarative fields bear: the admin credentials are [admin_username]
    and [admin_password], and the sku is the field [sku_name]. *)
Definition high_risk_names : list string :=
  [ "network_rules"; "access_policies"; "security_rules";
    "admin_username"; "admin_password"; "sku_name"; "size" ].
Definition medium_risk_names : list string :=
  [ "location"; "address_space"; "subnets"; "vm_size" ].

(** The risk the specification assigns to a difference. *)
Definition risk_as_specified (d : ResourceDifference.t) : Prop :=
  let fds := ResourceDifference.property_differences d in
  let high := some_leaf_in high_risk_names fds in
  let medium := some_leaf_in medium_risk_names fds in
  match ResourceDifference.difference_type d with
  | PROPERTY_DRIFT =>
      (ResourceDifference.risk_level d = HIGH ↔ high)
      ∧ (ResourceDifference.risk_level d = MEDIUM ↔ ¬ high ∧ medium)
      ∧ (ResourceDifference.risk_level d = LOW ↔ ¬ high ∧ ¬ medium)
  | MISSING_IN_AZURE => ResourceDifference.risk_level d = MEDIUM
  | MISSING_IN_TERRAFORM => ResourceDifference.risk_level d = LOW
  end.

(** * Scenarios *)

Module Scenario.

Definition live (name resource_type location : string)
    (tags properties : pydict value) : AzureResource.t :=
  AzureResource.mk name resource_type location "rg-demo"
    ("/subscriptions/0000/resourceGroups/rg-demo/providers/" +:+ resource_type +:+ "/" +:+ name)
    tags properties None None.

(** The resource definition the parser builds from a block when no
    variable is declared and no override is given. *)
Definition declared (resource_type block_name : string) (block : pydict value)
    : TerraformResource.t :=
  TerraformParser.parse_resource [] [] resource_type block_name block.

(** What [compare] returns, with an empty result standing for a raise. *)
Definition compared (azure_resources : list AzureResource.t)
    (terraform_resources : list TerraformResource.t) : ComparisonResult.t :=
  match ComparisonEngine.compare "rg-demo" azure_resources terraform_resources with
  | Ok r => r
  | Raise _ => ComparisonResult.mk "" [] 0 0 0
  end.

(** A virtual network that drifted in its location only. *)
Definition vnet_tf : TerraformResource.t :=
  declared "azurerm_virtual_network" "core"
    [ ("name", VStr "vnet-core"); ("location", VStr "eastus") ].
Definition vnet_az : AzureResource.t :=
  live "vnet-core" "Microsoft.Network/virtualNetworks" "westus2" [] [].

(** A virtual machine that drifted in its location and its size. *)
Definition vm_tf : TerraformResource.t :=
  declared "azurerm_linux_virtual_machine" "app1"
    [ ("name", VStr "vm-app1"); ("location", VStr "eastus"); ("size", VStr "Standard_B2s") ].
Definition vm_az : AzureResource.t :=
  live "vm-app1" "Microsoft.Compute/virtualMachines" "westus2" []
    [ ("vm_size", VStr "Standard_D4s_v3") ].

(** A declared security group without a live counterpart, and a live
    public address without a declaration. *)
Definition nsg_tf : TerraformResource.t :=
  declared "azurerm_network_security_group" "web" [ ("name", VStr "nsg-web") ].
Definition pip_az : AzureResource.t :=
  live "pip-1" "Microsoft.Network/publicIPAddresses" "eastus" [] [].

(** A storage account whose tier is an undeclared variable. *)
Definition storage_tf : TerraformResource.t :=
  declared "azurerm_storage_account" "st"
    [ ("name", VStr "acct1"); ("location", VStr "eastus");
      ("account_tier", VStr "${var.tier}") ].

(** A storage account whose location is an undeclared variable, and its
    live counterpart. *)
Definition storage_loc_tf : TerraformResource.t :=
  declared "azurerm_storage_account" "st"
    [ ("name", VStr "acct1"); ("location", VStr "${var.loc}") ].
Definition storage_az : AzureResource.t :=
  live "acct1" "Microsoft.Storage/storageAccounts" "eastus" [] [].

(** A storage account declared as MyAcct, its live counterpart in lower
    case, and a live virtual network of the same name. *)
Definition myacct_tf : TerraformResource.t :=
  declared "azurerm_storage_account" "main"
    [ ("name", VStr "MyAcct"); ("location", VStr "eastus") ].
Definition myacct_az : AzureResource.t :=
  live "myacct" "Microsoft.Storage/storageAccounts" "eastus" [] [].
Definition myacct_vnet_az : AzureResource.t :=
  live "myacct" "Microsoft.Network/virtualNetworks" "eastus" [] [].

(** A resource whose name is an undeclared variable. *)
Definition unnamed_tf : TerraformResource.t :=
  declared "azurerm_storage_account" "logs"
    [ ("name", VStr "${var.prefix}"); ("location", VStr "eastus") ].

End Scenario.

(** A security group whose tag value is an undeclared variable. *)
Definition tagged_nsg_tf : TerraformResource.t :=
  Scenario.declared "azurerm_network_security_group" "web"
    [ ("name", VStr "nsg-web"); ("tags", VDict [ ("env", VStr "${var.env}") ]) ].

(** A live record has exactly the canonical type [ty] and, up to letter
    case, the name whose lower-cased form is [key]. *)
Definition live_identity (ty key : string) (az : AzureResource.t) : bool :=
  String.eqb (AzureResource.resource_type az) ty
  && String.eqb (PyStr.lower (AzureResource.name az)) key.

(** The same for a declarative record, through the type table. *)
Definition declared_identity (ty key : string) (tf : TerraformResource.t) : bool :=
  String.eqb (canonical_type (TerraformResource.terraform_type tf)) ty
  && String.eqb (ComparisonEngine.name_key tf) key.

(** The live record a declarative resource is matched with: the last one
    of the inventory with its canonical type and its name up to case. *)
Definition live_match (azure_resources : list AzureResource.t)
    (tf : TerraformResource.t) : option AzureResource.t :=
  find (live_identity (canonical_type (TerraformResource.terraform_type tf))
          (ComparisonEngine.name_key tf))
       (rev azure_resources).

(** How a difference of a result relates to the two inventories. *)
Definition matched_as_specified (azure_resources : list AzureResource.t)
    (terraform_resources : list TerraformResource.t) (d : ResourceDifference.t) : Prop :=
  match ResourceDifference.difference_type d with
  | PROPERTY_DRIFT =>
      ∃ tf az, ResourceDifference.terraform_resource d = Some tf
               ∧ ResourceDifference.azure_resource d = Some az
               ∧ tf ∈ terraform_resources
               ∧ live_match azure_resources tf = Some az
  | MISSING_IN_AZURE =>
      ∃ tf, ResourceDifference.terraform_resource d = Some tf
            ∧ tf ∈ terraform_resources
            ∧ live_match azure_resources tf = None
  | MISSING_IN_TERRAFORM =>
      ∃ az, ResourceDifference.azure_resource d = Some az ∧ az ∈ azure_resources
  end.

(** Every record held by an index comes from the list it was built from. *)
Definition index_within {B : Type} (index : pydict (pydict B)) (l : list B) : Prop :=
  ∀ ty rs key r, (ty, rs) ∈ index → (key, r) ∈ rs → r ∈ l.

(** The variable [x] has no override and no default to resolve to. *)
Definition unresolvable (tfvars : pydict value) (variables : pydict TerraformVariable.t)
    (x : string) : Prop :=
  dict_get x tfvars = None
  ∧ match dict_get x variables with
    | Some var => TerraformVariable.default var = VNone
    | None => True
    end.

(** A result with one more declarative resource counted. *)
Definition count_declared (r : ComparisonResult.t) : ComparisonResult.t :=
  ComparisonResult.mk
    (ComparisonResult.resource_group r)
    (ComparisonResult.differences r)
    (ComparisonResult.azure_resource_count r)
    (S (ComparisonResult.terraform_resource_count r))
    (ComparisonResult.matched_count r).

(** The lower-cased, trimmed form of a string. *)
Definition norm_str (s : string) : string := PyStr.strip (PyStr.lower s).

(** A list of strings as a Python list of string values. *)
Definition str_list (l : list string) : value := VList (VStr <$> l).

(** [sorted] on strings: the insertion sort of [sorted], specialised. *)
Fixpoint str_insert (x : string) (l : list string) : list string :=
  match l with
  | [] => [x]
  | y :: l' => if String.ltb y x then y :: str_insert x l' else x :: l
  end.

Fixpoint str_sort (l : list string) : list string :=
  match l with
  | [] => []
  | x :: l' => str_insert x (str_sort l')
  end.

(** A tag map with string values, as the value [_compare_tags] receives. *)
Definition str_tags (tags : pydict string) : value :=
  VDict ((fun kv : string * string => (kv.1, VStr kv.2)) <$> tags).

(** The value of the tag named [key] up to letter case; of several tags
    whose names agree up to case, the last one counts. *)
Definition tag_lookup (tags : pydict string) (key : string) : option string :=
  snd <$> find (fun kv : string * string => String.eqb (PyStr.lower kv.1) key) (rev tags).

(** The field differences reported under one path. *)
Definition at_path (path : string) (diffs : list PropertyDifference.t)
    : list PropertyDifference.t :=
  filter (fun d => PropertyDifference.property_path d = path) diffs.

(** What the specification reports for one tag key. *)
Definition tag_report (key : string) (declared live : option string)
    : list PropertyDifference.t :=
  match declared, live with
  | None, _ => []
  | Some v, None =>
      [ PropertyDifference.mk ("tags." +:+ key) (VStr v) VNone
          ("Tag '" +:+ key +:+ "' missing in Azure") ]
  | Some v, Some w =>
      if decide (v = w) then []
      else [ PropertyDifference.mk ("tags." +:+ key) (VStr v) (VStr w)
               ("Tag '" +:+ key +:+ "' value differs") ]
  end.

(** A field difference adds a parameter to an update command: its leaf
    name has a CLI parameter and its declarative value is set and passes
    [_is_variable]. *)
Definition contributes (prop_mapping : pydict string) (fd : PropertyDifference.t) : bool :=
  match dict_get (PyStr.last_part (PropertyDifference.property_path fd)) prop_mapping,
        PropertyDifference.terraform_value fd with
  | None, _ => false
  | Some _, VNone => false
  | Some _, v => negb (CliCommandGenerator._is_variable v)
  end.

(** The keys of the identity and scope parameters. *)
Definition identity_keys : list string := [ "--name"; "--resource-group"; "--subscription" ].

(** Two security groups declared under the same name. *)
Definition nsg_twice : list TerraformResource.t :=
  [ Scenario.declared "azurerm_network_security_group" "web"
      [ ("name", VStr "nsg-web"); ("location", VStr "eastus") ];
    Scenario.declared "azurerm_network_security_group" "web_copy"
      [ ("name", VStr "NSG-Web"); ("location", VStr "westus2") ] ].

(** ** Vocabulary for the executor *)

(** The command line handed to the shell for a command. *)
Definition command_line (cmd : CliCommand.t) : string :=
  PyStr2.replace CliCommandGenerator.continuation " " (CliCommand.command cmd).

(** The command at index [i] is handed to the shell: it is approved, not
    rejected, and the executor is not in dry-run mode. *)
Definition runs (self : CommandExecutor.t) (i : nat) : bool :=
  bool_decide (Z.of_nat i ∈ CommandExecutor._approved_commands self)
  && negb (bool_decide (Z.of_nat i ∈ CommandExecutor._rejected_commands self))
  && negb (CommandExecutor.dry_run self).

(** The statuses [execute] can give the command at index [i]. *)
Definition status_allowed (self : CommandExecutor.t) (i : nat) (st : ExecutionStatus) : Prop :=
  let approved := Z.of_nat i ∈ CommandExecutor._approved_commands self in
  let rejected := Z.of_nat i ∈ CommandExecutor._rejected_commands self in
  match st with
  | REJECTED => rejected
  | PENDING_APPROVAL => ¬ rejected ∧ ¬ approved
  | SKIPPED => ¬ rejected ∧ approved ∧ CommandExecutor.dry_run self = true
  | SUCCESS | FAILED => ¬ rejected ∧ approved ∧ CommandExecutor.dry_run self = false
  | APPROVED | EXECUTING => False
  end.

(** The text holds no line feed. *)
Fixpoint no_line_feed (s : string) : bool :=
  match s with
  | EmptyString => true
  | String c s' => negb (Ascii.eqb (ascii_of_nat 10) c) && no_line_feed s'
  end.

(** ** Vocabulary for the results of a comparison *)

(** The loop of [compare] passes over the resource: its lower-cased name
    holds the unresolved marker. *)
Definition skipped (tf : TerraformResource.t) : bool :=
  PyStr.contains "<variable:" (ComparisonEngine.name_key tf).

(** The key under which [compare] records a matched live resource. *)
Definition match_key (ty name : string) : string := ty +:+ ":" +:+ name.

(** The three shapes of an entry of a result, with what [compare] found
    when it made the entry. *)
Inductive produced (azure_resources : list AzureResource.t)
    (terraform_resources : list TerraformResource.t) : ResourceDifference.t → Prop :=
  | produced_missing (tf : TerraformResource.t) :
      tf ∈ terraform_resources →
      skipped tf = false →
      live_match azure_resources tf = None →
      produced azure_resources terraform_resources
        (ResourceDifference.mk MISSING_IN_AZURE
           (ComparisonEngine.display_name tf)
           (canonical_type (TerraformResource.terraform_type tf))
           (Some (TerraformResource.terraform_type tf)) (Some tf) None [] MEDIUM)
  | produced_drift (tf : TerraformResource.t) (az : AzureResource.t)
      (fds : list PropertyDifference.t) :
      tf ∈ terraform_resources →
      skipped tf = false →
      live_match azure_resources tf = Some az →
      ComparisonEngine._compare_properties tf az = Ok fds →
      fds ≠ [] →
      produced azure_resources terraform_resources
        (ResourceDifference.mk PROPERTY_DRIFT
           (AzureResource.name az)
           (canonical_type (TerraformResource.terraform_type tf))
           (Some (TerraformResource.terraform_type tf)) (Some tf) (Some az)
           fds (ComparisonEngine._assess_risk fds))
  | produced_unmanaged (az : AzureResource.t) :
      az ∈ azure_resources →
      find (live_identity (AzureResource.resource_type az)
              (PyStr.lower (AzureResource.name az)))
           (rev azure_resources) = Some az →
      produced azure_resources terraform_resources
        (ResourceDifference.mk MISSING_IN_TERRAFORM
           (AzureResource.name az) (AzureResource.resource_type az)
           None None (Some az) [] LOW).

(** The keys of an index and of each of its inner dictionaries are
    distinct. *)
Definition index_wf {B : Type} (index : pydict (pydict B)) : Prop :=
  NoDup (dict_keys index) ∧ ∀ ty rs, (ty, rs) ∈ index → NoDup (dict_keys rs).

(** The dictionaries of a value have distinct keys, at every depth: the
    invariant of a Python dictionary, which a list of bindings need not
    have. *)
Fixpoint keys_distinct (v : value) : Prop :=
  match v with
  | VList l =>
      (fix go (l : list value) : Prop :=
         match l with
         | [] => True
         | x :: l' => keys_distinct x ∧ go l'
         end) l
  | VDict d =>
      NoDup (dict_keys d)
      ∧ (fix go (d : list (string * value)) : Prop :=
           match d with
           | [] => True
           | (_, x) :: d' => keys_distinct x ∧ go d'
           end) d
  | _ => True
  end.

(** Induction on a value with the hypothesis for every element of a list
    and every binding of a dictionary. *)
Fixpoint value_nested_ind (P : value → Prop)
    (HNone : P VNone) (HBool : ∀ b, P (VBool b)) (HInt : ∀ n, P (VInt n))
    (HStr : ∀ s, P (VStr s))
    (HList : ∀ l, List.Forall P l → P (VList l))
    (HDict : ∀ d, List.Forall (fun kv : string * value => P kv.2) d → P (VDict d))
    (v : value) : P v :=
  match v with
  | VNone => HNone
  | VBool b => HBool b
  | VInt n => HInt n
  | VStr s => HStr s
  | VList l =>
      HList l
        ((fix go (l : list value) : List.Forall P l :=
            match l with
            | [] => @List.Forall_nil _ P
            | x :: l' =>
                @List.Forall_cons _ P x l'
                  (value_nested_ind P HNone HBool HInt HStr HList HDict x) (go l')
            end) l)
  | VDict d =>
      HDict d
        ((fix go (d : list (string * value))
            : List.Forall (fun kv : string * value => P kv.2) d :=
            match d with
            | [] => @List.Forall_nil _ (fun kv : string * value => P kv.2)
            | (k, x) :: d' =>
                @List.Forall_cons _ (fun kv : string * value => P kv.2) (k, x) d'
                  (value_nested_ind P HNone HBool HInt HStr HList HDict x) (go d')
            end) d)
  end.

(** * Properties *)

(** ** Dictionaries and loops *)

Section DictFacts.
Context {A : Type}.
Implicit Types (d : pydict A) (k : string) (v : A).

Lemma dict_get_set k k' v d :
  dict_get k (dict_set k' v d) = if String.eqb k k' then Some v else dict_get k d.
Proof.
  induction d as [|[k0 v0] d IH]; simpl.
  - destruct (String.eqb k k'); reflexivity.
  - destruct (String.eqb k' k0) eqn:E0; simpl.
    + apply String.eqb_eq in E0; subst k0.
      destruct (String.eqb k k'); reflexivity.
    + rewrite IH. destruct (String.eqb k k') eqn:E1; [|reflexivity].
      apply String.eqb_eq in E1; subst k'. rewrite E0. reflexivity.
Qed.

Lemma dict_get_set_eq k v d : dict_get k (dict_set k v d) = Some v.
Proof. rewrite dict_get_set, String.eqb_refl. reflexivity. Qed.

Lemma dict_get_set_ne k k' v d :
  k ≠ k' → dict_get k (dict_set k' v d) = dict_get k d.
Proof.
  intros Hne. rewrite dict_get_set.
  destruct (String.eqb k k') eqn:E; [|reflexivity].
  apply String.eqb_eq in E. contradiction.
Qed.

Lemma dict_get_Some_keys k v d : dict_get k d = Some v → k ∈ dict_keys d.
Proof.
  induction d as [|[k0 v0] d IH]; simpl; [discriminate|].
  destruct (String.eqb k k0) eqn:E.
  - apply String.eqb_eq in E; subst. intros _. left.
  - intros H. right. auto.
Qed.

Lemma dict_get_None_keys k d : dict_get k d = None ↔ k ∉ dict_keys d.
Proof.
  induction d as [|[k0 v0] d IH]; simpl.
  - split; [intros _; apply not_elem_of_nil | reflexivity].
  - rewrite not_elem_of_cons. destruct (String.eqb k k0) eqn:E.
    + apply String.eqb_eq in E; subst. split; [discriminate | intros [[] _]; reflexivity].
    + apply String.eqb_neq in E. rewrite IH. tauto.
Qed.

Lemma dict_mem_keys k d : dict_mem k d = true ↔ k ∈ dict_keys d.
Proof.
  unfold dict_mem. destruct (dict_get k d) eqn:E.
  - split; [intros _; eauto using dict_get_Some_keys | reflexivity].
  - split; [discriminate|]. intros Hin. apply dict_get_None_keys in E. contradiction.
Qed.

Lemma dict_keys_set k v d :
  dict_keys (dict_set k v d) =
  if dict_mem k d then dict_keys d else dict_keys d ++ [k].
Proof.
  unfold dict_mem. induction d as [|[k0 v0] d IH]; simpl; [reflexivity|].
  destruct (String.eqb k k0) eqn:E; simpl.
  - apply String.eqb_eq in E; subst. reflexivity.
  - rewrite IH. destruct (dict_get k d); reflexivity.
Qed.

Lemma dict_keys_set_NoDup k v d : NoDup (dict_keys d) → NoDup (dict_keys (dict_set k v d)).
Proof.
  intros Hnd. rewrite dict_keys_set. destruct (dict_mem k d) eqn:E; [assumption|].
  apply NoDup_app. split; [assumption|]. split; [|apply NoDup_singleton].
  intros x Hx Hk. apply list_elem_of_singleton in Hk; subst x.
  apply dict_mem_keys in Hx. congruence.
Qed.

End DictFacts.

Lemma foldM_app {A S : Type} (f : S → A → result S) (l1 l2 : list A) (s : S) :
  foldM f (l1 ++ l2) s = (s' ← foldM f l1 s; foldM f l2 s').
Proof.
  revert s. induction l1 as [|x l1 IH]; intros s; simpl; [reflexivity|].
  destruct (f s x) as [s'|e]; simpl; [apply IH | reflexivity].
Qed.

(** ** Synthesis emits creations and updates only *)

Section Synthesis.
Variable resource_group : string.
Variable subscription_id : option string.

#[local] Abbreviation command_of :=
  (CliCommandGenerator.command_of resource_group subscription_id).
#[local] Abbreviation generate_commands :=
  (CliCommandGenerator.generate_commands resource_group subscription_id).

Lemma generate_commands_loop (l : list ResourceDifference.t) (acc : list CliCommand.t) :
  fold_left
    (fun commands diff =>
       match command_of diff with
       | Some cmd => commands ++ [cmd]
       | None => commands
       end) l acc
  = acc ++ omap command_of l.
Proof.
  revert acc. induction l as [|d l IH]; intros acc; simpl.
  - rewrite app_nil_r. reflexivity.
  - rewrite IH. destruct (command_of d); [|reflexivity].
    rewrite <- app_assoc. reflexivity.
Qed.

Lemma generate_commands_omap (r : ComparisonResult.t) :
  generate_commands r = omap command_of (ComparisonResult.differences r).
Proof. unfold CliCommandGenerator.generate_commands. apply generate_commands_loop. Qed.

Lemma create_command_action diff cmd :
  CliCommandGenerator._generate_create_command resource_group subscription_id diff = Some cmd →
  CliCommand.action cmd = "create".
Proof.
  unfold CliCommandGenerator._generate_create_command.
  intros H. repeat case_match; simplify_eq; reflexivity.
Qed.

Lemma update_command_action diff cmd :
  CliCommandGenerator._generate_update_command resource_group subscription_id diff = Some cmd →
  CliCommand.action cmd = "update".
Proof.
  unfold CliCommandGenerator._generate_update_command.
  intros H. repeat case_match; simplify_eq; reflexivity.
Qed.

Lemma command_of_action diff cmd :
  command_of diff = Some cmd →
  (ResourceDifference.difference_type diff = MISSING_IN_AZURE ∧ CliCommand.action cmd = "create")
  ∨ (ResourceDifference.difference_type diff = PROPERTY_DRIFT ∧ CliCommand.action cmd = "update").
Proof.
  unfold CliCommandGenerator.command_of.
  destruct (ResourceDifference.difference_type diff); intros H.
  - left. eauto using create_command_action.
  - discriminate.
  - right. eauto using update_command_action.
Qed.

Lemma omap_command_of_length (l : list ResourceDifference.t) :
  length (omap command_of l)
  ≤ length (filter (fun d => ResourceDifference.difference_type d = MISSING_IN_AZURE) l)
    + length (filter (fun d => ResourceDifference.difference_type d = PROPERTY_DRIFT) l).
Proof.
  induction l as [|d l IH]; [simpl; lia|].
  change (omap command_of (d :: l))
    with (match command_of d with
          | Some cmd => cmd :: omap command_of l
          | None => omap command_of l
          end).
  rewrite !filter_cons.
  destruct (command_of d) as [cmd|] eqn:E.
  - apply command_of_action in E as [[-> _]|[-> _]];
      repeat case_decide; try discriminate; try congruence; cbn [length]; lia.
  - repeat case_decide; cbn [length]; lia.
Qed.

Lemma omap_command_of_informational (l : list ResourceDifference.t) :
  omap command_of l
  = omap command_of
      (filter (fun d => ResourceDifference.difference_type d ≠ MISSING_IN_TERRAFORM) l).
Proof.
  induction l as [|d l IH]; [reflexivity|].
  rewrite filter_cons.
  change (omap command_of (d :: l))
    with (match command_of d with
          | Some cmd => cmd :: omap command_of l
          | None => omap command_of l
          end).
  case_decide as Hd.
  - change (omap command_of (d :: ?l'))
      with (match command_of d with
            | Some cmd => cmd :: omap command_of l'
            | None => omap command_of l'
            end).
    rewrite <- IH. reflexivity.
  - rewrite <- IH.
    unfold CliCommandGenerator.command_of at 1. rewrite Hd. reflexivity.
Qed.

End Synthesis.

(** Claim C2. Whatever the comparison result, every synthesized action is a
    creation or an update (there is no deletion), there are at most as many
    actions as differences of kind missing-in-Azure plus property-drift,
    and a difference of kind missing-in-Terraform contributes nothing: it
    yields no command, and removing all such differences leaves the action
    list unchanged. *)
Theorem C2_actions_create_or_update_only
    (resource_group : string) (subscription_id : option string)
    (r : ComparisonResult.t) :
  let commands := CliCommandGenerator.generate_commands resource_group subscription_id r in
  Forall (fun cmd => CliCommand.action cmd = "create" ∨ CliCommand.action cmd = "update")
         commands
  ∧ length commands
    ≤ length (ComparisonResult.missing_in_azure r) + length (ComparisonResult.drifted r)
  ∧ (∀ d, d ∈ ComparisonResult.differences r →
          ResourceDifference.difference_type d = MISSING_IN_TERRAFORM →
          CliCommandGenerator.command_of resource_group subscription_id d = None)
  ∧ commands
    = CliCommandGenerator.generate_commands resource_group subscription_id
        (ComparisonResult.mk
           (ComparisonResult.resource_group r)
           (filter (fun d => ResourceDifference.difference_type d ≠ MISSING_IN_TERRAFORM)
                   (ComparisonResult.differences r))
           (ComparisonResult.azure_resource_count r)
           (ComparisonResult.terraform_resource_count r)
           (ComparisonResult.matched_count r)).
Proof.
  intros commands. subst commands. rewrite !generate_commands_omap. simpl.
  repeat split.
  - apply Forall_forall. intros cmd Hin.
    apply list_elem_of_omap in Hin as (d & _ & Hd).
    apply command_of_action in Hd as [[_ ->]|[_ ->]]; auto.
  - apply omap_command_of_length.
  - intros d _ Hd. unfold CliCommandGenerator.command_of. rewrite Hd. reflexivity.
  - apply omap_command_of_informational.
Qed.

(** ** Risk classification *)

Lemma foldM_invariant {A S : Type} (P : S → Prop) (f : S → A → result S) (l : list A) :
  (∀ s x s', P s → f s x = Ok s' → P s') →
  ∀ s s', P s → foldM f l s = Ok s' → P s'.
Proof.
  intros Hstep. induction l as [|x l IH]; intros s s' Hs; simpl.
  - intros [= <-]. exact Hs.
  - destruct (f s x) as [s1|e] eqn:E; simpl; [|discriminate].
    apply IH. eauto.
Qed.

Lemma split_cons (sep c : ascii) (s : string) :
  PyStr.split sep (String c s)
  = if Ascii.eqb c sep then EmptyString :: PyStr.split sep s
    else match PyStr.split sep s with
         | h :: t => String c h :: t
         | [] => [String c EmptyString]
         end.
Proof. reflexivity. Qed.

Lemma dot_free_cons (c : ascii) (s : string) :
  dot_free (String c s) = negb (Ascii.eqb c ".") && dot_free s.
Proof. reflexivity. Qed.

Lemma split_dot_free (s : string) :
  dot_free s = true → PyStr.split "." s = [s].
Proof.
  induction s as [|c s IH]; [reflexivity|].
  rewrite dot_free_cons, split_cons.
  intros [Hc Hs]%andb_prop. apply negb_true_iff in Hc.
  rewrite Hc, (IH Hs). reflexivity.
Qed.

(** The parts of a path with a dot end with the parts of what follows the
    dot, after at least one part. *)
Lemma split_after_dot (prefix rest : string) :
  ∃ h pre, PyStr.split "." (prefix +:+ "." +:+ rest) = (h :: pre) ++ PyStr.split "." rest.
Proof.
  induction prefix as [|c prefix (h & pre & IH)].
  - exists EmptyString, []. reflexivity.
  - change (String c prefix +:+ "." +:+ rest) with (String c (prefix +:+ "." +:+ rest)).
    rewrite split_cons, IH. destruct (Ascii.eqb c "."); eauto.
Qed.

Lemma split_shape (path : string) :
  (dot_free path = true ∧ PyStr.split "." path = [path])
  ∨ (∃ prefix leaf h pre,
       path = prefix +:+ "." +:+ leaf ∧ dot_free leaf = true
       ∧ PyStr.split "." path = (h :: pre) ++ [leaf]).
Proof.
  induction path as [|c path IH]; [left; split; reflexivity|].
  rewrite split_cons, dot_free_cons.
  destruct (Ascii.eqb c ".") eqn:Hc.
  - apply Ascii.eqb_eq in Hc. subst c. right.
    destruct IH as [[Hfree Hsplit]|(prefix & leaf & h & pre & -> & Hfree & Hsplit)].
    + exists EmptyString, path, EmptyString, []. rewrite Hsplit. auto.
    + exists (String "." prefix), leaf, EmptyString, (h :: pre). rewrite Hsplit. auto.
  - destruct IH as [[Hfree Hsplit]|(prefix & leaf & h & pre & -> & Hfree & Hsplit)].
    + left. rewrite Hsplit, Hfree. auto.
    + right. exists (String c prefix), leaf, (String c h), pre. rewrite Hsplit. auto.
Qed.

(** [split(".")[-1]] is the leaf field name of the path, and the only one. *)
Lemma last_part_leaf (path leaf : string) :
  leaf_of path leaf ↔ PyStr.last_part path = leaf.
Proof.
  unfold PyStr.last_part. split.
  - intros [l Hfree|prefix l Hfree].
    + rewrite (split_dot_free _ Hfree). reflexivity.
    + destruct (split_after_dot prefix l) as (h & pre & ->).
      rewrite (split_dot_free _ Hfree). apply last_last.
  - intros <-.
    destruct (split_shape path) as [[Hfree ->]|(prefix & l & h & pre & -> & Hfree & ->)].
    + apply leaf_of_plain, Hfree.
    + rewrite last_last. apply leaf_of_dotted, Hfree.
Qed.

Lemma existsb_in_set names fds :
  existsb (ComparisonEngine.in_set names) fds = true ↔ some_leaf_in names fds.
Proof.
  unfold some_leaf_in. rewrite existsb_exists, Exists_exists.
  setoid_rewrite <- list_elem_of_In.
  unfold ComparisonEngine.in_set, ComparisonEngine.leaf_name.
  split.
  - intros (fd & Hin & H). exists fd. split; [exact Hin|].
    apply bool_decide_eq_true in H.
    exists (PyStr.last_part (PropertyDifference.property_path fd)).
    split; [apply last_part_leaf; reflexivity | exact H].
  - intros (fd & Hin & leaf & Hleaf & H). exists fd. split; [exact Hin|].
    apply bool_decide_eq_true. apply last_part_leaf in Hleaf. rewrite Hleaf. exact H.
Qed.

Lemma assess_risk_spec (fds : list PropertyDifference.t) :
  let high := some_leaf_in ComparisonEngine.high_risk_properties fds in
  let medium := some_leaf_in ComparisonEngine.medium_risk_properties fds in
  (ComparisonEngine._assess_risk fds = HIGH ↔ high)
  ∧ (ComparisonEngine._assess_risk fds = MEDIUM ↔ ¬ high ∧ medium)
  ∧ (ComparisonEngine._assess_risk fds = LOW ↔ ¬ high ∧ ¬ medium).
Proof.
  intros high medium. subst high medium. unfold ComparisonEngine._assess_risk.
  rewrite <- !existsb_in_set.
  destruct (existsb _ fds); [|destruct (existsb _ fds)];
    repeat split; intros; try discriminate; try congruence; try tauto;
    intuition congruence.
Qed.

Lemma compare_step_risk azure_index st tf st' :
  Forall risk_as_specified (ComparisonEngine.differences st) →
  ComparisonEngine.compare_step azure_index st tf = Ok st' →
  Forall risk_as_specified (ComparisonEngine.differences st').
Proof.
  intros Hst. unfold ComparisonEngine.compare_step.
  destruct (PyStr.contains _ _); [intros [= <-]; exact Hst|].
  destruct (ComparisonEngine.index_lookup _ _ _) as [az|].
  - destruct (ComparisonEngine._compare_properties tf az) as [[|fd fds]|e]; simpl;
      intros [= <-]; simpl; [exact Hst|].
    apply Forall_app. split; [exact Hst|].
    apply Forall_singleton. unfold risk_as_specified; simpl.
    apply assess_risk_spec.
  - intros [= <-]; simpl. apply Forall_app. split; [exact Hst|].
    apply Forall_singleton. reflexivity.
Qed.

Lemma unmatched_azure_risk matched azure_index :
  Forall risk_as_specified (ComparisonEngine.unmatched_azure matched azure_index).
Proof.
  unfold ComparisonEngine.unmatched_azure, ComparisonEngine.unmatched_of_type.
  apply Forall_forall. intros d Hd.
  apply list_elem_of_In, in_flat_map in Hd as ([ty rs] & _ & Hd).
  apply in_flat_map in Hd as ([k az] & _ & Hd). simpl in Hd.
  case_bool_decide; simpl in Hd; [contradiction|].
  destruct Hd as [<-|[]]. reflexivity.
Qed.

(** Claim C4. In every result of [compare], a drifted resource is HIGH
    exactly when the leaf field name of one of its field differences is in
    the high-risk set, MEDIUM exactly when none is and one is in the
    medium-risk set, and LOW otherwise; a resource missing in Azure is
    MEDIUM and a resource missing in Terraform is LOW. The leaf field name
    is the text after the last dot of the path, so that a difference under
    [tags.size] counts as one in [size]. In particular a resource that
    differs in both location and size is HIGH. *)
Theorem C4_risk_classification
    (resource_group : string) (azure_resources : list AzureResource.t)
    (terraform_resources : list TerraformResource.t) (r : ComparisonResult.t) :
  ComparisonEngine.compare resource_group azure_resources terraform_resources = Ok r →
  Forall risk_as_specified (ComparisonResult.differences r)
  ∧ (∀ tv1 av1 ds1 tv2 av2 ds2,
       ComparisonEngine._assess_risk
         [ PropertyDifference.mk "location" tv1 av1 ds1;
           PropertyDifference.mk "size" tv2 av2 ds2 ] = HIGH)
  ∧ (∀ prefix leaf tv av ds,
       dot_free leaf = true →
       let fds := [ PropertyDifference.mk (prefix +:+ "." +:+ leaf) tv av ds ] in
       (ComparisonEngine._assess_risk fds = HIGH ↔ leaf ∈ high_risk_names)
       ∧ (ComparisonEngine._assess_risk fds = MEDIUM ↔ leaf ∈ medium_risk_names)).
Proof.
  unfold ComparisonEngine.compare. intros H.
  destruct (foldM _ terraform_resources _) as [st|e] eqn:E; simpl in H; [|discriminate].
  injection H as <-. cbn [ComparisonResult.differences]. split; [|split; [reflexivity|]].
  - apply Forall_app. split; [|apply unmatched_azure_risk].
    revert E.
    apply (foldM_invariant
             (fun st => Forall risk_as_specified (ComparisonEngine.differences st))).
    + intros s x s'. apply compare_step_risk.
    + constructor.
  - intros prefix leaf tv av ds Hfree.
    set (fds := [ PropertyDifference.mk (prefix +:+ "." +:+ leaf) tv av ds ]).
    assert (Hone : ∀ names, some_leaf_in names fds ↔ leaf ∈ names).
    { intros names. unfold some_leaf_in, fds. rewrite Exists_cons, Exists_nil. simpl.
      split.
      - intros [(l & Hl & Hin)|[]].
        apply last_part_leaf in Hl.
        pose proof (proj1 (last_part_leaf _ _) (leaf_of_dotted prefix leaf Hfree)) as Hl'.
        congruence.
      - intros Hin. left. exists leaf. split; [apply leaf_of_dotted, Hfree | exact Hin]. }
    destruct (assess_risk_spec fds) as (Hhigh & Hmedium & _).
    rewrite Hhigh, Hmedium.
    change (some_leaf_in ComparisonEngine.high_risk_properties fds)
      with (some_leaf_in high_risk_names fds).
    change (some_leaf_in ComparisonEngine.medium_risk_properties fds)
      with (some_leaf_in medium_risk_names fds).
    rewrite !Hone. split; [tauto|].
    split; [tauto|]. intros Hmed. split; [|exact Hmed].
    intros Hhi. revert Hhi Hmed. unfold high_risk_names, medium_risk_names.
    rewrite !elem_of_cons, !elem_of_nil. intros Hhi Hmed.
    repeat (destruct Hhi as [->|Hhi]; [intuition discriminate|]). exact Hhi.
Qed.

Lemma C4_risk_classification_witness :
  let azs := [ Scenario.vm_az; Scenario.pip_az;
               Scenario.live "nsg-app" "Microsoft.Network/networkSecurityGroups" "eastus"
                 [ ("size", VStr "small") ] [] ] in
  let tfs := [ Scenario.vm_tf; Scenario.nsg_tf;
               Scenario.declared "azurerm_network_security_group" "app"
                 [ ("name", VStr "nsg-app"); ("tags", VDict [ ("Size", VStr "large") ]) ] ] in
  let r := Scenario.compared azs tfs in
  ComparisonEngine.compare "rg-demo" azs tfs = Ok r
  ∧ map (fun d => (PropertyDifference.property_path
                     <$> ResourceDifference.property_differences d,
                   ResourceDifference.risk_level d))
        (ComparisonResult.differences r)
    = [ (["location"; "size"], HIGH); ([], MEDIUM); (["tags"; "tags.size"], HIGH);
        ([], LOW) ]
  ∧ Forall risk_as_specified (ComparisonResult.differences r).
Proof.
  intros azs tfs r. split; [vm_compute; reflexivity|]. split; [vm_compute; reflexivity|].
  apply (C4_risk_classification "rg-demo" azs tfs r).
  vm_compute; reflexivity.
Defined.

(** ** Unresolved values in synthesized parameters *)

(** Claim C1. The claim fails on the code. For a storage account that is
    missing in Azure and whose tier is the undeclared variable
    [${var.tier}], the loop over the parameter table skips the tier, but
    the compositing step of [_handle_special_cases] then writes
    [${var.tier}_LRS] under [--sku] of the create command. Likewise a tag
    map that holds an unresolved expression passes [_is_variable], which
    looks at strings only, and reaches [--tags]. *)
Theorem C1_unresolved_value_reaches_parameters :
  (∃ r cmd,
     ComparisonEngine.compare "rg-demo" [] [Scenario.storage_tf] = Ok r
     ∧ generate_cli_commands r None = [cmd]
     ∧ CliCommand.action cmd = "create"
     ∧ CliCommand.parameters cmd
       = [ ("--name", "acct1"); ("--resource-group", "rg-demo");
           ("--location", "eastus"); ("--sku", "${var.tier}_LRS") ]
     ∧ CliCommandGenerator._is_variable (VStr "${var.tier}") = true
     ∧ holds_unresolved "${var.tier}_LRS" = true)
  ∧ (∃ r cmd,
       ComparisonEngine.compare "rg-demo" [] [tagged_nsg_tf] = Ok r
       ∧ generate_cli_commands r None = [cmd]
       ∧ CliCommand.action cmd = "create"
       ∧ CliCommand.parameters cmd
         = [ ("--name", "nsg-web"); ("--resource-group", "rg-demo");
             ("--tags", "env=${var.env}") ]
       ∧ holds_unresolved "env=${var.env}" = true).
Proof.
  split.
  - eexists _, _. split; [vm_compute; reflexivity|].
    split; [vm_compute; reflexivity|].
    repeat split; vm_compute; reflexivity.
  - eexists _, _. split; [vm_compute; reflexivity|].
    split; [vm_compute; reflexivity|].
    repeat split; vm_compute; reflexivity.
Qed.

(** ** Projected fields *)

(** What the loop body of [_compare_properties] does for a field whose
    declarative value is set and carries no [<variable:] marker. *)
Lemma field_diff_compared tf az tf_prop azure_path tf_value n_tf n_az :
  dict_get_none tf_prop (TerraformResource.config tf) = tf_value →
  tf_value ≠ VNone →
  (∀ s, tf_value = VStr s → PyStr.contains "<variable:" s = false) →
  ComparisonEngine._normalize_value tf_value = Ok n_tf →
  ComparisonEngine._normalize_value (ComparisonEngine._get_nested_value az azure_path) = Ok n_az →
  ComparisonEngine.field_diff tf az tf_prop azure_path
  = Ok (if ComparisonEngine._values_equal n_tf n_az then []
        else [ PropertyDifference.mk tf_prop tf_value
                 (ComparisonEngine._get_nested_value az azure_path)
                 ("Property '" +:+ tf_prop +:+ "' differs") ]).
Proof.
  intros Hget Hnone Hvar Htf Haz. unfold ComparisonEngine.field_diff.
  rewrite Hget. destruct tf_value; try contradiction;
    try (rewrite Htf; simpl; rewrite Haz; simpl;
         destruct (ComparisonEngine._values_equal n_tf n_az); reflexivity).
  rewrite (Hvar s eq_refl). rewrite Htf; simpl; rewrite Haz; simpl.
  destruct (ComparisonEngine._values_equal n_tf n_az); reflexivity.
Qed.

(** A field that is not set, or whose value carries the [<variable:]
    marker, yields no difference. *)
Lemma field_diff_skipped tf az tf_prop azure_path :
  (dict_get_none tf_prop (TerraformResource.config tf) = VNone
   ∨ ∃ s, dict_get_none tf_prop (TerraformResource.config tf) = VStr s
          ∧ PyStr.contains "<variable:" s = true) →
  ComparisonEngine.field_diff tf az tf_prop azure_path = Ok [].
Proof.
  unfold ComparisonEngine.field_diff. intros [->|(s & -> & ->)]; reflexivity.
Qed.

(** Claim C5. The claim fails on the code for a declarative value that is
    an unresolved variable reference. The parser leaves the reference to
    the undeclared variable [${var.loc}] as it is; [_compare_properties]
    skips only values that carry the [<variable:] marker, so the reference
    is normalised and compared like a literal and a field difference for
    [location] is emitted. *)
Theorem C5_unresolved_reference_is_compared :
  TerraformParser._resolve_value [] [] (VStr "${var.loc}") = VStr "${var.loc}"
  ∧ TerraformResource.config Scenario.storage_loc_tf
    = [ ("name", VStr "acct1"); ("location", VStr "${var.loc}") ]
  ∧ ComparisonEngine.field_diff Scenario.storage_loc_tf Scenario.storage_az
      "location" "location"
    = Ok [ PropertyDifference.mk "location" (VStr "${var.loc}") (VStr "eastus")
             "Property 'location' differs" ]
  ∧ ComparisonEngine._compare_properties Scenario.storage_loc_tf Scenario.storage_az
    = Ok [ PropertyDifference.mk "location" (VStr "${var.loc}") (VStr "eastus")
             "Property 'location' differs" ]
  ∧ CliCommandGenerator._is_variable (VStr "${var.loc}") = true.
Proof. repeat split; vm_compute; reflexivity. Qed.

(** ** Suppression of empty updates *)

(** Claim C6. The claim fails on the code when the generator has no
    subscription id. The virtual network that drifted in its location
    yields one drift difference of MEDIUM risk; with a subscription id the
    update carries [--location eastus], but without one the three
    parameters name, resource group and location do not exceed the
    threshold of [_generate_update_command] and the update is dropped. *)
Theorem C6_single_parameter_update_dropped :
  ∃ r d,
    ComparisonEngine.compare "rg-demo" [Scenario.vnet_az] [Scenario.vnet_tf] = Ok r
    ∧ ComparisonResult.differences r = [d]
    ∧ ResourceDifference.difference_type d = PROPERTY_DRIFT
    ∧ ResourceDifference.risk_level d = MEDIUM
    ∧ ResourceDifference.property_differences d
      = [ PropertyDifference.mk "location" (VStr "eastus") (VStr "westus2")
            "Property 'location' differs" ]
    ∧ generate_cli_commands r None = []
    ∧ ∃ cmd,
        generate_cli_commands r (Some "0000") = [cmd]
        ∧ CliCommand.action cmd = "update"
        ∧ CliCommand.risk_level cmd = MEDIUM
        ∧ CliCommand.parameters cmd
          = [ ("--name", "vnet-core"); ("--resource-group", "rg-demo");
              ("--subscription", "0000"); ("--location", "eastus") ].
Proof.
  eexists _, _. split; [vm_compute; reflexivity|].
  split; [reflexivity|].
  repeat split; try (vm_compute; reflexivity).
  eexists. split; [vm_compute; reflexivity|].
  repeat split; vm_compute; reflexivity.
Qed.

(** ** Indexing and matching *)

Section IndexFacts.
Context {A : Type}.
Implicit Types (index : pydict (pydict A)) (r : A).

Lemma dict_get_default_set {B : Type} (k k' : string) (dflt v : B) (d : pydict B) :
  dict_get_default k dflt (dict_set k' v d)
  = if String.eqb k k' then v else dict_get_default k dflt d.
Proof.
  unfold dict_get_default. rewrite dict_get_set.
  destruct (String.eqb k k'); reflexivity.
Qed.

Lemma index_lookup_insert ty key ty' key' r index :
  ComparisonEngine.index_lookup ty key (ComparisonEngine.index_insert ty' key' r index)
  = if String.eqb ty' ty && String.eqb key' key then Some r
    else ComparisonEngine.index_lookup ty key index.
Proof.
  unfold ComparisonEngine.index_lookup, ComparisonEngine.index_insert.
  rewrite dict_get_default_set. rewrite (String.eqb_sym ty' ty), (String.eqb_sym key' key).
  destruct (String.eqb ty ty') eqn:E; simpl; [|reflexivity].
  apply String.eqb_eq in E; subst ty'. rewrite dict_get_set.
  destruct (String.eqb key key'); reflexivity.
Qed.

(** Looking a key up in an index built by successive insertions finds the
    last record inserted under that key. *)
Lemma index_lookup_build (type_of key_of : A → string) (l : list A) ty key :
  ComparisonEngine.index_lookup ty key
    (fold_left (fun index r => ComparisonEngine.index_insert (type_of r) (key_of r) r index) l [])
  = find (fun r => String.eqb (type_of r) ty && String.eqb (key_of r) key) (rev l).
Proof.
  induction l as [|r l IH] using rev_ind; [reflexivity|].
  rewrite fold_left_app, rev_app_distr. simpl.
  rewrite index_lookup_insert, IH. reflexivity.
Qed.

End IndexFacts.

Lemma azure_index_lookup azure_resources ty key :
  ComparisonEngine.index_lookup ty key (ComparisonEngine.build_azure_index azure_resources)
  = find (live_identity ty key) (rev azure_resources).
Proof. apply (index_lookup_build AzureResource.resource_type). Qed.

Lemma terraform_index_lookup terraform_resources ty key :
  ComparisonEngine.index_lookup ty key (ComparisonEngine.build_terraform_index terraform_resources)
  = find (declared_identity ty key) (rev terraform_resources).
Proof.
  apply (index_lookup_build (fun tf => canonical_type (TerraformResource.terraform_type tf))).
Qed.

Lemma compare_step_matched azure_resources tfs st tf st' :
  tf ∈ tfs →
  Forall (matched_as_specified azure_resources tfs) (ComparisonEngine.differences st) →
  ComparisonEngine.compare_step (ComparisonEngine.build_azure_index azure_resources) st tf = Ok st' →
  Forall (matched_as_specified azure_resources tfs) (ComparisonEngine.differences st').
Proof.
  intros Hin Hst. unfold ComparisonEngine.compare_step.
  destruct (PyStr.contains _ _); [intros [= <-]; exact Hst|].
  rewrite azure_index_lookup.
  destruct (find _ _) as [az|] eqn:Hfind.
  - destruct (ComparisonEngine._compare_properties tf az) as [[|fd fds]|e]; simpl;
      intros [= <-]; simpl; [exact Hst|].
    apply Forall_app. split; [exact Hst|].
    apply Forall_singleton. exists tf, az. auto.
  - intros [= <-]; simpl. apply Forall_app. split; [exact Hst|].
    apply Forall_singleton. exists tf. auto.
Qed.

Lemma foldM_invariant_in {A S : Type} (P : S → Prop) (f : S → A → result S) (l : list A) :
  (∀ s x s', x ∈ l → P s → f s x = Ok s' → P s') →
  ∀ s s', P s → foldM f l s = Ok s' → P s'.
Proof.
  induction l as [|x l IH]; intros Hstep s s' Hs; simpl.
  - intros [= <-]. exact Hs.
  - destruct (f s x) as [s1|e] eqn:E; simpl; [|discriminate].
    apply IH.
    + intros s0 y s0' Hy. apply Hstep. right. exact Hy.
    + eapply Hstep; [left | exact Hs | exact E].
Qed.

Lemma dict_set_elem {B : Type} (k : string) (v : B) (d : pydict B) (kv : string * B) :
  kv ∈ dict_set k v d → kv = (k, v) ∨ kv ∈ d.
Proof.
  induction d as [|[k1 v1] d IHd]; simpl.
  - intros ->%list_elem_of_singleton. auto.
  - destruct (String.eqb k k1).
    + intros [->|H]%elem_of_cons; [auto|right; right; exact H].
    + intros [->|H]%elem_of_cons; [right; left|].
      destruct (IHd H); [auto|right; right; assumption].
Qed.

Lemma dict_get_elem {B : Type} (k : string) (v : B) (d : pydict B) :
  dict_get k d = Some v → (k, v) ∈ d.
Proof.
  induction d as [|[k1 v1] d IHd]; simpl; [discriminate|].
  destruct (String.eqb k k1) eqn:E.
  - apply String.eqb_eq in E; subst. intros [= ->]. left.
  - intros H. right. auto.
Qed.

Lemma index_insert_within {B : Type} (index : pydict (pydict B)) (l : list B) ty key r :
  index_within index l → r ∈ l →
  index_within (ComparisonEngine.index_insert ty key r index) l.
Proof.
  intros Hidx Hr ty0 rs0 key0 r0 Hin0 Hin1.
  unfold ComparisonEngine.index_insert in Hin0.
  apply dict_set_elem in Hin0 as [[= -> ->]|Hin0]; [|eapply Hidx; eassumption].
  apply dict_set_elem in Hin1 as [[= -> ->]|Hin1]; [exact Hr|].
  unfold dict_get_default in Hin1. revert Hin1.
  match goal with
  | |- context [match ?g with _ => _ end] => destruct g as [rs1|] eqn:Hget
  end; intros Hin1; [|inversion Hin1].
  apply dict_get_elem in Hget. exact (Hidx ty rs1 key0 r0 Hget Hin1).
Qed.

Lemma index_entry_from_list (azure_resources : list AzureResource.t) :
  index_within (ComparisonEngine.build_azure_index azure_resources) azure_resources.
Proof.
  unfold ComparisonEngine.build_azure_index.
  assert (Hgen : ∀ (l : list AzureResource.t) index,
             index_within index azure_resources →
             (∀ az, az ∈ l → az ∈ azure_resources) →
             index_within
               (fold_left
                  (fun index resource =>
                     ComparisonEngine.index_insert (AzureResource.resource_type resource)
                       (PyStr.lower (AzureResource.name resource)) resource index) l index)
               azure_resources).
  { induction l as [|r l IH]; intros index Hidx Hl; simpl; [exact Hidx|].
    apply IH; [|intros; apply Hl; right; assumption].
    apply index_insert_within; [exact Hidx | apply Hl; left]. }
  apply Hgen; [|auto].
  intros ty rs key r H. inversion H.
Qed.

Lemma unmatched_azure_matched azure_resources tfs matched :
  Forall (matched_as_specified azure_resources tfs)
    (ComparisonEngine.unmatched_azure matched (ComparisonEngine.build_azure_index azure_resources)).
Proof.
  unfold ComparisonEngine.unmatched_azure, ComparisonEngine.unmatched_of_type.
  apply Forall_forall. intros d Hd.
  apply list_elem_of_In, in_flat_map in Hd as ([ty rs] & Hty & Hd).
  apply in_flat_map in Hd as ([k az] & Hk & Hd). simpl in Hd.
  case_bool_decide; simpl in Hd; [contradiction|].
  destruct Hd as [<-|[]]. exists az. split; [reflexivity|].
  apply list_elem_of_In in Hty, Hk. eapply index_entry_from_list; eassumption.
Qed.

Lemma find_last_inserted {A : Type} (p : A → bool) (l : list A) (x : A) :
  p x = true → find p (rev (l ++ [x])) = Some x.
Proof. intros Hp. rewrite rev_app_distr. simpl. rewrite Hp. reflexivity. Qed.

Lemma live_match_Some azure_resources tf az :
  live_match azure_resources tf = Some az →
  az ∈ azure_resources
  ∧ AzureResource.resource_type az = canonical_type (TerraformResource.terraform_type tf)
  ∧ PyStr.lower (AzureResource.name az) = ComparisonEngine.name_key tf.
Proof.
  unfold live_match, live_identity. intros [Hin Hp]%find_some.
  apply andb_prop in Hp as [Hty Hnm].
  apply String.eqb_eq in Hty, Hnm.
  split; [|split; assumption].
  apply list_elem_of_In, in_rev, Hin.
Qed.

Lemma live_match_None azure_resources tf az :
  live_match azure_resources tf = None →
  az ∈ azure_resources →
  AzureResource.resource_type az = canonical_type (TerraformResource.terraform_type tf) →
  PyStr.lower (AzureResource.name az) ≠ ComparisonEngine.name_key tf.
Proof.
  unfold live_match, live_identity. intros Hnone Hin Hty Hnm.
  apply list_elem_of_In, in_rev in Hin.
  pose proof (find_none _ _ Hnone az Hin) as Hp. simpl in Hp.
  rewrite Hty, Hnm, !String.eqb_refl in Hp. discriminate.
Qed.

(** Claim C3. A drift entry of a result pairs a declarative resource with
    the last live record that has exactly its canonical type and, up to
    letter case, its name; a missing-in-Azure entry is reported only when
    no live record has that type and that name. Looking a key up in either
    index returns the last record of the inventory with that canonical type
    and lower-cased name, so that a record inserted later under the same
    key replaces the earlier one. The storage account MyAcct matches the
    live storage account myacct and not the virtual network myacct. *)
Theorem C3_matching_rule
    (resource_group : string) (azure_resources : list AzureResource.t)
    (terraform_resources : list TerraformResource.t) (r : ComparisonResult.t) :
  ComparisonEngine.compare resource_group azure_resources terraform_resources = Ok r →
  Forall (matched_as_specified azure_resources terraform_resources)
         (ComparisonResult.differences r)
  ∧ (∀ ty key,
       ComparisonEngine.index_lookup ty key
         (ComparisonEngine.build_azure_index azure_resources)
       = find (live_identity ty key) (rev azure_resources))
  ∧ (∀ ty key,
       ComparisonEngine.index_lookup ty key
         (ComparisonEngine.build_terraform_index terraform_resources)
       = find (declared_identity ty key) (rev terraform_resources))
  ∧ (∀ az,
       ComparisonEngine.index_lookup (AzureResource.resource_type az)
         (PyStr.lower (AzureResource.name az))
         (ComparisonEngine.build_azure_index (azure_resources ++ [az]))
       = Some az)
  ∧ (∀ tf,
       ComparisonEngine.index_lookup (canonical_type (TerraformResource.terraform_type tf))
         (ComparisonEngine.name_key tf)
         (ComparisonEngine.build_terraform_index (terraform_resources ++ [tf]))
       = Some tf)
  ∧ (∀ tf az,
       live_match azure_resources tf = Some az →
       az ∈ azure_resources
       ∧ AzureResource.resource_type az = canonical_type (TerraformResource.terraform_type tf)
       ∧ PyStr.lower (AzureResource.name az) = ComparisonEngine.name_key tf)
  ∧ (∀ tf az,
       live_match azure_resources tf = None →
       az ∈ azure_resources →
       AzureResource.resource_type az = canonical_type (TerraformResource.terraform_type tf) →
       PyStr.lower (AzureResource.name az) ≠ ComparisonEngine.name_key tf)
  ∧ (live_match [Scenario.myacct_vnet_az; Scenario.myacct_az] Scenario.myacct_tf
       = Some Scenario.myacct_az
     ∧ live_match [Scenario.myacct_az; Scenario.myacct_vnet_az] Scenario.myacct_tf
       = Some Scenario.myacct_az
     ∧ live_match [Scenario.myacct_vnet_az] Scenario.myacct_tf = None
     ∧ ComparisonEngine.compare "rg-demo" [Scenario.myacct_vnet_az; Scenario.myacct_az]
         [Scenario.myacct_tf]
       = Ok (ComparisonResult.mk "rg-demo"
               [ ResourceDifference.mk MISSING_IN_TERRAFORM "myacct"
                   "Microsoft.Network/virtualNetworks" None None
                   (Some Scenario.myacct_vnet_az) [] LOW ]
               2 1 1)).
Proof.
  intros H. split; [|split; [|split; [|split; [|split; [|split; [|split]]]]]].
  - unfold ComparisonEngine.compare in H.
    destruct (foldM _ terraform_resources _) as [st|e] eqn:E; simpl in H; [|discriminate].
    injection H as <-. simpl.
    apply Forall_app. split; [|apply unmatched_azure_matched].
    revert E.
    apply (foldM_invariant_in
             (fun st => Forall (matched_as_specified azure_resources terraform_resources)
                               (ComparisonEngine.differences st))).
    + intros s x s' Hx. apply compare_step_matched. exact Hx.
    + constructor.
  - intros ty key. apply azure_index_lookup.
  - intros ty key. apply terraform_index_lookup.
  - intros az. rewrite azure_index_lookup. apply find_last_inserted.
    unfold live_identity. rewrite !String.eqb_refl. reflexivity.
  - intros tf. rewrite terraform_index_lookup. apply find_last_inserted.
    unfold declared_identity. rewrite !String.eqb_refl. reflexivity.
  - intros tf az Hm. apply live_match_Some, Hm.
  - intros tf az Hm Hin Hty. apply (live_match_None _ _ az Hm Hin Hty).
  - repeat split; vm_compute; reflexivity.
Qed.

Lemma C3_matching_rule_witness :
  let azs := [Scenario.myacct_vnet_az; Scenario.myacct_az; Scenario.vnet_az] in
  let tfs := [Scenario.myacct_tf; Scenario.vnet_tf; Scenario.nsg_tf] in
  let r := Scenario.compared azs tfs in
  ComparisonEngine.compare "rg-demo" azs tfs = Ok r
  ∧ map ResourceDifference.difference_type (ComparisonResult.differences r)
    = [PROPERTY_DRIFT; MISSING_IN_AZURE; MISSING_IN_TERRAFORM]
  ∧ Forall (matched_as_specified azs tfs) (ComparisonResult.differences r).
Proof.
  intros azs tfs r. split; [vm_compute; reflexivity|]. split; [vm_compute; reflexivity|].
  apply (C3_matching_rule "rg-demo" azs tfs r). vm_compute; reflexivity.
Defined.

(** ** Resources with an unresolved name *)

Lemma rev_app_append (a b acc : string) :
  String.rev_app (a +:+ b) acc = String.rev_app b (String.rev_app a acc).
Proof.
  revert acc. induction a as [|c a IH]; intros acc; [reflexivity|].
  cbn. apply IH.
Qed.

Lemma endswith_brace (p a : string) : PyStr.endswith "}" (p +:+ a +:+ "}") = true.
Proof.
  unfold PyStr.endswith, String.rev. rewrite !rev_app_append. reflexivity.
Qed.

Lemma drop_last_brace (a : string) : PyStr.drop_last (a +:+ "}") = a.
Proof.
  induction a as [|c a IH]; [reflexivity|].
  change (String c a +:+ "}") with (String c (a +:+ "}")).
  assert (Hcons : ∀ s, s ≠ "" → PyStr.drop_last (String c s) = String c (PyStr.drop_last s))
    by (intros [|c' s'] Hs; [contradiction | reflexivity]).
  rewrite Hcons, IH; [reflexivity|].
  destruct a; discriminate.
Qed.

Lemma dict_get_resolve_config tfvars variables k config :
  dict_get k (TerraformParser._resolve_config tfvars variables config)
  = TerraformParser._resolve_value tfvars variables <$> dict_get k config.
Proof.
  unfold TerraformParser._resolve_config.
  induction config as [|[k0 v0] config IH]; simpl; [reflexivity|].
  destruct (String.eqb k k0); [reflexivity | exact IH].
Qed.

Lemma resolve_str_unresolvable tfvars variables x :
  unresolvable tfvars variables x →
  TerraformParser.resolve_str tfvars variables ("${var." +:+ x +:+ "}")
  = VStr ("${var." +:+ x +:+ "}").
Proof.
  intros [Hov Hdef]. unfold TerraformParser.resolve_str.
  rewrite endswith_brace.
  replace (PyStr.startswith "${var." ("${var." +:+ x +:+ "}")) with true by reflexivity.
  simpl andb. cbv iota.
  replace (PyStr.drop 6 ("${var." +:+ x +:+ "}")) with (x +:+ "}") by reflexivity.
  rewrite drop_last_brace, Hov.
  destruct (dict_get x variables) as [var|]; [|reflexivity].
  rewrite Hdef. reflexivity.
Qed.

Lemma marker_name_key tf expr :
  TerraformResource.resource_name tf = TerraformResource.variable_marker expr →
  PyStr.contains "<variable:" (ComparisonEngine.name_key tf) = true.
Proof.
  intros H. unfold ComparisonEngine.name_key. rewrite H. reflexivity.
Qed.

Lemma compare_step_unresolved azure_index st tf expr :
  TerraformResource.resource_name tf = TerraformResource.variable_marker expr →
  ComparisonEngine.compare_step azure_index st tf = Ok st.
Proof.
  intros H. unfold ComparisonEngine.compare_step.
  rewrite (marker_name_key tf expr H). reflexivity.
Qed.

(** Claim C9. A declarative resource whose derived name carries the
    unresolved marker leaves no trace in the differences of a result: the
    comparison with the resource in the inventory returns, or raises, as
    the comparison without it, but for the count of declarative resources.
    A name that refers to a variable without override and without default
    derives such a resource name. *)
Theorem C9_unresolved_name_excluded
    (resource_group : string) (azure_resources : list AzureResource.t)
    (before after : list TerraformResource.t) (tf : TerraformResource.t) (expr : string) :
  TerraformResource.resource_name tf = TerraformResource.variable_marker expr →
  ComparisonEngine.compare resource_group azure_resources (before ++ tf :: after)
  = (r ← ComparisonEngine.compare resource_group azure_resources (before ++ after);
     Ok (count_declared r))
  ∧ (∀ tfvars variables x resource_type block_name block,
       unresolvable tfvars variables x →
       dict_get "name" block = Some (VStr ("${var." +:+ x +:+ "}")) →
       TerraformResource.resource_name
         (TerraformParser.parse_resource tfvars variables resource_type block_name block)
       = TerraformResource.variable_marker ("${var." +:+ x +:+ "}")).
Proof.
  intros H. split.
  - unfold ComparisonEngine.compare.
    rewrite !foldM_app. simpl foldM.
    destruct (foldM _ before _) as [s1|e]; simpl; [|reflexivity].
    rewrite (compare_step_unresolved _ s1 tf expr H). simpl.
    destruct (foldM _ after s1) as [s2|e]; simpl; [|reflexivity].
    unfold count_declared. simpl. rewrite !length_app. simpl.
    rewrite Nat.add_succ_r. reflexivity.
  - intros tfvars variables x resource_type block_name block Hx Hname.
    unfold TerraformResource.resource_name, TerraformParser.parse_resource. simpl.
    unfold dict_get_default. rewrite dict_get_resolve_config, Hname. simpl.
    rewrite (resolve_str_unresolvable _ _ _ Hx). reflexivity.
Qed.

Lemma C9_unresolved_name_excluded_witness :
  TerraformResource.resource_name Scenario.unnamed_tf
  = TerraformResource.variable_marker "${var.prefix}"
  ∧ ComparisonEngine.compare "rg-demo" [Scenario.vnet_az; Scenario.storage_az]
      ([Scenario.vnet_tf] ++ Scenario.unnamed_tf :: [Scenario.nsg_tf])
    = (r ← ComparisonEngine.compare "rg-demo" [Scenario.vnet_az; Scenario.storage_az]
             ([Scenario.vnet_tf] ++ [Scenario.nsg_tf]);
       Ok (count_declared r)).
Proof.
  split; [vm_compute; reflexivity|].
  apply (C9_unresolved_name_excluded "rg-demo" [Scenario.vnet_az; Scenario.storage_az]
           [Scenario.vnet_tf] [Scenario.nsg_tf] Scenario.unnamed_tf "${var.prefix}").
  vm_compute; reflexivity.
Defined.

(** ** Normalisation of string lists *)

Lemma sorted_insert_str (x : string) (l : list string) :
  sorted_insert (VStr x) (VStr <$> l) = Ok (VStr <$> str_insert x l).
Proof.
  induction l as [|y l IH]; [reflexivity|].
  cbn. destruct (String.ltb y x); [|reflexivity].
  cbn in IH. rewrite IH. reflexivity.
Qed.

Lemma sorted_str (l : list string) : sorted (VStr <$> l) = Ok (VStr <$> str_sort l).
Proof.
  induction l as [|x l IH]; [reflexivity|].
  cbn. cbn in IH. rewrite IH. cbn. apply sorted_insert_str.
Qed.

Lemma normalize_str_list (l : list string) :
  ComparisonEngine._normalize_value (str_list l)
  = Ok (str_list (str_sort (norm_str <$> l))).
Proof.
  unfold str_list. cbn.
  assert (Hmap :
    (fix go (l : list value) : result (list value) :=
       match l with
       | [] => Ok []
       | x :: l0 =>
           x' ← ComparisonEngine._normalize_value x; r ← go l0; Ok (x' :: r)
       end) (VStr <$> l) = Ok (VStr <$> (norm_str <$> l))).
  { induction l as [|x l IH]; [reflexivity|]. cbn. cbn in IH. rewrite IH. reflexivity. }
  cbn in Hmap. rewrite Hmap. cbn.
  pose proof (sorted_str (norm_str <$> l)) as Hs. cbn in Hs. rewrite Hs. reflexivity.
Qed.

Lemma ltb_false_le (x y : string) : String.ltb y x = false → String.le x y.
Proof.
  unfold String.le, String.ltb, String.leb.
  rewrite (String.compare_antisym x y).
  destruct (y ?= x)%string; simpl; intros H; (discriminate || exact I).
Qed.

Lemma ltb_true_le (x y : string) : String.ltb y x = true → String.le y x.
Proof.
  unfold String.le, String.ltb, String.leb.
  destruct (y ?= x)%string; simpl; intros H; (discriminate || exact I).
Qed.

Lemma str_insert_perm (x : string) (l : list string) : str_insert x l ≡ₚ x :: l.
Proof.
  induction l as [|y l IH]; [reflexivity|].
  simpl. destruct (String.ltb y x); [|reflexivity].
  rewrite IH. apply perm_swap.
Qed.

Lemma str_sort_perm (l : list string) : str_sort l ≡ₚ l.
Proof.
  induction l as [|x l IH]; [reflexivity|].
  simpl. rewrite str_insert_perm, IH. reflexivity.
Qed.

Lemma str_insert_sorted (x : string) (l : list string) :
  Sorted String.le l → Sorted String.le (str_insert x l).
Proof.
  induction l as [|y l IH]; intros Hl; simpl.
  - repeat constructor.
  - destruct (String.ltb y x) eqn:E.
    + apply Sorted_inv in Hl as [Hl Hhd]. constructor; [auto|].
      destruct l as [|z l]; simpl.
      * constructor. apply ltb_true_le, E.
      * destruct (String.ltb z x); constructor.
        -- apply HdRel_inv in Hhd. exact Hhd.
        -- apply ltb_true_le, E.
    + constructor; [exact Hl|]. constructor. apply ltb_false_le, E.
Qed.

Lemma str_sort_sorted (l : list string) : Sorted String.le (str_sort l).
Proof.
  induction l as [|x l IH]; simpl; [constructor|].
  apply str_insert_sorted, IH.
Qed.

Lemma str_sort_canonical (l1 l2 : list string) : l1 ≡ₚ l2 → str_sort l1 = str_sort l2.
Proof.
  intros Hp. apply (Sorted_unique String.le); try apply str_sort_sorted.
  rewrite !str_sort_perm. exact Hp.
Qed.

Lemma values_equal_str_list (l : list string) :
  ComparisonEngine._values_equal (str_list l) (str_list l) = true.
Proof.
  unfold str_list. cbn. rewrite Nat.eqb_refl. simpl.
  induction l as [|x l IH]; [reflexivity|].
  cbn. rewrite String.eqb_refl. exact IH.
Qed.

(** Claim C7. A string normalises to its lower-cased, trimmed form and a
    list of strings to the sorted list of the normalised elements. Hence
    two lists of strings that agree up to the order of the elements, letter
    case and surrounding white space have the same normal form, and the
    normal forms compare equal. *)
Theorem C7_normalization_order_case_insensitive (l1 l2 : list string) :
  norm_str <$> l1 ≡ₚ norm_str <$> l2 →
  ∃ ss : list string,
    ComparisonEngine._normalize_value (str_list l1) = Ok (str_list ss)
    ∧ ComparisonEngine._normalize_value (str_list l2) = Ok (str_list ss)
    ∧ ComparisonEngine._values_equal (str_list ss) (str_list ss) = true
    ∧ ss ≡ₚ norm_str <$> l1
    ∧ Sorted String.le ss
    ∧ ∀ s, ComparisonEngine._normalize_value (VStr s)
           = Ok (VStr (PyStr.strip (PyStr.lower s))).
Proof.
  intros Hp. exists (str_sort (norm_str <$> l1)).
  split; [apply normalize_str_list|].
  split; [rewrite (str_sort_canonical _ _ Hp); apply normalize_str_list|].
  split; [apply values_equal_str_list|].
  split; [apply str_sort_perm|].
  split; [apply str_sort_sorted|].
  reflexivity.
Qed.

Lemma C7_normalization_order_case_insensitive_witness :
  norm_str <$> ["b"; "a"] ≡ₚ norm_str <$> ["a"; " B "]
  ∧ ∃ ss : list string,
      ComparisonEngine._normalize_value (str_list ["b"; "a"]) = Ok (str_list ss)
      ∧ ComparisonEngine._normalize_value (str_list ["a"; " B "]) = Ok (str_list ss)
      ∧ ComparisonEngine._values_equal (str_list ss) (str_list ss) = true
      ∧ ss ≡ₚ norm_str <$> ["b"; "a"]
      ∧ Sorted String.le ss
      ∧ ∀ s, ComparisonEngine._normalize_value (VStr s)
             = Ok (VStr (PyStr.strip (PyStr.lower s))).
Proof.
  assert (H : norm_str <$> ["b"; "a"] ≡ₚ norm_str <$> ["a"; " B "])
    by (vm_compute; apply perm_swap).
  split; [exact H|].
  apply (C7_normalization_order_case_insensitive ["b"; "a"] ["a"; " B "] H).
Defined.

(** ** Tags *)

Lemma items_or_empty_dict (d : pydict value) :
  ComparisonEngine.items_or_empty (VDict d) = Ok d.
Proof. destruct d; reflexivity. Qed.

Lemma lower_keys_snoc (items : pydict value) (k : string) (v : value) :
  ComparisonEngine.lower_keys (items ++ [(k, v)])
  = dict_set (PyStr.lower k) v (ComparisonEngine.lower_keys items).
Proof. unfold ComparisonEngine.lower_keys. rewrite fold_left_app. reflexivity. Qed.

Lemma lower_keys_NoDup (items : pydict value) :
  NoDup (dict_keys (ComparisonEngine.lower_keys items)).
Proof.
  induction items as [|[k v] items IH] using rev_ind; [constructor|].
  rewrite lower_keys_snoc. apply dict_keys_set_NoDup, IH.
Qed.

Lemma lower_keys_lookup (tags : pydict string) (key : string) :
  dict_get key
    (ComparisonEngine.lower_keys ((fun kv : string * string => (kv.1, VStr kv.2)) <$> tags))
  = VStr <$> tag_lookup tags key.
Proof.
  unfold tag_lookup. induction tags as [|[k v] tags IH] using rev_ind; [reflexivity|].
  rewrite fmap_app. simpl. rewrite lower_keys_snoc, dict_get_set, rev_app_distr. simpl.
  rewrite (String.eqb_sym key). destruct (String.eqb (PyStr.lower k) key); [reflexivity|].
  exact IH.
Qed.

Lemma key_union_NoDup (a b : pydict value) :
  NoDup (dict_keys a) → NoDup (dict_keys b) → NoDup (ComparisonEngine.key_union a b).
Proof.
  intros Ha Hb. unfold ComparisonEngine.key_union. apply NoDup_app.
  split; [exact Ha|]. split.
  - intros k Hk Hin. apply list_elem_of_In, filter_In in Hin as [_ Hneg].
    apply dict_mem_keys in Hk. rewrite Hk in Hneg. discriminate.
  - apply NoDup_ListNoDup, List.NoDup_filter, NoDup_ListNoDup, Hb.
Qed.

Lemma key_union_elem (a b : pydict value) (k : string) :
  k ∈ ComparisonEngine.key_union a b ↔ k ∈ dict_keys a ∨ k ∈ dict_keys b.
Proof.
  unfold ComparisonEngine.key_union.
  rewrite elem_of_app, (list_elem_of_In (List.filter _ _) k), filter_In.
  rewrite <- list_elem_of_In. split.
  - intros [H|[H _]]; auto.
  - intros [H|H]; [auto|].
    destruct (dict_mem k a) eqn:E; [left; apply dict_mem_keys, E | right; auto].
Qed.

Lemma tag_diff_at_path tfl azl key k :
  at_path ("tags." +:+ key) (ComparisonEngine.tag_diff tfl azl k)
  = if decide (k = key) then ComparisonEngine.tag_diff tfl azl k else [].
Proof.
  unfold at_path, ComparisonEngine.tag_diff.
  destruct (decide (k = key)) as [->|Hne].
  - repeat case_match; try reflexivity;
      rewrite filter_cons; simpl; (case_decide; [reflexivity | contradiction]).
  - assert (Hp : "tags." +:+ k ≠ "tags." +:+ key)
      by (intros Heq; apply Hne; exact (String.app_inj "tags." _ _ Heq)).
    repeat case_match; try reflexivity;
      rewrite filter_cons; simpl; (case_decide; [contradiction | reflexivity]).
Qed.

Lemma flat_tag_diff_at_path tfl azl key (ks : list string) :
  NoDup ks →
  at_path ("tags." +:+ key) (flat_map (ComparisonEngine.tag_diff tfl azl) ks)
  = if decide (key ∈ ks) then ComparisonEngine.tag_diff tfl azl key else [].
Proof.
  induction ks as [|k ks IH]; intros Hnd; [reflexivity|].
  apply NoDup_cons in Hnd as [Hk Hnd]. simpl.
  unfold at_path in *. rewrite filter_app.
  fold (at_path ("tags." +:+ key) (ComparisonEngine.tag_diff tfl azl k)).
  rewrite tag_diff_at_path, (IH Hnd).
  destruct (decide (k = key)) as [->|Hne].
  - rewrite (decide_True (P := key ∈ key :: ks)) by left.
    rewrite (decide_False (P := key ∈ ks)) by exact Hk.
    apply app_nil_r.
  - simpl. destruct (decide (key ∈ ks)) as [Hin|Hout].
    + rewrite decide_True by (right; exact Hin). reflexivity.
    + rewrite decide_False; [reflexivity|].
      intros [->|H]%elem_of_cons; contradiction.
Qed.

(** The differences [_compare_tags] reports under the path of one key are
    those of the loop body at that key. *)
Lemma compare_tags_at_key (tf_tags azure_tags : pydict string) (key : string) :
  ∃ diffs,
    ComparisonEngine._compare_tags (str_tags tf_tags) (str_tags azure_tags) = Ok diffs
    ∧ at_path ("tags." +:+ key) diffs
      = tag_report key (tag_lookup tf_tags key) (tag_lookup azure_tags key).
Proof.
  unfold ComparisonEngine._compare_tags, str_tags. rewrite !items_or_empty_dict. simpl.
  eexists. split; [reflexivity|].
  set (tfl := ComparisonEngine.lower_keys _).
  set (azl := ComparisonEngine.lower_keys _).
  rewrite flat_tag_diff_at_path
    by (apply key_union_NoDup; apply lower_keys_NoDup).
  assert (Htf : dict_get key tfl = VStr <$> tag_lookup tf_tags key)
    by apply lower_keys_lookup.
  assert (Haz : dict_get key azl = VStr <$> tag_lookup azure_tags key)
    by apply lower_keys_lookup.
  assert (Hbody : ComparisonEngine.tag_diff tfl azl key
                  = tag_report key (tag_lookup tf_tags key) (tag_lookup azure_tags key)).
  { unfold ComparisonEngine.tag_diff, dict_get_none, dict_get_default.
    rewrite Htf, Haz.
    destruct (tag_lookup tf_tags key) as [v|], (tag_lookup azure_tags key) as [w|];
      simpl; try reflexivity.
    destruct (decide (v = w)) as [->|Hne].
    - rewrite String.eqb_refl. reflexivity.
    - apply String.eqb_neq in Hne. rewrite Hne. reflexivity. }
  case_decide as Hin; [exact Hbody|].
  rewrite key_union_elem in Hin.
  assert (Hnone : dict_get key tfl = None).
  { apply dict_get_None_keys. tauto. }
  rewrite Htf in Hnone. destruct (tag_lookup tf_tags key); [discriminate|reflexivity].
Qed.

(** Claim C8. The claim fails on the code for a tag that only the live
    side has. The security group [nsg-web] is declared with the tag
    [env = prod] and lives with the tags [env = prod] and [owner = ops].
    The key-wise comparison of [_compare_tags] reports nothing, as its
    comment on a tag that exists in Azure only says. But the projection
    table lists [tags] as a field too, and there [_compare_properties]
    compares the two maps whole: it reports a field difference under the
    path [tags], [compare] reports the pair as drifted, and with a
    subscription id the generator emits an update that sets [--tags] to
    the declarative tags alone. *)
Theorem C8_live_only_tag_is_reported :
  let tf := Scenario.declared "azurerm_network_security_group" "web"
              [ ("name", VStr "nsg-web"); ("tags", VDict [ ("env", VStr "prod") ]) ] in
  let az := Scenario.live "nsg-web" "Microsoft.Network/networkSecurityGroups" "eastus"
              [ ("env", VStr "prod"); ("owner", VStr "ops") ] [] in
  let whole :=
    PropertyDifference.mk "tags"
      (VDict [ ("env", VStr "prod") ])
      (VDict [ ("env", VStr "prod"); ("owner", VStr "ops") ])
      "Property 'tags' differs" in
  ComparisonEngine._compare_tags (TerraformResource.tags tf) (VDict (AzureResource.tags az))
  = Ok []
  ∧ ComparisonEngine._compare_properties tf az = Ok [whole]
  ∧ (∃ r, ComparisonEngine.compare "rg-demo" [az] [tf] = Ok r
          ∧ ComparisonResult.differences r
            = [ ResourceDifference.mk PROPERTY_DRIFT "nsg-web"
                  "Microsoft.Network/networkSecurityGroups"
                  (Some "azurerm_network_security_group") (Some tf) (Some az)
                  [whole] LOW ]
          ∧ (fun c => (CliCommand.action c, CliCommand.parameters c))
              <$> generate_cli_commands r (Some "0000")
            = [ ("update",
                 [ ("--name", "nsg-web"); ("--resource-group", "rg-demo");
                   ("--subscription", "0000"); ("--tags", "env=prod") ]) ]).
Proof.
  intros tf az whole. split; [vm_compute; reflexivity|].
  split; [vm_compute; reflexivity|].
  exists (Scenario.compared [az] [tf]).
  split; [vm_compute; reflexivity|]. split; vm_compute; reflexivity.
Qed.

Lemma field_diff_same_normal_form tf az tf_prop azure_path (v w : string) :
  norm_str v = norm_str w →
  dict_get_none tf_prop (TerraformResource.config tf) = VStr v →
  ComparisonEngine._get_nested_value az azure_path = VStr w →
  ComparisonEngine.field_diff tf az tf_prop azure_path = Ok [].
Proof.
  intros Hn Htf Haz. unfold ComparisonEngine.field_diff. rewrite Htf, Haz.
  destruct (PyStr.contains "<variable:" v); [reflexivity|].
  cbn. fold (norm_str v). fold (norm_str w). rewrite Hn, String.eqb_refl. reflexivity.
Qed.

(** Claim C10. Tag values are compared as they are: a tag that both sides
    have, with values that differ but have the same lower-cased, trimmed
    form, is reported as the one field difference under [tags.<key>],
    carrying both values; the same two strings as the declarative and the
    live value of a projected field yield no field difference. *)
Theorem C10_tag_values_compared_verbatim
    (tf_tags azure_tags : pydict string) (key v w : string) :
  tag_lookup tf_tags key = Some v →
  tag_lookup azure_tags key = Some w →
  v ≠ w →
  norm_str v = norm_str w →
  (∃ diffs,
     ComparisonEngine._compare_tags (str_tags tf_tags) (str_tags azure_tags) = Ok diffs
     ∧ at_path ("tags." +:+ key) diffs
       = [ PropertyDifference.mk ("tags." +:+ key) (VStr v) (VStr w)
             ("Tag '" +:+ key +:+ "' value differs") ])
  ∧ (∀ tf az tf_prop azure_path,
       dict_get_none tf_prop (TerraformResource.config tf) = VStr v →
       ComparisonEngine._get_nested_value az azure_path = VStr w →
       ComparisonEngine.field_diff tf az tf_prop azure_path = Ok []).
Proof.
  intros Htf Haz Hne Hnorm. split.
  - destruct (compare_tags_at_key tf_tags azure_tags key) as (diffs & Hd & Hat).
    exists diffs. split; [exact Hd|].
    rewrite Hat, Htf, Haz. simpl. rewrite decide_False by exact Hne. reflexivity.
  - intros tf az tf_prop azure_path. apply field_diff_same_normal_form, Hnorm.
Qed.

Lemma C10_tag_values_compared_verbatim_witness :
  (∃ diffs,
     ComparisonEngine._compare_tags (str_tags [("Env", "Prod")]) (str_tags [("env", "prod")])
     = Ok diffs
     ∧ at_path "tags.env" diffs
       = [ PropertyDifference.mk "tags.env" (VStr "Prod") (VStr "prod")
             "Tag 'env' value differs" ])
  ∧ (∀ tf az tf_prop azure_path,
       dict_get_none tf_prop (TerraformResource.config tf) = VStr "Prod" →
       ComparisonEngine._get_nested_value az azure_path = VStr "prod" →
       ComparisonEngine.field_diff tf az tf_prop azure_path = Ok []).
Proof.
  apply (C10_tag_values_compared_verbatim [("Env", "Prod")] [("env", "prod")] "env" "Prod" "prod").
  - vm_compute; reflexivity.
  - vm_compute; reflexivity.
  - discriminate.
  - vm_compute; reflexivity.
Defined.

(** [compare] iterates the declarative list, not the declarative index:
    two declarative resources under one key are both compared, while the
    index keeps the second one only. *)
Example declarative_duplicates_both_compared :
  ResourceDifference.resource_name <$>
    ComparisonResult.differences (Scenario.compared [] nsg_twice)
  = ["nsg-web"; "NSG-Web"]
  ∧ TerraformResource.name <$>
      ComparisonEngine.index_lookup "Microsoft.Network/networkSecurityGroups" "nsg-web"
        (ComparisonEngine.build_terraform_index nsg_twice)
    = Some "web_copy".
Proof. split; vm_compute; reflexivity. Qed.

(** ** When an update is suppressed *)

Lemma dict_set_length {A : Type} (k : string) (v : A) (d : pydict A) :
  length (dict_set k v d) = if dict_mem k d then length d else S (length d).
Proof.
  rewrite <- !(length_map fst). fold (dict_keys d). fold (dict_keys (dict_set k v d)).
  rewrite dict_keys_set. destruct (dict_mem k d); [reflexivity|].
  rewrite length_app. simpl. lia.
Qed.

Lemma cli_mapping_avoids_identity terraform_type prop cli :
  dict_get prop (dict_get_default terraform_type [] CliCommandGenerator.PROPERTY_MAPPINGS)
  = Some cli →
  cli ∉ identity_keys.
Proof.
  assert (Htable :
    Forall (fun entry : string * pydict string =>
              Forall (fun m : string * string => m.2 ∉ identity_keys) entry.2)
           CliCommandGenerator.PROPERTY_MAPPINGS).
  { apply (bool_decide_unpack _). vm_compute. exact I. }
  unfold dict_get_default.
  match goal with
  | |- context [match ?g with _ => _ end] => destruct g as [mapping|] eqn:E
  end; intros Hget; [|discriminate].
  apply dict_get_elem in E, Hget.
  rewrite Forall_forall in Htable. specialize (Htable _ E). simpl in Htable.
  rewrite Forall_forall in Htable. exact (Htable _ Hget).
Qed.

Lemma cli_name_param terraform_type cfg :
  dict_get terraform_type CliCommandGenerator.CLI_COMMANDS = Some cfg →
  CliCommandGenerator.resource_name_param cfg = "--name" ∧ terraform_type ≠ "".
Proof.
  intros Hget. split.
  - apply dict_get_elem in Hget.
    assert (Htable : Forall (fun entry : string * CliCommandGenerator.cmd_config =>
                               CliCommandGenerator.resource_name_param entry.2 = "--name")
                            CliCommandGenerator.CLI_COMMANDS)
      by (repeat constructor).
    rewrite Forall_forall in Htable. exact (Htable _ Hget).
  - intros ->. discriminate.
Qed.

Section UpdateSuppression.
Variable prop_mapping : pydict string.
Hypothesis mapping_avoids_identity :
  ∀ prop cli, dict_get prop prop_mapping = Some cli → cli ∉ identity_keys.

#[local] Abbreviation update_step := (CliCommandGenerator.update_param prop_mapping).

Lemma update_step_length params fd : length params ≤ length (update_step params fd).
Proof.
  unfold CliCommandGenerator.update_param. repeat case_match; try lia;
    rewrite dict_set_length; case_match; lia.
Qed.

Lemma update_loop_length fds params :
  length params ≤ length (fold_left update_step fds params).
Proof.
  revert params. induction fds as [|fd fds IH]; intros params; simpl; [lia|].
  etrans; [apply update_step_length | apply IH].
Qed.

Lemma update_step_idle params fd :
  contributes prop_mapping fd = false → update_step params fd = params.
Proof.
  unfold contributes, CliCommandGenerator.update_param.
  destruct (dict_get _ prop_mapping); [|reflexivity].
  destruct (PropertyDifference.terraform_value fd); try reflexivity;
    intros ->%negb_false_iff; reflexivity.
Qed.

Lemma update_step_grows params fd :
  dict_keys params = identity_keys →
  contributes prop_mapping fd = true →
  length (update_step params fd) = 4.
Proof.
  intros Hkeys. unfold contributes, CliCommandGenerator.update_param.
  destruct (dict_get _ prop_mapping) as [cli|] eqn:E; [|discriminate].
  apply mapping_avoids_identity in E.
  assert (Hlen : length params = 3)
    by (rewrite <- (length_map fst); fold (dict_keys params); rewrite Hkeys; reflexivity).
  assert (Hmem : dict_mem cli params = false).
  { destruct (dict_mem cli params) eqn:Hm; [|reflexivity].
    apply dict_mem_keys in Hm. rewrite Hkeys in Hm. contradiction. }
  destruct (PropertyDifference.terraform_value fd); try discriminate;
    intros ->%negb_true_iff; rewrite dict_set_length, Hmem, Hlen; reflexivity.
Qed.

Lemma update_loop_suppressed fds params :
  dict_keys params = identity_keys →
  (length (fold_left update_step fds params) <=? 3) = true
  ↔ forallb (fun fd => negb (contributes prop_mapping fd)) fds = true.
Proof.
  intros Hkeys.
  assert (Hlen : length params = 3)
    by (rewrite <- (length_map fst); fold (dict_keys params); rewrite Hkeys; reflexivity).
  induction fds as [|fd fds IH]; simpl.
  - rewrite Hlen. tauto.
  - destruct (contributes prop_mapping fd) eqn:E; simpl.
    + pose proof (update_step_grows params fd Hkeys E) as H4.
      pose proof (update_loop_length fds (update_step params fd)) as Hge.
      split; [|discriminate]. intros H%Nat.leb_le. lia.
    + rewrite (update_step_idle params fd E). exact IH.
Qed.

End UpdateSuppression.

(** Property X22. With a subscription id, an update is suppressed exactly
    when no field difference contributes a parameter: when each has a leaf
    name without CLI parameter for the type, or a declarative value that
    is [None] or that [_is_variable] rejects. *)
Lemma update_suppressed_with_subscription resource_group sub diff terraform_type cfg :
  sub ≠ "" →
  ResourceDifference.terraform_type diff = Some terraform_type →
  dict_get terraform_type CliCommandGenerator.CLI_COMMANDS = Some cfg →
  CliCommandGenerator._generate_update_command resource_group (Some sub) diff = None
  ↔ forallb
      (fun fd =>
         negb (contributes
                 (dict_get_default terraform_type [] CliCommandGenerator.PROPERTY_MAPPINGS) fd))
      (ResourceDifference.property_differences diff) = true.
Proof.
  intros Hsub Htt Hcfg. destruct (cli_name_param _ _ Hcfg) as [Hname Hne].
  unfold CliCommandGenerator._generate_update_command. rewrite Htt.
  assert (Htruthy : truthy (VStr terraform_type) = true)
    by (simpl; apply negb_true_iff, String.eqb_neq, Hne).
  rewrite Htruthy, Hcfg, Hname. simpl negb. cbv iota.
  set (mapping := dict_get_default terraform_type [] CliCommandGenerator.PROPERTY_MAPPINGS).
  set (base := CliCommandGenerator.base_params resource_group (Some sub) "--name"
                 (ResourceDifference.resource_name diff)).
  assert (Hbase : dict_keys base = identity_keys).
  { subst base. unfold CliCommandGenerator.base_params.
    assert (Hs : truthy (VStr sub) = true)
      by (simpl; apply negb_true_iff, String.eqb_neq, Hsub).
    rewrite Hs. reflexivity. }
  pose proof (update_loop_suppressed mapping
                (fun prop cli => cli_mapping_avoids_identity terraform_type prop cli)
                (ResourceDifference.property_differences diff) base Hbase) as Hloop.
  rewrite <- Hloop.
  destruct (length _ <=? 3); split; intros H; congruence.
Qed.

(** * Further properties of the code *)

(** ** The approval workflow of the executor *)

Section ExecutorFacts.
Variable shell : list string → string → shell_outcome.

Lemma execute_command_status ran cmd :
  let r := (CommandExecutor._execute_command shell ran cmd).1 in
  ExecutionResult.command r = cmd
  ∧ (ExecutionResult.status r = SUCCESS ∨ ExecutionResult.status r = FAILED).
Proof.
  unfold CommandExecutor._execute_command. simpl.
  destruct (shell ran _) as [rc out err| |msg]; simpl; auto.
  destruct (rc =? 0)%Z; simpl; auto.
Qed.

Lemma execute_one_spec self ran i cmd :
  let '(r, ran') := CommandExecutor.execute_one shell self ran i cmd in
  ExecutionResult.command r = cmd
  ∧ status_allowed self i (ExecutionResult.status r)
  ∧ ran' = ran ++ (if runs self i then [command_line cmd] else []).
Proof.
  unfold CommandExecutor.execute_one, runs, status_allowed.
  destruct (bool_decide_reflect (Z.of_nat i ∈ CommandExecutor._rejected_commands self))
    as [Hr|Hr]; simpl.
  - rewrite andb_false_r. simpl. rewrite app_nil_r. auto.
  - destruct (bool_decide_reflect (Z.of_nat i ∈ CommandExecutor._approved_commands self))
      as [Ha|Ha]; simpl.
    + destruct (CommandExecutor.dry_run self) eqn:Hd; simpl.
      * rewrite app_nil_r. auto.
      * pose proof (execute_command_status ran cmd) as [Hc Hs]. simpl in Hc, Hs.
        split; [exact Hc|]. split; [|reflexivity].
        destruct Hs as [-> | ->]; auto.
    + rewrite app_nil_r. auto.
Qed.

Lemma execute_from_spec self commands : ∀ i ran,
  let '(results, ran') := CommandExecutor.execute_from shell self i commands ran in
  ExecutionResult.command <$> results = commands
  ∧ (∀ k r, results !! k = Some r → status_allowed self (i + k) (ExecutionResult.status r))
  ∧ ran' = ran ++ (command_line <$> select_from (runs self) i commands).
Proof.
  induction commands as [|cmd rest IH]; intros i ran; simpl.
  - split; [reflexivity|]. split; [intros k r H; inversion H | rewrite app_nil_r; reflexivity].
  - pose proof (execute_one_spec self ran i cmd) as H1.
    destruct (CommandExecutor.execute_one shell self ran i cmd) as [r ran1].
    destruct H1 as (Hc & Hs & Hran).
    specialize (IH (S i) ran1).
    destruct (CommandExecutor.execute_from shell self (S i) rest ran1) as [results ran2].
    destruct IH as (IHc & IHs & IHran). cbv beta iota zeta.
    split; [rewrite fmap_cons, Hc, IHc; reflexivity|]. split.
    + intros [|k] r0 Hk; simpl in Hk.
      * injection Hk as <-. rewrite Nat.add_0_r. exact Hs.
      * rewrite Nat.add_succ_r. apply (IHs k r0 Hk).
    + rewrite IHran, Hran. destruct (runs self i); simpl.
      * rewrite <- app_assoc. reflexivity.
      * rewrite app_nil_r. reflexivity.
Qed.

End ExecutorFacts.

(** Property X1. [execute] returns one result per command, in the order of
    the commands and each for its command, and the status of a result
    tells how its index stands: REJECTED when it is rejected, even if it is
    approved too; PENDING_APPROVAL when it is neither; SKIPPED when it is
    approved and the executor is in dry-run mode; SUCCESS or FAILED
    otherwise. *)
Theorem execute_results_follow_approval
    (shell : list string → string → shell_outcome) (self : CommandExecutor.t)
    (commands : list CliCommand.t) (ran : list string) :
  let results := (CommandExecutor.execute shell self commands ran).1 in
  ExecutionResult.command <$> results = commands
  ∧ length results = length commands
  ∧ ∀ i r, results !! i = Some r → status_allowed self i (ExecutionResult.status r).
Proof.
  unfold CommandExecutor.execute.
  pose proof (execute_from_spec shell self commands 0 ran) as H.
  destruct (CommandExecutor.execute_from shell self 0 commands ran) as [results ran'].
  destruct H as (Hc & Hs & _). simpl.
  split; [exact Hc|]. split; [|exact Hs].
  rewrite <- Hc, length_fmap. reflexivity.
Qed.

(** Property X2. The command lines [execute] hands to the shell are those
    of the commands whose index is approved and not rejected, in the order
    of the commands; in dry-run mode none is. *)
Theorem execute_runs_approved_only
    (shell : list string → string → shell_outcome) (self : CommandExecutor.t)
    (commands : list CliCommand.t) (ran : list string) :
  (CommandExecutor.execute shell self commands ran).2
  = ran ++ (command_line <$>
              select_from
                (fun i => bool_decide (Z.of_nat i ∈ CommandExecutor._approved_commands self)
                          && negb (bool_decide (Z.of_nat i ∈ CommandExecutor._rejected_commands self))
                          && negb (CommandExecutor.dry_run self))
                0 commands)
  ∧ (CommandExecutor.dry_run self = true →
     (CommandExecutor.execute shell self commands ran).2 = ran).
Proof.
  unfold CommandExecutor.execute.
  pose proof (execute_from_spec shell self commands 0 ran) as H.
  destruct (CommandExecutor.execute_from shell self 0 commands ran) as [results ran'].
  destruct H as (_ & _ & Hran). simpl. split; [exact Hran|].
  intros Hd. rewrite Hran.
  assert (Hnone : ∀ (l : list CliCommand.t) i, select_from (runs self) i l = []).
  { induction l as [|x l IH]; intros i; simpl; [reflexivity|].
    unfold runs at 1. rewrite Hd, andb_false_r. apply IH. }
  rewrite Hnone. apply app_nil_r.
Qed.

Lemma execute_runs_approved_only_witness :
  let shell : list string → string → shell_outcome := fun _ _ => Exited 0 "" "" in
  let cmd := CliCommand.mk "az vm create" "" "create" "vm" "t" MEDIUM [] in
  let self := CommandExecutor.set_approval (CommandExecutor.init true) 0 true in
  CommandExecutor.dry_run self = true
  ∧ (CommandExecutor.execute shell self [cmd] []).2 = [].
Proof.
  intros shell cmd self. split; [reflexivity|].
  apply (execute_runs_approved_only shell self [cmd] []). reflexivity.
Defined.

(** Property X3. [set_approval] decides the index it is given and no
    other: afterwards the index is approved exactly when [approved] is
    true and rejected exactly when it is false, so that it is never in
    both sets; every other index stands as before. *)
Theorem set_approval_decides_one_index
    (self : CommandExecutor.t) (i : Z) (approved : bool) :
  let self' := CommandExecutor.set_approval self i approved in
  (i ∈ CommandExecutor._approved_commands self' ↔ approved = true)
  ∧ (i ∈ CommandExecutor._rejected_commands self' ↔ approved = false)
  ∧ CommandExecutor.is_approved self' i = approved
  ∧ CommandExecutor.dry_run self' = CommandExecutor.dry_run self
  ∧ ∀ j, j ≠ i →
      (j ∈ CommandExecutor._approved_commands self'
       ↔ j ∈ CommandExecutor._approved_commands self)
      ∧ (j ∈ CommandExecutor._rejected_commands self'
         ↔ j ∈ CommandExecutor._rejected_commands self).
Proof.
  unfold CommandExecutor.set_approval, CommandExecutor.is_approved.
  destruct approved; simpl;
    rewrite ?bool_decide_eq_true, ?bool_decide_eq_false;
    repeat split; try reflexivity;
    repeat (intros ? || rewrite elem_of_union in * || rewrite elem_of_difference in *
            || rewrite elem_of_singleton in *);
    try tauto; try discriminate; intuition congruence.
Qed.

Lemma approve_all_approved (approved : gset Z) (n start : nat) (j : Z) :
  j ∈ fold_left (fun approved i => {[ Z.of_nat i ]} ∪ approved) (seq start n) approved
  ↔ j ∈ approved ∨ (Z.of_nat start ≤ j < Z.of_nat (start + n))%Z.
Proof.
  revert approved start. induction n as [|n IH]; intros approved start; simpl.
  - split; [auto | intros [H|H]; [exact H | lia]].
  - rewrite IH. rewrite elem_of_union, elem_of_singleton. split.
    + intros [[->|H]|H]; [right; lia | auto | right; lia].
    + intros [H|H]; [auto|].
      destruct (decide (j = Z.of_nat start)) as [->|Hne]; [auto|right; lia].
Qed.

(** Property X4. [approve_all] approves every index of the list and
    withdraws no rejection: a command that was rejected before is still
    reported REJECTED by [execute], although [is_approved] now holds for
    it. *)
Theorem approve_all_keeps_rejections
    (shell : list string → string → shell_outcome) (self : CommandExecutor.t)
    (commands : list CliCommand.t) (ran : list string) (i : nat) (cmd : CliCommand.t) :
  commands !! i = Some cmd →
  Z.of_nat i ∈ CommandExecutor._rejected_commands self →
  let self' := CommandExecutor.approve_all self commands in
  CommandExecutor.is_approved self' (Z.of_nat i) = true
  ∧ CommandExecutor._rejected_commands self' = CommandExecutor._rejected_commands self
  ∧ ∃ r, (CommandExecutor.execute shell self' commands ran).1 !! i = Some r
         ∧ ExecutionResult.command r = cmd
         ∧ ExecutionResult.status r = REJECTED.
Proof.
  intros Hi Hrej self'.
  assert (Happ : Z.of_nat i ∈ CommandExecutor._approved_commands self').
  { subst self'. unfold CommandExecutor.approve_all. simpl.
    apply approve_all_approved. right. apply lookup_lt_Some in Hi. lia. }
  split; [apply bool_decide_eq_true, Happ|]. split; [reflexivity|].
  unfold CommandExecutor.execute.
  pose proof (execute_from_spec shell self' commands 0 ran) as H.
  destruct (CommandExecutor.execute_from shell self' 0 commands ran) as [results ran'].
  destruct H as (Hc & Hs & _). simpl.
  assert (Hlen : i < length results).
  { rewrite <- (length_fmap ExecutionResult.command), Hc. eapply lookup_lt_Some, Hi. }
  destruct (lookup_lt_is_Some_2 _ _ Hlen) as [r Hr].
  exists r. split; [exact Hr|]. split.
  - assert (H1 : (ExecutionResult.command <$> results) !! i = Some (ExecutionResult.command r))
      by (rewrite list_lookup_fmap, Hr; reflexivity).
    rewrite Hc, Hi in H1. congruence.
  - specialize (Hs i r Hr). simpl in Hs. unfold status_allowed in Hs.
    destruct (ExecutionResult.status r); try reflexivity; simpl in Hs;
      try (destruct Hs as [Hn _]; contradiction); contradiction.
Qed.

Lemma approve_all_keeps_rejections_witness :
  let shell : list string → string → shell_outcome := fun _ _ => Exited 0 "" "" in
  let cmd := CliCommand.mk "az vm create" "" "create" "vm" "t" MEDIUM [] in
  let self := CommandExecutor.set_approval (CommandExecutor.init false) 0 false in
  let self' := CommandExecutor.approve_all self [cmd] in
  CommandExecutor.is_approved self' 0 = true
  ∧ CommandExecutor._rejected_commands self' = CommandExecutor._rejected_commands self
  ∧ ∃ r, (CommandExecutor.execute shell self' [cmd] []).1 !! 0 = Some r
         ∧ ExecutionResult.command r = cmd
         ∧ ExecutionResult.status r = REJECTED.
Proof.
  intros shell cmd self.
  apply (approve_all_keeps_rejections shell self [cmd] [] 0 cmd).
  - reflexivity.
  - apply (bool_decide_unpack _). vm_compute. exact I.
Defined.

Lemma approve_indices_state (l : list Z) (ex : CommandExecutor.t) :
  let ex' := fold_left (fun ex i => CommandExecutor.set_approval ex i true) l ex in
  CommandExecutor.dry_run ex' = CommandExecutor.dry_run ex
  ∧ (∀ j, j ∈ CommandExecutor._approved_commands ex'
          ↔ j ∈ l ∨ j ∈ CommandExecutor._approved_commands ex)
  ∧ (∀ j, j ∈ CommandExecutor._rejected_commands ex'
          ↔ (j ∉ l) ∧ j ∈ CommandExecutor._rejected_commands ex).
Proof.
  revert ex. induction l as [|i l IH]; intros ex; cbn [fold_left]; cbv zeta.
  - split; [reflexivity|].
    split; intros j; rewrite elem_of_nil; tauto.
  - destruct (IH (CommandExecutor.set_approval ex i true)) as (Hd & Ha & Hr).
    split; [rewrite Hd; reflexivity|].
    split; intros j.
    + rewrite Ha. simpl. rewrite elem_of_cons, elem_of_union, elem_of_singleton. tauto.
    + rewrite Hr. simpl. rewrite elem_of_cons, elem_of_difference, elem_of_singleton. tauto.
Qed.

Lemma select_from_ext {A : Type} (f g : nat → bool) (l : list A) :
  (∀ i, f i = g i) → ∀ i, select_from f i l = select_from g i l.
Proof.
  intros Hfg. induction l as [|x l IH]; intros i; simpl; [reflexivity|].
  rewrite Hfg, IH. reflexivity.
Qed.

Lemma select_from_fmap {A B : Type} (h : A → B) (keep : nat → bool) (l : list A) :
  ∀ i, h <$> select_from keep i l = select_from keep i (h <$> l).
Proof.
  induction l as [|x l IH]; intros i; simpl; [reflexivity|].
  destruct (keep i); simpl; rewrite IH; reflexivity.
Qed.

Lemma execute_with_approval_executor shell commands approved_indices dry_run ran :
  execute_with_approval shell commands approved_indices dry_run ran
  = CommandExecutor.execute shell
      (fold_left (fun ex i => CommandExecutor.set_approval ex i true)
                 (default [] approved_indices) (CommandExecutor.init dry_run))
      commands ran.
Proof. destruct approved_indices as [[|i l]|]; reflexivity. Qed.

Lemma execute_with_approval_spec
    (shell : list string → string → shell_outcome) (commands : list CliCommand.t)
    (approved_indices : option (list Z)) (dry_run : bool) (ran : list string) :
  let indices := default [] approved_indices in
  let out := execute_with_approval shell commands approved_indices dry_run ran in
  ExecutionResult.command <$> out.1 = commands
  ∧ (∀ i r, out.1 !! i = Some r →
       match ExecutionResult.status r with
       | PENDING_APPROVAL => Z.of_nat i ∉ indices
       | SKIPPED => Z.of_nat i ∈ indices ∧ dry_run = true
       | SUCCESS | FAILED => Z.of_nat i ∈ indices ∧ dry_run = false
       | _ => False
       end)
  ∧ out.2 = ran ++ (command_line <$>
                      select_from
                        (fun i => bool_decide (Z.of_nat i ∈ indices) && negb dry_run)
                        0 commands).
Proof.
  intros indices out. subst out. rewrite execute_with_approval_executor.
  fold indices.
  set (ex := fold_left _ indices _).
  destruct (approve_indices_state indices (CommandExecutor.init dry_run)) as (Hd & Ha & Hr).
  fold ex in Hd, Ha, Hr. simpl in Hd.
  assert (Ha' : ∀ j, j ∈ CommandExecutor._approved_commands ex ↔ j ∈ indices).
  { intros j. rewrite Ha. simpl. rewrite elem_of_empty. tauto. }
  assert (Hr' : ∀ j, j ∉ CommandExecutor._rejected_commands ex).
  { intros j. rewrite Hr. simpl. rewrite elem_of_empty. tauto. }
  unfold CommandExecutor.execute.
  pose proof (execute_from_spec shell ex commands 0 ran) as H.
  destruct (CommandExecutor.execute_from shell ex 0 commands ran) as [results ran'].
  destruct H as (Hc & Hs & Hran). simpl.
  split; [exact Hc|]. split.
  - intros i r Hi. specialize (Hs i r Hi). simpl in Hs. unfold status_allowed in Hs.
    rewrite Hd in Hs.
    destruct (ExecutionResult.status r); simpl in Hs; rewrite ?Ha' in Hs; try tauto.
    exfalso. exact (Hr' _ Hs).
  - rewrite Hran. f_equal. f_equal. apply select_from_ext. intros i. unfold runs.
    rewrite Hd. rewrite (bool_decide_ext _ _ (Ha' (Z.of_nat i))).
    rewrite (bool_decide_eq_false_2 _ (Hr' (Z.of_nat i))). simpl.
    rewrite andb_true_r. reflexivity.
Qed.


(** Property X5. [execute_with_approval] hands to the shell the commands
    whose index is among the approved indices, in the order of the
    commands and each once, and none in dry-run mode; an index that is
    repeated or out of range changes nothing. The other commands are
    reported PENDING_APPROVAL, the approved ones SKIPPED in dry-run mode
    and SUCCESS or FAILED otherwise. *)
Theorem execute_with_approval_runs_requested
    (shell : list string → string → shell_outcome) (commands : list CliCommand.t)
    (approved_indices : option (list Z)) (dry_run : bool) (ran : list string) :
  let indices := default [] approved_indices in
  let out := execute_with_approval shell commands approved_indices dry_run ran in
  ExecutionResult.command <$> out.1 = commands
  ∧ (∀ i r, out.1 !! i = Some r →
       match ExecutionResult.status r with
       | PENDING_APPROVAL => Z.of_nat i ∉ indices
       | SKIPPED => Z.of_nat i ∈ indices ∧ dry_run = true
       | SUCCESS | FAILED => Z.of_nat i ∈ indices ∧ dry_run = false
       | _ => False
       end)
  ∧ out.2 = ran ++ (command_line <$>
                      select_from
                        (fun i => bool_decide (Z.of_nat i ∈ indices) && negb dry_run)
                        0 commands).
Proof. apply execute_with_approval_spec. Qed.

(** Property X6. [execute_commands] hands nothing to the shell and does not
    answer [completed] when the session holds no commands, when no index
    is given, or when one of the indices is negative or not below the
    number of commands. *)
Theorem execute_commands_refuses
    (shell : list string → string → shell_outcome)
    (session_commands : option (list CliCommand.t))
    (command_indices : option (list Z)) (dry_run : bool) (ran : list string) :
  session_commands = None
  ∨ command_indices = None
  ∨ command_indices = Some []
  ∨ (∃ commands indices i,
       session_commands = Some commands ∧ command_indices = Some indices
       ∧ i ∈ indices ∧ (i < 0 ∨ Z.of_nat (length commands) ≤ i)%Z) →
  let out := execute_commands shell session_commands command_indices dry_run ran in
  out.2 = ran
  ∧ match out.1 with Response_completed _ _ _ _ _ => False | _ => True end.
Proof.
  intros H. unfold execute_commands.
  destruct session_commands as [commands|]; [|simpl; auto].
  destruct command_indices as [[|i0 l]|]; [simpl; auto| |simpl; auto].
  destruct H as [H|[H|[H|H]]]; try discriminate.
  destruct H as (commands' & indices & i & [= <-] & [= <-] & Hin & Hbad).
  set (bad := fun i => (i <? 0)%Z || (Z.of_nat (length commands) <=? i)%Z).
  assert (Hfilter : In i (List.filter bad (i0 :: l))).
  { apply filter_In. split; [apply list_elem_of_In, Hin|].
    subst bad. simpl. apply orb_true_iff.
    destruct Hbad; [left; apply Z.ltb_lt | right; apply Z.leb_le]; assumption. }
  destruct (List.filter bad (i0 :: l)) as [|b bs] eqn:E; [inversion Hfilter|].
  simpl. auto.
Qed.

Lemma execute_commands_refuses_witness :
  let shell : list string → string → shell_outcome := fun _ _ => Exited 0 "" "" in
  let cmd := CliCommand.mk "az vm create" "" "create" "vm" "t" MEDIUM [] in
  let out := execute_commands shell (Some [cmd]) (Some [0; 1]%Z) false [] in
  out.2 = []
  ∧ match out.1 with Response_completed _ _ _ _ _ => False | _ => True end.
Proof.
  intros shell cmd.
  apply (execute_commands_refuses shell (Some [cmd]) (Some [0; 1]%Z) false []).
  right. right. right. exists [cmd], [0; 1]%Z, 1%Z.
  split; [reflexivity|]. split; [reflexivity|].
  split; [right; left | right; simpl; lia].
Defined.

Lemma select_from_elem {A : Type} (keep : nat → bool) (l : list A) (x : A) :
  ∀ i, x ∈ select_from keep i l → ∃ k, l !! k = Some x ∧ keep (i + k) = true.
Proof.
  induction l as [|y l IH]; intros i; simpl; [intros H; inversion H|].
  destruct (keep i) eqn:E.
  - intros [->|H]%elem_of_cons.
    + exists 0. rewrite Nat.add_0_r. auto.
    + destruct (IH _ H) as (k & Hk & Hkeep). exists (S k).
      rewrite Nat.add_succ_r. auto.
  - intros H. destruct (IH _ H) as (k & Hk & Hkeep). exists (S k).
    rewrite Nat.add_succ_r. auto.
Qed.

Lemma count_success_failed (rs : list ExecutionResult.t) :
  Forall (fun r => ExecutionResult.status r = SUCCESS ∨ ExecutionResult.status r = FAILED) rs →
  length (List.filter (fun r => bool_decide (ExecutionResult.status r = SUCCESS)) rs)
  + length (List.filter (fun r => bool_decide (ExecutionResult.status r = FAILED)) rs)
  = length rs.
Proof.
  induction 1 as [|r rs Hr _ IH]; [reflexivity|].
  simpl. destruct Hr as [-> | ->]; simpl; lia.
Qed.

Lemma count_skipped (rs : list ExecutionResult.t) :
  Forall (fun r => ExecutionResult.status r = SKIPPED) rs →
  length (List.filter (fun r => bool_decide (ExecutionResult.status r = SUCCESS)) rs) = 0
  ∧ length (List.filter (fun r => bool_decide (ExecutionResult.status r = FAILED)) rs) = 0.
Proof.
  induction 1 as [|r rs Hr _ [IH1 IH2]]; [auto|].
  simpl. rewrite Hr. simpl. auto.
Qed.

(** Property X7. Given indices that are all within range,
    [execute_commands] answers [completed] with the results of the
    requested commands, in the order of the session's commands and each
    once, and has handed exactly these commands to the shell; the total is
    their number. In dry-run mode all of them are SKIPPED, nothing is
    handed to the shell and both counts are zero; otherwise each is SUCCESS
    or FAILED and the two counts add up to the total. *)
Theorem execute_commands_completes
    (shell : list string → string → shell_outcome) (commands : list CliCommand.t)
    (indices : list Z) (dry_run : bool) (ran : list string) :
  indices ≠ [] →
  Forall (fun i => (0 ≤ i < Z.of_nat (length commands))%Z) indices →
  ∃ total success failed results ran',
    execute_commands shell (Some commands) (Some indices) dry_run ran
    = (Response_completed dry_run total success failed results, ran')
    ∧ ExecutionResult.command <$> results
      = select_from (fun i => bool_decide (Z.of_nat i ∈ indices)) 0 commands
    ∧ total = length results
    ∧ (if dry_run
       then Forall (fun r => ExecutionResult.status r = SKIPPED) results
            ∧ success = 0 ∧ failed = 0 ∧ ran' = ran
       else Forall (fun r => ExecutionResult.status r = SUCCESS
                             ∨ ExecutionResult.status r = FAILED) results
            ∧ success + failed = total
            ∧ ran' = ran ++ (command_line <$>
                               select_from (fun i => bool_decide (Z.of_nat i ∈ indices))
                                           0 commands)).
Proof.
  intros Hne Hvalid. unfold execute_commands.
  destruct indices as [|i0 l]; [contradiction|].
  set (indices := i0 :: l) in *.
  assert (Hfilter :
    List.filter (fun i => (i <? 0)%Z || (Z.of_nat (length commands) <=? i)%Z) indices = []).
  { clear Hne. induction Hvalid as [|i l' Hi _ IH]; [reflexivity|].
    simpl. replace (i <? 0)%Z with false by (symmetry; apply Z.ltb_ge; lia).
    replace (Z.of_nat (length commands) <=? i)%Z with false
      by (symmetry; apply Z.leb_gt; lia).
    simpl. exact IH. }
  rewrite Hfilter.
  pose proof (execute_with_approval_spec shell commands (Some indices) dry_run ran) as H.
  simpl in H.
  destruct (execute_with_approval shell commands (Some indices) dry_run ran)
    as [results ran'].
  destruct H as (Hc & Hs & Hran). simpl in Hc, Hs, Hran.
  set (keep := fun i : nat => bool_decide (Z.of_nat i ∈ indices)).
  assert (Hstatus : ∀ r, r ∈ select_from keep 0 results →
            if dry_run then ExecutionResult.status r = SKIPPED
            else ExecutionResult.status r = SUCCESS ∨ ExecutionResult.status r = FAILED).
  { intros r Hr. apply select_from_elem in Hr as (k & Hk & Hkeep).
    simpl in Hkeep. subst keep. apply bool_decide_eq_true in Hkeep.
    specialize (Hs k r Hk).
    destruct (ExecutionResult.status r), dry_run; try tauto;
      destruct Hs; try discriminate; auto. }
  eexists _, _, _, _, _. split; [reflexivity|].
  split; [rewrite select_from_fmap, Hc; reflexivity|].
  split; [reflexivity|].
  destruct dry_run.
  - assert (Hall : Forall (fun r => ExecutionResult.status r = SKIPPED)
                          (select_from keep 0 results))
      by (apply Forall_forall; exact Hstatus).
    destruct (count_skipped _ Hall) as [H1 H2].
    split; [exact Hall|]. split; [exact H1|]. split; [exact H2|].
    rewrite Hran.
    assert (Hnone : ∀ (cs : list CliCommand.t) i,
              select_from (fun i => bool_decide (Z.of_nat i ∈ indices) && negb true) i cs = []).
    { induction cs as [|c cs IH]; intros i; simpl; [reflexivity|].
      rewrite andb_false_r. apply IH. }
    rewrite Hnone. apply app_nil_r.
  - assert (Hall : Forall (fun r => ExecutionResult.status r = SUCCESS
                                    ∨ ExecutionResult.status r = FAILED)
                          (select_from keep 0 results))
      by (apply Forall_forall; exact Hstatus).
    split; [exact Hall|]. split; [apply count_success_failed, Hall|].
    rewrite Hran. f_equal. f_equal. apply select_from_ext.
    intros i. simpl. apply andb_true_r.
Qed.

Lemma execute_commands_completes_witness :
  let shell : list string → string → shell_outcome :=
    fun _ line => if String.eqb line "az vm update" then Exited 1 "" "denied" else Exited 0 "" "" in
  let c0 := CliCommand.mk "az vm create" "" "create" "vm" "t" MEDIUM [] in
  let c1 := CliCommand.mk "az vm update" "" "update" "vm" "t" HIGH [] in
  let c2 := CliCommand.mk "az keyvault create" "" "create" "kv" "t" MEDIUM [] in
  execute_commands shell (Some [c0; c1; c2]) (Some [2; 1; 1]%Z) false []
  = (Response_completed false 2 1 1
       [ ExecutionResult.mk c1 FAILED "" "denied" (Some 1%Z) "Command failed with exit code 1";
         ExecutionResult.mk c2 SUCCESS "" "" (Some 0%Z) "" ],
     [ "az vm update"; "az keyvault create" ])
  ∧ ∃ total success failed results ran',
      execute_commands shell (Some [c0; c1; c2]) (Some [2; 1; 1]%Z) false []
      = (Response_completed false total success failed results, ran')
      ∧ ExecutionResult.command <$> results = [c1; c2].
Proof.
  intros shell c0 c1 c2. split; [vm_compute; reflexivity|].
  destruct (execute_commands_completes shell [c0; c1; c2] [2; 1; 1]%Z false [])
    as (total & success & failed & results & ran' & Heq & Hc & _).
  - discriminate.
  - repeat constructor; simpl; lia.
  - exists total, success, failed, results, ran'. split; [exact Heq|].
    rewrite Hc. vm_compute. reflexivity.
Defined.

(** ** From the command text to the command line *)

Lemma append_cons (c : ascii) (a b : string) : String c a +:+ b = String c (a +:+ b).
Proof. reflexivity. Qed.

Lemma no_line_feed_app (a b : string) :
  no_line_feed (a +:+ b) = no_line_feed a && no_line_feed b.
Proof.
  induction a as [|c a IH]; [reflexivity|].
  rewrite append_cons. simpl. rewrite IH, andb_assoc. reflexivity.
Qed.

Lemma no_line_feed_cons (c : ascii) (s : string) :
  no_line_feed (String c s) = negb (Ascii.eqb (ascii_of_nat 10) c) && no_line_feed s.
Proof. reflexivity. Qed.

Lemma append_nil_l (b : string) : "" +:+ b = b.
Proof. reflexivity. Qed.

Lemma startswith_cons (a b : ascii) (p s : string) :
  PyStr.startswith (String a p) (String b s) = Ascii.eqb a b && PyStr.startswith p s.
Proof. reflexivity. Qed.

Lemma startswith_cons_nil (a : ascii) (p : string) :
  PyStr.startswith (String a p) "" = false.
Proof. reflexivity. Qed.

Lemma continuation_not_inside (s u : string) :
  no_line_feed s = true → s ≠ "" →
  u = "" ∨ (∃ t, u = CliCommandGenerator.continuation +:+ t) →
  PyStr.startswith CliCommandGenerator.continuation (s +:+ u) = false.
Proof.
  intros Hs Hne Hu.
  change CliCommandGenerator.continuation
    with (String " " (String "\" (String (ascii_of_nat 10) "    "))) in *.
  destruct s as [|c1 [|c2 [|c3 s]]]; [contradiction| | |].
  - destruct Hu as [->|[t ->]];
      rewrite ?append_cons, ?append_nil_l, ?startswith_cons, ?startswith_cons_nil.
    + apply andb_false_r.
    + change (Ascii.eqb "\" " ") with false. simpl. apply andb_false_r.
  - destruct Hu as [->|[t ->]];
      rewrite ?append_cons, ?append_nil_l, ?startswith_cons, ?startswith_cons_nil.
    + rewrite !andb_false_r. reflexivity.
    + change (Ascii.eqb (ascii_of_nat 10) " ") with false. simpl.
      rewrite !andb_false_r. reflexivity.
  - rewrite !no_line_feed_cons in Hs.
    apply andb_prop in Hs as [_ Hs]. apply andb_prop in Hs as [_ Hs].
    apply andb_prop in Hs as [H3 _]. apply negb_true_iff in H3.
    rewrite !append_cons, !startswith_cons, H3. simpl. rewrite !andb_false_r. reflexivity.
Qed.

Lemma replace_part_then_continuation (s t : string) :
  no_line_feed s = true →
  PyStr2.replace CliCommandGenerator.continuation " "
    (s +:+ CliCommandGenerator.continuation +:+ t)
  = s +:+ " " +:+ PyStr2.replace CliCommandGenerator.continuation " " t.
Proof.
  unfold PyStr2.replace. induction s as [|c s IH]; intros Hs.
  - reflexivity.
  - rewrite !append_cons.
    change (PyStr2.replace_from 0 ?o ?n (String c ?r))
      with (if PyStr.startswith o (String c r)
            then n +:+ PyStr2.replace_from (String.length o - 1) o n r
            else String c (PyStr2.replace_from 0 o n r)).
    rewrite <- append_cons.
    rewrite (continuation_not_inside (String c s) _ Hs) by (discriminate || eauto).
    simpl in Hs. apply andb_prop in Hs as [_ Hs]. rewrite (IH Hs). reflexivity.
Qed.

Lemma replace_last_part (s : string) :
  no_line_feed s = true →
  PyStr2.replace CliCommandGenerator.continuation " " s = s.
Proof.
  unfold PyStr2.replace. induction s as [|c s IH]; intros Hs; [reflexivity|].
  change (PyStr2.replace_from 0 ?o ?n (String c ?r))
    with (if PyStr.startswith o (String c r)
          then n +:+ PyStr2.replace_from (String.length o - 1) o n r
          else String c (PyStr2.replace_from 0 o n r)).
  pose proof (continuation_not_inside (String c s) "" Hs) as H.
  assert (Hnil : ∀ a : string, a +:+ "" = a)
    by (induction a as [|x a IHa]; [reflexivity | rewrite append_cons, IHa; reflexivity]).
  rewrite Hnil in H. rewrite H by (discriminate || auto).
  simpl in Hs. apply andb_prop in Hs as [_ Hs]. rewrite (IH Hs). reflexivity.
Qed.

Lemma replace_joined_parts (parts : list string) :
  Forall (fun part => no_line_feed part = true) parts →
  PyStr2.replace CliCommandGenerator.continuation " "
    (PyStr.join CliCommandGenerator.continuation parts)
  = PyStr.join " " parts.
Proof.
  unfold PyStr.join. induction 1 as [|part parts Hpart Hparts IH]; [reflexivity|].
  destruct parts as [|part2 parts].
  - simpl. apply replace_last_part, Hpart.
  - change (String.concat ?sep (part :: part2 :: parts))
      with (part +:+ sep +:+ String.concat sep (part2 :: parts)).
    rewrite (replace_part_then_continuation _ _ Hpart), IH. reflexivity.
Qed.

(** Property X8. When neither the base verb nor a parameter name or value
    holds a line feed, removing the line continuations as [_execute_command]
    does turns the text built by [_build_command_string] into one line: the
    same parts, the base verb first and then one part per parameter,
    separated by single spaces. *)
Theorem built_command_becomes_one_line (base_cmd : string) (params : pydict string) :
  no_line_feed base_cmd = true →
  Forall (fun pv : string * string =>
            no_line_feed pv.1 = true ∧ no_line_feed pv.2 = true) params →
  ∃ parts,
    CliCommandGenerator._build_command_string base_cmd params
    = PyStr.join CliCommandGenerator.continuation (base_cmd :: parts)
    ∧ PyStr2.replace CliCommandGenerator.continuation " "
        (CliCommandGenerator._build_command_string base_cmd params)
      = PyStr.join " " (base_cmd :: parts)
    ∧ length parts = length params
    ∧ no_line_feed (PyStr.join " " (base_cmd :: parts)) = true.
Proof.
  intros Hbase Hparams. unfold CliCommandGenerator._build_command_string.
  set (render := fun pv : string * string => _).
  exists (map render params).
  assert (Hparts : Forall (fun part => no_line_feed part = true) (base_cmd :: map render params)).
  { constructor; [exact Hbase|]. apply Forall_map.
    eapply Forall_impl; [exact Hparams|]. intros [p v] [Hp Hv]. simpl in *.
    subst render. simpl. destruct (PyStr.contains " " v);
      rewrite !no_line_feed_app, Hp, Hv; reflexivity. }
  split; [reflexivity|]. split; [apply replace_joined_parts, Hparts|].
  split; [apply length_map|].
  clear -Hparts. unfold PyStr.join.
  induction Hparts as [|part parts Hpart _ IH]; [reflexivity|].
  destruct parts as [|part2 parts]; [exact Hpart|].
  change (String.concat ?sep (part :: part2 :: parts))
    with (part +:+ sep +:+ String.concat sep (part2 :: parts)).
  rewrite !no_line_feed_app, Hpart, IH. reflexivity.
Qed.

Lemma built_command_becomes_one_line_witness :
  PyStr2.replace CliCommandGenerator.continuation " "
    (CliCommandGenerator._build_command_string "az network vnet update"
       [ ("--name", "vnet-core"); ("--tags", "env=prod owner=ops") ])
  = String.concat " "
      [ "az network vnet update"; "--name vnet-core";
        "--tags " +:+ CliCommandGenerator.dquote +:+ "env=prod owner=ops"
        +:+ CliCommandGenerator.dquote ]
  ∧ ∃ parts,
      CliCommandGenerator._build_command_string "az network vnet update"
        [ ("--name", "vnet-core"); ("--tags", "env=prod owner=ops") ]
      = PyStr.join CliCommandGenerator.continuation ("az network vnet update" :: parts)
      ∧ length parts = 2.
Proof.
  split; [vm_compute; reflexivity|].
  destruct (built_command_becomes_one_line "az network vnet update"
              [ ("--name", "vnet-core"); ("--tags", "env=prod owner=ops") ])
    as (parts & H1 & _ & H3 & _).
  - reflexivity.
  - repeat constructor.
  - exists parts. auto.
Defined.

(** ** Parameters of the synthesized commands *)

Lemma cli_mapping_entries_avoid_identity terraform_type :
  Forall (fun m : string * string => m.2 ∉ identity_keys)
         (dict_get_default terraform_type [] CliCommandGenerator.PROPERTY_MAPPINGS).
Proof.
  apply Forall_forall. intros [prop cli] Hin. simpl.
  assert (Htable :
    Forall (fun entry : string * pydict string =>
              Forall (fun m : string * string => m.2 ∉ identity_keys) entry.2)
           CliCommandGenerator.PROPERTY_MAPPINGS).
  { apply (bool_decide_unpack _). vm_compute. exact I. }
  revert Hin. unfold dict_get_default.
  match goal with
  | |- context [match ?g with _ => _ end] => destruct g as [mapping|] eqn:E
  end; intros Hin; [|inversion Hin].
  apply dict_get_elem in E.
  rewrite Forall_forall in Htable. specialize (Htable _ E). simpl in Htable.
  rewrite Forall_forall in Htable. exact (Htable _ Hin).
Qed.

Lemma base_params_lookup resource_group subscription_id resource_name :
  let params :=
    CliCommandGenerator.base_params resource_group subscription_id "--name" resource_name in
  dict_get "--name" params = Some resource_name
  ∧ dict_get "--resource-group" params = Some resource_group
  ∧ dict_get "--subscription" params
    = match subscription_id with
      | Some sub => if String.eqb sub "" then None else Some sub
      | None => None
      end
  ∧ ∀ flag, flag ∈ dict_keys params → flag ∈ identity_keys.
Proof.
  unfold CliCommandGenerator.base_params.
  destruct subscription_id as [sub|]; simpl.
  - destruct (String.eqb sub ""); simpl;
      (split; [reflexivity|]; split; [reflexivity|]; split; [reflexivity|]);
      intros flag Hflag; unfold identity_keys;
      repeat (apply elem_of_cons in Hflag as [->|Hflag]; [set_solver|]); inversion Hflag.
  - split; [reflexivity|]. split; [reflexivity|]. split; [reflexivity|].
    intros flag Hflag; unfold identity_keys;
      repeat (apply elem_of_cons in Hflag as [->|Hflag]; [set_solver|]); inversion Hflag.
Qed.

Lemma create_loop_keeps (k : string) (tf_config : pydict value) (mapping : pydict string) :
  Forall (fun m : string * string => m.2 ≠ k) mapping →
  ∀ params,
    dict_get k (fold_left (CliCommandGenerator.create_param tf_config) mapping params)
    = dict_get k params.
Proof.
  induction 1 as [|m mapping Hm _ IH]; intros params; simpl; [reflexivity|].
  rewrite IH. unfold CliCommandGenerator.create_param.
  repeat case_match; try reflexivity; apply dict_get_set_ne; congruence.
Qed.

Lemma update_loop_keeps (k : string) (prop_mapping : pydict string)
    (fds : list PropertyDifference.t) :
  (∀ prop cli, dict_get prop prop_mapping = Some cli → cli ≠ k) →
  ∀ params,
    dict_get k (fold_left (CliCommandGenerator.update_param prop_mapping) fds params)
    = dict_get k params.
Proof.
  intros Hmap. induction fds as [|fd fds IH]; intros params; simpl; [reflexivity|].
  rewrite IH. unfold CliCommandGenerator.update_param.
  destruct (dict_get _ prop_mapping) as [cli|] eqn:E; [|reflexivity].
  apply Hmap in E.
  repeat case_match; try reflexivity; apply dict_get_set_ne; congruence.
Qed.

Lemma special_cases_keep (k : string) terraform_type config params :
  k ≠ "--sku" → k ≠ "--image" →
  dict_get k (CliCommandGenerator._handle_special_cases terraform_type config params)
  = dict_get k params.
Proof.
  intros Hsku Himage. unfold CliCommandGenerator._handle_special_cases.
  repeat case_match; try reflexivity; apply dict_get_set_ne; assumption.
Qed.

Lemma identity_key_cases (k : string) :
  k ∈ identity_keys →
  k ≠ "--sku" ∧ k ≠ "--image"
  ∧ ∀ terraform_type,
      Forall (fun m : string * string => m.2 ≠ k)
             (dict_get_default terraform_type [] CliCommandGenerator.PROPERTY_MAPPINGS).
Proof.
  intros Hk. split; [|split].
  - intros ->. revert Hk. apply (bool_decide_unpack _). vm_compute. exact I.
  - intros ->. revert Hk. apply (bool_decide_unpack _). vm_compute. exact I.
  - intros terraform_type. eapply Forall_impl; [apply cli_mapping_entries_avoid_identity|].
    intros m Hm Heq. apply Hm. rewrite Heq. exact Hk.
Qed.

Lemma command_identity resource_group subscription_id diff cmd (k : string) :
  k ∈ identity_keys →
  CliCommandGenerator.command_of resource_group subscription_id diff = Some cmd →
  CliCommand.resource_name cmd = ResourceDifference.resource_name diff
  ∧ CliCommand.resource_type cmd = ResourceDifference.resource_type diff
  ∧ dict_get k (CliCommand.parameters cmd)
    = dict_get k (CliCommandGenerator.base_params resource_group subscription_id "--name"
                    (ResourceDifference.resource_name diff)).
Proof.
  intros Hk. destruct (identity_key_cases k Hk) as (Hsku & Himage & Htable).
  unfold CliCommandGenerator.command_of.
  destruct (ResourceDifference.difference_type diff); [|discriminate|].
  - unfold CliCommandGenerator._generate_create_command.
    destruct (ResourceDifference.terraform_type diff) as [tt|]; [|discriminate].
    destruct (ResourceDifference.terraform_resource diff) as [tf|]; [|discriminate].
    destruct (negb (truthy (VStr tt))); [discriminate|].
    destruct (dict_get tt CliCommandGenerator.CLI_COMMANDS) as [cfg|] eqn:Hcfg; [|discriminate].
    destruct (cli_name_param _ _ Hcfg) as [-> _].
    intros [= <-]. simpl. split; [reflexivity|]. split; [reflexivity|].
    rewrite special_cases_keep by assumption.
    apply create_loop_keeps, Htable.
  - unfold CliCommandGenerator._generate_update_command.
    destruct (ResourceDifference.terraform_type diff) as [tt|]; [|discriminate].
    destruct (negb (truthy (VStr tt))); [discriminate|].
    destruct (dict_get tt CliCommandGenerator.CLI_COMMANDS) as [cfg|] eqn:Hcfg; [|discriminate].
    destruct (cli_name_param _ _ Hcfg) as [-> _].
    destruct (length _ <=? 3); [discriminate|].
    intros [= <-]. simpl. split; [reflexivity|]. split; [reflexivity|].
    apply update_loop_keeps. intros prop cli Hget ->.
    apply cli_mapping_avoids_identity in Hget. contradiction.
Qed.

(** Property X9. No field value ever takes the place of the identity of a
    command: every command built for a difference names the resource of
    that difference under [--name], the generator's resource group under
    [--resource-group] and, when the generator has a non-empty
    subscription id, that id under [--subscription]. *)
Theorem commands_keep_identity_parameters
    (resource_group : string) (subscription_id : option string)
    (diff : ResourceDifference.t) (cmd : CliCommand.t) :
  CliCommandGenerator.command_of resource_group subscription_id diff = Some cmd →
  CliCommand.resource_name cmd = ResourceDifference.resource_name diff
  ∧ CliCommand.resource_type cmd = ResourceDifference.resource_type diff
  ∧ dict_get "--name" (CliCommand.parameters cmd)
    = Some (ResourceDifference.resource_name diff)
  ∧ dict_get "--resource-group" (CliCommand.parameters cmd) = Some resource_group
  ∧ dict_get "--subscription" (CliCommand.parameters cmd)
    = match subscription_id with
      | Some sub => if String.eqb sub "" then None else Some sub
      | None => None
      end.
Proof.
  intros H.
  destruct (base_params_lookup resource_group subscription_id
              (ResourceDifference.resource_name diff)) as (Hn & Hg & Hs & _).
  assert (Hin : ∀ k, k ∈ identity_keys → k ∈ identity_keys) by auto.
  destruct (command_identity _ _ _ _ "--name" ltac:(set_solver) H) as (H1 & H2 & H3).
  destruct (command_identity _ _ _ _ "--resource-group" ltac:(set_solver) H) as (_ & _ & H4).
  destruct (command_identity _ _ _ _ "--subscription" ltac:(set_solver) H) as (_ & _ & H5).
  split; [exact H1|]. split; [exact H2|].
  rewrite H3, H4, H5. auto.
Qed.

Lemma commands_keep_identity_parameters_witness :
  let diff :=
    ResourceDifference.mk MISSING_IN_AZURE "acct1" "Microsoft.Storage/storageAccounts"
      (Some "azurerm_storage_account")
      (Some (TerraformResource.mk "azurerm_storage_account" "st"
               [ ("name", VStr "other"); ("location", VStr "eastus") ]))
      None [] MEDIUM in
  ∃ cmd,
    CliCommandGenerator.command_of "rg-demo" (Some "0000") diff = Some cmd
    ∧ dict_get "--name" (CliCommand.parameters cmd) = Some "acct1"
    ∧ dict_get "--resource-group" (CliCommand.parameters cmd) = Some "rg-demo"
    ∧ dict_get "--subscription" (CliCommand.parameters cmd) = Some "0000".
Proof.
  intros diff.
  destruct (CliCommandGenerator.command_of "rg-demo" (Some "0000") diff) as [cmd|] eqn:E;
    [|vm_compute in E; discriminate].
  exists cmd. split; [reflexivity|].
  destruct (commands_keep_identity_parameters "rg-demo" (Some "0000") diff cmd E)
    as (_ & _ & H1 & H2 & H3).
  auto.
Defined.

Lemma update_param_cases (prop_mapping : pydict string) (params : pydict string)
    (fd : PropertyDifference.t) :
  CliCommandGenerator.update_param prop_mapping params fd = params
  ∨ ∃ cli,
      dict_get (PyStr.last_part (PropertyDifference.property_path fd)) prop_mapping = Some cli
      ∧ PropertyDifference.terraform_value fd ≠ VNone
      ∧ CliCommandGenerator._is_variable (PropertyDifference.terraform_value fd) = false
      ∧ CliCommandGenerator.update_param prop_mapping params fd
        = dict_set cli
            (CliCommandGenerator._format_param_value (PropertyDifference.terraform_value fd))
            params.
Proof.
  unfold CliCommandGenerator.update_param.
  destruct (dict_get _ prop_mapping) as [cli|]; [|left; reflexivity].
  destruct (PropertyDifference.terraform_value fd) as [|b|n|s|l|d];
    [left; reflexivity|..];
    match goal with
    | |- context [CliCommandGenerator._is_variable ?v] =>
        destruct (CliCommandGenerator._is_variable v) eqn:Evar
    end;
    try (left; reflexivity);
    right; exists cli; repeat split; try reflexivity; try discriminate; exact Evar.
Qed.

Lemma update_loop_values (prop_mapping : pydict string) (all : list PropertyDifference.t)
    (P : string → string → Prop) :
  (∀ fd cli, fd ∈ all →
     dict_get (PyStr.last_part (PropertyDifference.property_path fd)) prop_mapping = Some cli →
     PropertyDifference.terraform_value fd ≠ VNone →
     CliCommandGenerator._is_variable (PropertyDifference.terraform_value fd) = false →
     P cli (CliCommandGenerator._format_param_value (PropertyDifference.terraform_value fd))) →
  ∀ fds params,
    (∀ fd, fd ∈ fds → fd ∈ all) →
    (∀ flag v, dict_get flag params = Some v → P flag v) →
    ∀ flag v,
      dict_get flag (fold_left (CliCommandGenerator.update_param prop_mapping) fds params) = Some v →
      P flag v.
Proof.
  intros Hstep. induction fds as [|fd fds IH]; intros params Hsub Hparams; simpl; [exact Hparams|].
  apply IH; [intros; apply Hsub; right; assumption|].
  intros flag v.
  destruct (update_param_cases prop_mapping params fd) as [->|(cli & Hget & Hnone & Hvar & ->)];
    [apply Hparams|].
  rewrite dict_get_set. destruct (String.eqb flag cli) eqn:Ef; [|apply Hparams].
  apply String.eqb_eq in Ef. subst flag. intros [= <-].
  apply Hstep; try assumption. apply Hsub. left.
Qed.

(** Property X10. An update command pushes declarative values only: each of
    its parameters other than the identity ones is the formatted
    declarative value of one of the field differences of the resource, a
    value that is set and that [_is_variable] accepts, under the CLI
    parameter of that difference's leaf name. No live value is ever
    written. *)
Theorem update_parameters_are_declarative
    (resource_group : string) (subscription_id : option string)
    (diff : ResourceDifference.t) (cmd : CliCommand.t) :
  CliCommandGenerator._generate_update_command resource_group subscription_id diff = Some cmd →
  CliCommand.risk_level cmd = ResourceDifference.risk_level diff
  ∧ ∀ flag v,
      dict_get flag (CliCommand.parameters cmd) = Some v →
      flag ∈ identity_keys
      ∨ ∃ fd terraform_type,
          fd ∈ ResourceDifference.property_differences diff
          ∧ ResourceDifference.terraform_type diff = Some terraform_type
          ∧ dict_get (PyStr.last_part (PropertyDifference.property_path fd))
              (dict_get_default terraform_type [] CliCommandGenerator.PROPERTY_MAPPINGS)
            = Some flag
          ∧ PropertyDifference.terraform_value fd ≠ VNone
          ∧ CliCommandGenerator._is_variable (PropertyDifference.terraform_value fd) = false
          ∧ v = CliCommandGenerator._format_param_value (PropertyDifference.terraform_value fd).
Proof.
  unfold CliCommandGenerator._generate_update_command.
  destruct (ResourceDifference.terraform_type diff) as [tt|] eqn:Htt; [|discriminate].
  destruct (negb (truthy (VStr tt))); [discriminate|].
  destruct (dict_get tt CliCommandGenerator.CLI_COMMANDS) as [cfg|] eqn:Hcfg; [|discriminate].
  destruct (cli_name_param _ _ Hcfg) as [-> _].
  destruct (length _ <=? 3); [discriminate|].
  intros [= <-]. simpl. split; [reflexivity|].
  apply (update_loop_values _ (ResourceDifference.property_differences diff)
           (fun flag v =>
              flag ∈ identity_keys
              ∨ ∃ fd terraform_type,
                  fd ∈ ResourceDifference.property_differences diff
                  ∧ Some tt = Some terraform_type
                  ∧ dict_get (PyStr.last_part (PropertyDifference.property_path fd))
                      (dict_get_default terraform_type [] CliCommandGenerator.PROPERTY_MAPPINGS)
                    = Some flag
                  ∧ PropertyDifference.terraform_value fd ≠ VNone
                  ∧ CliCommandGenerator._is_variable (PropertyDifference.terraform_value fd)
                    = false
                  ∧ v = CliCommandGenerator._format_param_value
                          (PropertyDifference.terraform_value fd))).
  - intros fd cli Hin Hget Hnone Hvar. right. exists fd, tt. auto 10.
  - auto.
  - intros flag v Hget. left.
    destruct (base_params_lookup resource_group subscription_id
                (ResourceDifference.resource_name diff)) as (_ & _ & _ & Hkeys).
    apply Hkeys. eapply dict_get_Some_keys, Hget.
Qed.

Lemma update_parameters_are_declarative_witness :
  let diff :=
    ResourceDifference.mk PROPERTY_DRIFT "vm-app1" "Microsoft.Compute/virtualMachines"
      (Some "azurerm_linux_virtual_machine") None None
      [ PropertyDifference.mk "size" (VStr "Standard_B2s") (VStr "Standard_D4s_v3") "";
        PropertyDifference.mk "admin_username" (VStr "azureuser") (VStr "opsuser") "" ]
      HIGH in
  ∃ cmd,
    CliCommandGenerator._generate_update_command "rg-demo" None diff = Some cmd
    ∧ CliCommand.parameters cmd
      = [ ("--name", "vm-app1"); ("--resource-group", "rg-demo");
          ("--size", "Standard_B2s"); ("--admin-username", "azureuser") ]
    ∧ CliCommand.risk_level cmd = HIGH.
Proof.
  intros diff.
  destruct (CliCommandGenerator._generate_update_command "rg-demo" None diff) as [cmd|] eqn:E;
    [|vm_compute in E; discriminate].
  exists cmd. split; [reflexivity|].
  destruct (update_parameters_are_declarative "rg-demo" None diff cmd E) as [Hrisk _].
  split; [|exact Hrisk].
  vm_compute in E. injection E as <-. reflexivity.
Defined.

(** Property X11. The create command of a storage account carries, under
    [--sku], the tier and the replication type joined by an underscore,
    with Standard and LRS standing in for the one that is not configured,
    whatever the loop over the parameter table had put there; this on
    condition that both are truthy. *)
Theorem storage_account_sku_is_composed
    (resource_group : string) (subscription_id : option string)
    (diff : ResourceDifference.t) (tf : TerraformResource.t) :
  ResourceDifference.terraform_type diff = Some "azurerm_storage_account" →
  ResourceDifference.terraform_resource diff = Some tf →
  let tier := dict_get_default "account_tier" (VStr "Standard") (TerraformResource.config tf) in
  let replication :=
    dict_get_default "account_replication_type" (VStr "LRS") (TerraformResource.config tf) in
  truthy tier = true →
  truthy replication = true →
  ∃ cmd,
    CliCommandGenerator._generate_create_command resource_group subscription_id diff = Some cmd
    ∧ CliCommand.action cmd = "create"
    ∧ CliCommand.command cmd
      = CliCommandGenerator._build_command_string "az storage account create"
          (CliCommand.parameters cmd)
    ∧ dict_get "--sku" (CliCommand.parameters cmd)
      = Some (py_str tier +:+ "_" +:+ py_str replication).
Proof.
  intros Htt Htf tier replication Htier Hrepl.
  unfold CliCommandGenerator._generate_create_command. rewrite Htt, Htf.
  cbn [truthy negb]. simpl String.eqb. cbv iota.
  change (dict_get "azurerm_storage_account" CliCommandGenerator.CLI_COMMANDS)
    with (Some (CliCommandGenerator.mk_cmd "az storage account create"
                  "az storage account update" "--name")).
  cbv iota beta. eexists. split; [reflexivity|]. simpl.
  split; [reflexivity|]. split; [reflexivity|].
  unfold CliCommandGenerator._handle_special_cases. simpl String.eqb. cbv iota.
  fold tier. fold replication. rewrite Htier, Hrepl. simpl andb. cbv iota.
  apply dict_get_set_eq.
Qed.

Lemma storage_account_sku_is_composed_witness :
  let tf := TerraformResource.mk "azurerm_storage_account" "st"
              [ ("name", VStr "acct1"); ("account_replication_type", VStr "GRS") ] in
  let diff :=
    ResourceDifference.mk MISSING_IN_AZURE "acct1" "Microsoft.Storage/storageAccounts"
      (Some "azurerm_storage_account") (Some tf) None [] MEDIUM in
  ∃ cmd,
    CliCommandGenerator._generate_create_command "rg-demo" None diff = Some cmd
    ∧ CliCommand.action cmd = "create"
    ∧ CliCommand.command cmd
      = CliCommandGenerator._build_command_string "az storage account create"
          (CliCommand.parameters cmd)
    ∧ dict_get "--sku" (CliCommand.parameters cmd) = Some "Standard_GRS".
Proof.
  intros tf diff.
  apply (storage_account_sku_is_composed "rg-demo" None diff tf); reflexivity.
Defined.

(** Property X12. The create command of a Linux or Windows virtual machine
    whose configuration has a source image block, given as a mapping or as
    a list that starts with one, with truthy publisher, offer and sku,
    carries under [--image] the four parts publisher, offer, sku and
    version joined by colons, where a version that is not configured is
    [latest]. *)
Theorem vm_image_is_composed
    (resource_group : string) (subscription_id : option string)
    (diff : ResourceDifference.t) (terraform_type : string) (tf : TerraformResource.t)
    (img : pydict value) :
  ResourceDifference.terraform_type diff = Some terraform_type →
  terraform_type = "azurerm_linux_virtual_machine"
  ∨ terraform_type = "azurerm_windows_virtual_machine" →
  ResourceDifference.terraform_resource diff = Some tf →
  dict_get "source_image_reference" (TerraformResource.config tf) = Some (VDict img)
  ∨ (∃ rest, dict_get "source_image_reference" (TerraformResource.config tf)
             = Some (VList (VDict img :: rest))) →
  truthy (dict_get_none "publisher" img) = true →
  truthy (dict_get_none "offer" img) = true →
  truthy (dict_get_none "sku" img) = true →
  ∃ cmd,
    CliCommandGenerator._generate_create_command resource_group subscription_id diff = Some cmd
    ∧ dict_get "--image" (CliCommand.parameters cmd)
      = Some (py_str (dict_get_none "publisher" img) +:+ ":" +:+
              py_str (dict_get_none "offer" img) +:+ ":" +:+
              py_str (dict_get_none "sku" img) +:+ ":" +:+
              py_str (dict_get_default "version" (VStr "latest") img)).
Proof.
  intros Htt Hvm Htf Himg Hp Ho Hs.
  unfold CliCommandGenerator._generate_create_command. rewrite Htt, Htf.
  assert (Hcfg : ∃ cfg, dict_get terraform_type CliCommandGenerator.CLI_COMMANDS = Some cfg
                        ∧ truthy (VStr terraform_type) = true
                        ∧ String.eqb terraform_type "azurerm_storage_account" = false
                        ∧ (String.eqb terraform_type "azurerm_linux_virtual_machine"
                           || String.eqb terraform_type "azurerm_windows_virtual_machine") = true)
    by (destruct Hvm as [-> | ->]; eexists; repeat split; reflexivity).
  destruct Hcfg as (cfg & -> & -> & Hst & Hvm').
  simpl negb. cbv iota. eexists. split; [reflexivity|]. simpl.
  unfold CliCommandGenerator._handle_special_cases. rewrite Hst, Hvm'.
  unfold dict_get_default.
  destruct Himg as [H | [rest H]]; rewrite H; cbv zeta beta iota;
    rewrite Hp, Ho, Hs; simpl andb; cbv iota; apply dict_get_set_eq.
Qed.

Lemma vm_image_is_composed_witness :
  let tf := TerraformResource.mk "azurerm_linux_virtual_machine" "app1"
              [ ("name", VStr "vm-app1");
                ("source_image_reference",
                 VList [ VDict [ ("publisher", VStr "Canonical"); ("offer", VStr "ubuntu-24_04-lts");
                                 ("sku", VStr "server") ] ]) ] in
  let diff :=
    ResourceDifference.mk MISSING_IN_AZURE "vm-app1" "Microsoft.Compute/virtualMachines"
      (Some "azurerm_linux_virtual_machine") (Some tf) None [] MEDIUM in
  ∃ cmd,
    CliCommandGenerator._generate_create_command "rg-demo" None diff = Some cmd
    ∧ dict_get "--image" (CliCommand.parameters cmd)
      = Some "Canonical:ubuntu-24_04-lts:server:latest".
Proof.
  intros tf diff.
  apply (vm_image_is_composed "rg-demo" None diff "azurerm_linux_virtual_machine" tf
           [ ("publisher", VStr "Canonical"); ("offer", VStr "ubuntu-24_04-lts");
             ("sku", VStr "server") ]); try reflexivity.
  - left. reflexivity.
  - right. exists []. reflexivity.
Defined.

Lemma update_suppressed_with_subscription_witness :
  let drift fds :=
    ResourceDifference.mk PROPERTY_DRIFT "vnet-core" "Microsoft.Network/virtualNetworks"
      (Some "azurerm_virtual_network") None None fds MEDIUM in
  let located := PropertyDifference.mk "location" (VStr "eastus") (VStr "westus2") "" in
  let unresolved := PropertyDifference.mk "location" (VStr "${var.loc}") (VStr "westus2") "" in
  (CliCommandGenerator._generate_update_command "rg-demo" (Some "0000") (drift [unresolved])
   = None
   ↔ true = true)
  ∧ (CliCommandGenerator._generate_update_command "rg-demo" (Some "0000") (drift [located])
     = None
     ↔ false = true).
Proof.
  intros drift located unresolved. split.
  - apply (update_suppressed_with_subscription "rg-demo" "0000" (drift [unresolved])
             "azurerm_virtual_network"
             (CliCommandGenerator.mk_cmd "az network vnet create" "az network vnet update"
                "--name")); [discriminate | reflexivity | reflexivity].
  - apply (update_suppressed_with_subscription "rg-demo" "0000" (drift [located])
             "azurerm_virtual_network"
             (CliCommandGenerator.mk_cmd "az network vnet create" "az network vnet update"
                "--name")); [discriminate | reflexivity | reflexivity].
Defined.

(** ** The shape of the result of a comparison *)

Lemma dict_elem_get {B : Type} (k : string) (v : B) (d : pydict B) :
  NoDup (dict_keys d) → (k, v) ∈ d → dict_get k d = Some v.
Proof.
  induction d as [|[k0 v0] d IH]; simpl; intros Hnd Hin; [inversion Hin|].
  apply NoDup_cons in Hnd as [Hk0 Hnd].
  apply elem_of_cons in Hin as [[= -> ->]|Hin].
  - rewrite String.eqb_refl. reflexivity.
  - destruct (String.eqb k k0) eqn:E; [|auto].
    apply String.eqb_eq in E; subst k0. exfalso. apply Hk0.
    apply (list_elem_of_fmap_2 fst) in Hin. exact Hin.
Qed.

Lemma index_insert_wf {B : Type} (index : pydict (pydict B)) ty key (r : B) :
  index_wf index → index_wf (ComparisonEngine.index_insert ty key r index).
Proof.
  intros [Houter Hinner]. unfold ComparisonEngine.index_insert. split.
  - apply dict_keys_set_NoDup, Houter.
  - intros ty0 rs0 Hin. apply dict_set_elem in Hin as [[= -> ->]|Hin]; [|eauto].
    apply dict_keys_set_NoDup. unfold dict_get_default.
    match goal with
    | |- context [match ?g with _ => _ end] => destruct g as [rs1|] eqn:Hget
    end; [|constructor].
    apply dict_get_elem in Hget. eauto.
Qed.

Lemma build_azure_index_wf azure_resources :
  index_wf (ComparisonEngine.build_azure_index azure_resources).
Proof.
  unfold ComparisonEngine.build_azure_index.
  assert (Hgen : ∀ (l : list AzureResource.t) index, index_wf index →
            index_wf (fold_left
                        (fun index resource =>
                           ComparisonEngine.index_insert (AzureResource.resource_type resource)
                             (PyStr.lower (AzureResource.name resource)) resource index)
                        l index)).
  { induction l as [|r l IH]; intros index Hwf; simpl; [exact Hwf|].
    apply IH, index_insert_wf, Hwf. }
  apply Hgen. split; [constructor|]. intros ty rs H. inversion H.
Qed.

Lemma index_entry_lookup azure_resources ty rs key az :
  (ty, rs) ∈ ComparisonEngine.build_azure_index azure_resources →
  (key, az) ∈ rs →
  find (live_identity ty key) (rev azure_resources) = Some az.
Proof.
  intros Hty Hkey. rewrite <- azure_index_lookup.
  destruct (build_azure_index_wf azure_resources) as [Houter Hinner].
  pose proof (dict_elem_get _ _ _ Houter Hty) as Hget.
  unfold ComparisonEngine.index_lookup, dict_get_default.
  match goal with
  | |- context [match ?g with _ => _ end] =>
      replace g with (Some rs) by (symmetry; exact Hget)
  end.
  apply dict_elem_get; eauto.
Qed.

Lemma live_identity_eq ty key az :
  live_identity ty key az = true →
  AzureResource.resource_type az = ty ∧ PyStr.lower (AzureResource.name az) = key.
Proof.
  unfold live_identity. intros [H1 H2]%andb_prop.
  apply String.eqb_eq in H1, H2. auto.
Qed.

Lemma compare_step_produced azure_resources tfs st tf st' :
  tf ∈ tfs →
  Forall (produced azure_resources tfs) (ComparisonEngine.differences st) →
  ComparisonEngine.compare_step (ComparisonEngine.build_azure_index azure_resources) st tf = Ok st' →
  Forall (produced azure_resources tfs) (ComparisonEngine.differences st').
Proof.
  intros Hin Hst. unfold ComparisonEngine.compare_step.
  destruct (PyStr.contains _ _) eqn:Hskip; [intros [= <-]; exact Hst|].
  rewrite azure_index_lookup.
  destruct (find _ _) as [az|] eqn:Hfind.
  - destruct (ComparisonEngine._compare_properties tf az) as [[|fd fds]|e] eqn:Hcmp; simpl;
      intros [= <-]; simpl; [exact Hst|].
    apply Forall_app. split; [exact Hst|].
    apply Forall_singleton. apply produced_drift; try assumption. discriminate.
  - intros [= <-]; simpl. apply Forall_app. split; [exact Hst|].
    apply Forall_singleton. apply produced_missing; assumption.
Qed.

Lemma unmatched_azure_produced azure_resources tfs matched :
  Forall (produced azure_resources tfs)
    (ComparisonEngine.unmatched_azure matched (ComparisonEngine.build_azure_index azure_resources)).
Proof.
  unfold ComparisonEngine.unmatched_azure, ComparisonEngine.unmatched_of_type.
  apply Forall_forall. intros d Hd.
  apply list_elem_of_In, in_flat_map in Hd as ([ty rs] & Hty & Hd).
  apply in_flat_map in Hd as ([k az] & Hk & Hd). simpl in Hd.
  case_bool_decide; simpl in Hd; [contradiction|].
  destruct Hd as [<-|[]].
  apply list_elem_of_In in Hty, Hk.
  pose proof (index_entry_lookup _ _ _ _ _ Hty Hk) as Hfind.
  destruct (find_some _ _ Hfind) as [Hin Hid].
  apply live_identity_eq in Hid as [<- <-].
  apply produced_unmanaged; [|exact Hfind].
  apply list_elem_of_In, in_rev, Hin.
Qed.

Lemma compare_produced resource_group azure_resources tfs r :
  ComparisonEngine.compare resource_group azure_resources tfs = Ok r →
  Forall (produced azure_resources tfs) (ComparisonResult.differences r).
Proof.
  unfold ComparisonEngine.compare. intros H.
  destruct (foldM _ tfs _) as [st|e] eqn:E; simpl in H; [|discriminate].
  injection H as <-. simpl.
  apply Forall_app. split; [|apply unmatched_azure_produced].
  revert E.
  apply (foldM_invariant_in
           (fun st => Forall (produced azure_resources tfs) (ComparisonEngine.differences st))).
  - intros s x s' Hx. apply compare_step_produced. exact Hx.
  - constructor.
Qed.

(** Property X13. Every entry of a result of [compare] has one of three
    shapes. A missing-in-Azure entry stands for a declarative resource of
    the inventory that is not skipped and has no live match; it bears the
    resource's name (the block identifier when the name is empty), its
    canonical and its declarative type, no field difference and MEDIUM. A
    drift entry stands for such a resource and its live match, bears the
    name of the live record and the non-empty list of field differences
    that [_compare_properties] returned for the pair. An entry missing in
    Terraform stands for a live record that is the last of the inventory
    with its type and lower-cased name; it bears the record's name and
    type, no declarative type, no field difference and LOW. *)
Theorem compare_entries_have_a_shape
    (resource_group : string) (azure_resources : list AzureResource.t)
    (terraform_resources : list TerraformResource.t) (r : ComparisonResult.t) :
  ComparisonEngine.compare resource_group azure_resources terraform_resources = Ok r →
  ComparisonResult.resource_group r = resource_group
  ∧ Forall (produced azure_resources terraform_resources) (ComparisonResult.differences r).
Proof.
  intros H. split; [|eapply compare_produced, H].
  unfold ComparisonEngine.compare in H.
  destruct (foldM _ terraform_resources _); simpl in H; [|discriminate].
  injection H as <-. reflexivity.
Qed.

Lemma compare_entries_have_a_shape_witness :
  let azs := [Scenario.vm_az; Scenario.pip_az] in
  let tfs := [Scenario.vm_tf; Scenario.nsg_tf] in
  let r := Scenario.compared azs tfs in
  ComparisonEngine.compare "rg-demo" azs tfs = Ok r
  ∧ ResourceDifference.resource_name <$> ComparisonResult.differences r
    = ["vm-app1"; "nsg-web"; "pip-1"]
  ∧ Forall (produced azs tfs) (ComparisonResult.differences r).
Proof.
  intros azs tfs r. split; [vm_compute; reflexivity|]. split; [vm_compute; reflexivity|].
  apply (compare_entries_have_a_shape "rg-demo" azs tfs r). vm_compute; reflexivity.
Defined.

(** ** Accounting and order of a comparison *)

Lemma compare_step_summary azure_resources st tf st' :
  ComparisonEngine.compare_step (ComparisonEngine.build_azure_index azure_resources) st tf = Ok st' →
  ∃ D,
    ComparisonEngine.differences st' = ComparisonEngine.differences st ++ D
    ∧ (D = [] ∨ ∃ d, D = [d]
                     ∧ ResourceDifference.difference_type d ≠ MISSING_IN_TERRAFORM
                     ∧ ResourceDifference.terraform_resource d = Some tf)
    ∧ ComparisonEngine.matched_count st' + length D + (if skipped tf then 1 else 0)
      = S (ComparisonEngine.matched_count st)
    ∧ ∀ k, k ∈ ComparisonEngine.matched_azure st'
           ↔ k ∈ ComparisonEngine.matched_azure st
             ∨ (skipped tf = false ∧ live_match azure_resources tf ≠ None
                ∧ k = match_key (canonical_type (TerraformResource.terraform_type tf))
                        (ComparisonEngine.name_key tf)).
Proof.
  unfold ComparisonEngine.compare_step, skipped, live_match.
  destruct (PyStr.contains _ _) eqn:Hskip.
  - intros [= <-]. exists []. rewrite app_nil_r. simpl.
    split; [reflexivity|]. split; [auto|]. split; [lia|].
    intros k. split; [auto|]. intros [H|(H & _)]; [exact H|discriminate].
  - rewrite azure_index_lookup.
    destruct (find _ _) as [az|] eqn:Hfind.
    + destruct (ComparisonEngine._compare_properties tf az) as [[|fd fds]|e]; simpl;
        intros [= <-]; simpl.
      * exists []. rewrite app_nil_r. split; [reflexivity|]. split; [auto|].
        split; [simpl; lia|].
        intros k. rewrite elem_of_union, elem_of_singleton. unfold match_key.
        split; [intros [->|H]; [right; repeat split; discriminate | auto]|].
        intros [H|(_ & _ & ->)]; auto.
      * eexists [_]. split; [reflexivity|].
        split; [right; eexists; split; [reflexivity|]; split; [discriminate|reflexivity]|].
        split; [simpl; lia|].
        intros k. rewrite elem_of_union, elem_of_singleton. unfold match_key.
        split; [intros [->|H]; [right; repeat split; discriminate | auto]|].
        intros [H|(_ & _ & ->)]; auto.
    + intros [= <-]; simpl. eexists [_]. split; [reflexivity|].
      split; [right; eexists; split; [reflexivity|]; split; [discriminate|reflexivity]|].
      split; [simpl; lia|].
      intros k. split; [auto|]. intros [H|(_ & H & _)]; [exact H|contradiction].
Qed.

Lemma compare_loop_summary azure_resources (l : list TerraformResource.t) : ∀ st st',
  foldM (ComparisonEngine.compare_step (ComparisonEngine.build_azure_index azure_resources)) l st
  = Ok st' →
  ∃ D l',
    ComparisonEngine.differences st' = ComparisonEngine.differences st ++ D
    ∧ Forall (fun d => ResourceDifference.difference_type d ≠ MISSING_IN_TERRAFORM) D
    ∧ ResourceDifference.terraform_resource <$> D = Some <$> l'
    ∧ sublist l' l
    ∧ ComparisonEngine.matched_count st' + length D + length (List.filter skipped l)
      = ComparisonEngine.matched_count st + length l
    ∧ ∀ k, k ∈ ComparisonEngine.matched_azure st'
           ↔ k ∈ ComparisonEngine.matched_azure st
             ∨ ∃ tf, tf ∈ l ∧ skipped tf = false ∧ live_match azure_resources tf ≠ None
                     ∧ k = match_key (canonical_type (TerraformResource.terraform_type tf))
                             (ComparisonEngine.name_key tf).
Proof.
  induction l as [|tf l IH]; intros st st'; simpl.
  - intros [= <-]. exists [], []. rewrite app_nil_r.
    split; [reflexivity|]. split; [constructor|]. split; [reflexivity|].
    split; [constructor|]. split; [simpl; lia|].
    intros k. split; [auto|]. intros [H|(tf & H & _)]; [exact H|inversion H].
  - destruct (ComparisonEngine.compare_step _ st tf) as [st1|e] eqn:E; simpl; [|discriminate].
    intros Hrest.
    destruct (compare_step_summary _ _ _ _ E) as (D1 & Hd1 & Hshape & Hc1 & Hm1).
    destruct (IH _ _ Hrest) as (D2 & l2 & Hd2 & Hty2 & Htf2 & Hsub2 & Hc2 & Hm2).
    assert (Hm : ∀ k, k ∈ ComparisonEngine.matched_azure st'
               ↔ k ∈ ComparisonEngine.matched_azure st
                 ∨ ∃ tf0, tf0 ∈ tf :: l ∧ skipped tf0 = false
                          ∧ live_match azure_resources tf0 ≠ None
                          ∧ k = match_key (canonical_type (TerraformResource.terraform_type tf0))
                                  (ComparisonEngine.name_key tf0)).
    { intros k. rewrite Hm2, Hm1. split.
      - intros [[H|(H1 & H2 & H3)]|(tf0 & H0 & H)]; [auto| |].
        + right. exists tf. split; [left|auto].
        + right. exists tf0. split; [right; exact H0|exact H].
      - intros [H|(tf0 & H0 & H)]; [auto|].
        apply elem_of_cons in H0 as [->|H0]; [left; right; exact H|].
        right. exists tf0. auto. }
    destruct Hshape as [->|(d & -> & Hty & Htf)].
    + exists D2, l2. rewrite Hd2, Hd1, app_nil_r.
      split; [reflexivity|]. split; [exact Hty2|]. split; [exact Htf2|].
      split; [apply sublist_cons, Hsub2|].
      split; [|exact Hm].
      simpl in Hc1. destruct (skipped tf); simpl; lia.
    + exists (d :: D2), (tf :: l2). rewrite Hd2, Hd1, <- app_assoc.
      split; [reflexivity|]. split; [constructor; assumption|].
      split; [rewrite !fmap_cons, Htf, Htf2; reflexivity|].
      split; [apply sublist_skip, Hsub2|].
      split; [|exact Hm].
      simpl in Hc1. destruct (skipped tf); simpl; simpl in Hc1; lia.
Qed.

Lemma unmatched_azure_informational matched (index : pydict (pydict AzureResource.t)) :
  Forall (fun d => ResourceDifference.difference_type d = MISSING_IN_TERRAFORM)
         (ComparisonEngine.unmatched_azure matched index).
Proof.
  unfold ComparisonEngine.unmatched_azure, ComparisonEngine.unmatched_of_type.
  apply Forall_forall. intros d Hd.
  apply list_elem_of_In, in_flat_map in Hd as ([ty rs] & _ & Hd).
  apply in_flat_map in Hd as ([k az] & _ & Hd). simpl in Hd.
  case_bool_decide; simpl in Hd; [contradiction|].
  destruct Hd as [<-|[]]. reflexivity.
Qed.

Lemma compare_parts resource_group azure_resources tfs r :
  ComparisonEngine.compare resource_group azure_resources tfs = Ok r →
  ∃ D M l' matched,
    ComparisonResult.differences r = D ++ M
    ∧ M = ComparisonEngine.unmatched_azure matched
            (ComparisonEngine.build_azure_index azure_resources)
    ∧ Forall (fun d => ResourceDifference.difference_type d ≠ MISSING_IN_TERRAFORM) D
    ∧ Forall (fun d => ResourceDifference.difference_type d = MISSING_IN_TERRAFORM) M
    ∧ ResourceDifference.terraform_resource <$> D = Some <$> l'
    ∧ sublist l' tfs
    ∧ ComparisonResult.matched_count r + length D + length (List.filter skipped tfs)
      = length tfs
    ∧ ComparisonResult.azure_resource_count r = length azure_resources
    ∧ ComparisonResult.terraform_resource_count r = length tfs
    ∧ ∀ k, k ∈ matched
           ↔ ∃ tf, tf ∈ tfs ∧ skipped tf = false ∧ live_match azure_resources tf ≠ None
                   ∧ k = match_key (canonical_type (TerraformResource.terraform_type tf))
                           (ComparisonEngine.name_key tf).
Proof.
  unfold ComparisonEngine.compare. intros H.
  destruct (foldM _ tfs _) as [st|e] eqn:E; simpl in H; [|discriminate].
  injection H as <-. simpl.
  destruct (compare_loop_summary _ _ _ _ E) as (D & l' & Hd & Hty & Htf & Hsub & Hc & Hm).
  simpl in Hd, Hc, Hm.
  exists D, (ComparisonEngine.unmatched_azure (ComparisonEngine.matched_azure st)
               (ComparisonEngine.build_azure_index azure_resources)), l',
         (ComparisonEngine.matched_azure st).
  rewrite Hd. split; [reflexivity|]. split; [reflexivity|].
  split; [exact Hty|]. split; [apply unmatched_azure_informational|].
  split; [exact Htf|]. split; [exact Hsub|]. split; [lia|].
  split; [reflexivity|]. split; [reflexivity|].
  intros k. rewrite Hm. rewrite elem_of_empty. tauto.
Qed.

Lemma count_by_type (D M : list ResourceDifference.t) :
  Forall (fun d => ResourceDifference.difference_type d ≠ MISSING_IN_TERRAFORM) D →
  Forall (fun d => ResourceDifference.difference_type d = MISSING_IN_TERRAFORM) M →
  let count ty :=
    length (filter (fun d => ResourceDifference.difference_type d = ty) (D ++ M)) in
  count MISSING_IN_AZURE + count PROPERTY_DRIFT = length D
  ∧ count MISSING_IN_TERRAFORM = length M.
Proof.
  intros HD HM. cbv beta zeta. rewrite !filter_app, !length_app.
  assert (H1 : ∀ ty, ty ≠ MISSING_IN_TERRAFORM →
            filter (fun d => ResourceDifference.difference_type d = ty) M = []).
  { intros ty Hty. induction HM as [|d M Hd _ IH]; [reflexivity|].
    rewrite filter_cons. case_decide; [congruence|exact IH]. }
  assert (H2 : filter (fun d => ResourceDifference.difference_type d = MISSING_IN_TERRAFORM) M = M).
  { clear H1. induction HM as [|d M Hd _ IH]; [reflexivity|].
    rewrite filter_cons. case_decide; [rewrite IH; reflexivity|contradiction]. }
  assert (H3 : filter (fun d => ResourceDifference.difference_type d = MISSING_IN_TERRAFORM) D = []).
  { clear H1 H2. induction HD as [|d D Hd _ IH]; [reflexivity|].
    rewrite filter_cons. case_decide; [contradiction|exact IH]. }
  assert (H4 : length (filter (fun d => ResourceDifference.difference_type d = MISSING_IN_AZURE) D)
               + length (filter (fun d => ResourceDifference.difference_type d = PROPERTY_DRIFT) D)
               = length D).
  { clear H1 H2 H3. induction HD as [|d D Hd _ IH]; [reflexivity|].
    rewrite !filter_cons.
    destruct (ResourceDifference.difference_type d) eqn:Ety; try contradiction;
      repeat case_decide; try discriminate; try congruence; cbn [length]; lia. }
  rewrite (H1 MISSING_IN_AZURE), (H1 PROPERTY_DRIFT), H2, H3 by discriminate.
  simpl. split; lia.
Qed.

(** Property X14. The counts of a result of [compare] add up. The two
    inventory counts are the lengths of the inventories. Every declarative
    resource is accounted for once: as matched without difference, as
    drifted, as missing in Azure, or as skipped for an unresolved name.
    The three kinds of entries make up all entries. *)
Theorem compare_counts_add_up
    (resource_group : string) (azure_resources : list AzureResource.t)
    (terraform_resources : list TerraformResource.t) (r : ComparisonResult.t) :
  ComparisonEngine.compare resource_group azure_resources terraform_resources = Ok r →
  ComparisonResult.azure_resource_count r = length azure_resources
  ∧ ComparisonResult.terraform_resource_count r = length terraform_resources
  ∧ ComparisonResult.matched_count r
    + length (ComparisonResult.drifted r)
    + length (ComparisonResult.missing_in_azure r)
    + length (List.filter
                (fun tf => PyStr.contains "<variable:" (ComparisonEngine.name_key tf))
                terraform_resources)
    = length terraform_resources
  ∧ length (ComparisonResult.missing_in_azure r)
    + length (ComparisonResult.drifted r)
    + length (ComparisonResult.missing_in_terraform r)
    = length (ComparisonResult.differences r).
Proof.
  intros H.
  destruct (compare_parts _ _ _ _ H)
    as (D & M & l' & matched & Hd & _ & HD & HM & _ & _ & Hc & Ha & Ht & _).
  destruct (count_by_type D M HD HM) as [H1 H2].
  unfold ComparisonResult.drifted, ComparisonResult.missing_in_azure,
    ComparisonResult.missing_in_terraform, ComparisonResult.of_type.
  rewrite Hd. rewrite length_app.
  split; [exact Ha|]. split; [exact Ht|].
  fold skipped. change (fun tf => skipped tf) with skipped. split; lia.
Qed.

Lemma compare_counts_add_up_witness :
  let azs := [Scenario.vm_az; Scenario.pip_az; Scenario.storage_az] in
  let tfs := [Scenario.vm_tf; Scenario.unnamed_tf; Scenario.nsg_tf;
              Scenario.declared "azurerm_storage_account" "st" [ ("name", VStr "acct1") ]] in
  let r := Scenario.compared azs tfs in
  ComparisonEngine.compare "rg-demo" azs tfs = Ok r
  ∧ ComparisonResult.matched_count r = 1
  ∧ ComparisonResult.matched_count r
    + length (ComparisonResult.drifted r)
    + length (ComparisonResult.missing_in_azure r)
    + length (List.filter
                (fun tf => PyStr.contains "<variable:" (ComparisonEngine.name_key tf)) tfs)
    = 4.
Proof.
  intros azs tfs r. split; [vm_compute; reflexivity|]. split; [vm_compute; reflexivity|].
  destruct (compare_counts_add_up "rg-demo" azs tfs r) as (_ & _ & H & _);
    [vm_compute; reflexivity|].
  exact H.
Defined.

(** Property X15. The entries of a result of [compare] come in two runs:
    first those for declarative resources, in the order of the declarative
    inventory and at most one for each position of it, then the entries
    missing in Terraform. *)
Theorem compare_entries_are_ordered
    (resource_group : string) (azure_resources : list AzureResource.t)
    (terraform_resources : list TerraformResource.t) (r : ComparisonResult.t) :
  ComparisonEngine.compare resource_group azure_resources terraform_resources = Ok r →
  ∃ declared informational kept,
    ComparisonResult.differences r = declared ++ informational
    ∧ Forall (fun d => ResourceDifference.difference_type d = MISSING_IN_AZURE
                       ∨ ResourceDifference.difference_type d = PROPERTY_DRIFT) declared
    ∧ Forall (fun d => ResourceDifference.difference_type d = MISSING_IN_TERRAFORM)
             informational
    ∧ ResourceDifference.terraform_resource <$> declared = Some <$> kept
    ∧ sublist kept terraform_resources.
Proof.
  intros H.
  destruct (compare_parts _ _ _ _ H)
    as (D & M & l' & matched & Hd & _ & HD & HM & Htf & Hsub & _).
  exists D, M, l'. split; [exact Hd|]. split; [|auto].
  eapply Forall_impl; [exact HD|]. intros d Hty. simpl in Hty.
  destruct (ResourceDifference.difference_type d); auto. contradiction.
Qed.

Lemma compare_entries_are_ordered_witness :
  let azs := [Scenario.pip_az; Scenario.vm_az] in
  let tfs := [Scenario.nsg_tf; Scenario.unnamed_tf; Scenario.vm_tf] in
  let r := Scenario.compared azs tfs in
  ComparisonEngine.compare "rg-demo" azs tfs = Ok r
  ∧ ResourceDifference.resource_name <$> ComparisonResult.differences r
    = ["nsg-web"; "vm-app1"; "pip-1"]
  ∧ ∃ declared informational kept,
      ComparisonResult.differences r = declared ++ informational
      ∧ Forall (fun d => ResourceDifference.difference_type d = MISSING_IN_AZURE
                         ∨ ResourceDifference.difference_type d = PROPERTY_DRIFT) declared
      ∧ Forall (fun d => ResourceDifference.difference_type d = MISSING_IN_TERRAFORM)
               informational
      ∧ ResourceDifference.terraform_resource <$> declared = Some <$> kept
      ∧ sublist kept tfs.
Proof.
  intros azs tfs r. split; [vm_compute; reflexivity|]. split; [vm_compute; reflexivity|].
  apply (compare_entries_are_ordered "rg-demo" azs tfs r). vm_compute; reflexivity.
Defined.

(** ** Which live resources are reported as missing in Terraform *)

Lemma unmatched_azure_elem matched (index : pydict (pydict AzureResource.t)) d :
  d ∈ ComparisonEngine.unmatched_azure matched index
  ↔ ∃ ty rs key az,
      (ty, rs) ∈ index ∧ (key, az) ∈ rs ∧ (match_key ty key ∉ matched)
      ∧ d = ResourceDifference.mk MISSING_IN_TERRAFORM
              (AzureResource.name az) ty None None (Some az) [] LOW.
Proof.
  unfold ComparisonEngine.unmatched_azure, ComparisonEngine.unmatched_of_type, match_key.
  rewrite list_elem_of_In, in_flat_map. split.
  - intros ([ty rs] & Hty & Hd).
    apply in_flat_map in Hd as ([k az] & Hk & Hd). simpl in Hd.
    case_bool_decide; simpl in Hd; [contradiction|].
    destruct Hd as [<-|[]].
    exists ty, rs, k, az. apply list_elem_of_In in Hty, Hk. auto.
  - intros (ty & rs & k & az & Hty & Hk & Hnot & ->).
    exists (ty, rs). split; [apply list_elem_of_In, Hty|].
    apply in_flat_map. exists (k, az). split; [apply list_elem_of_In, Hk|].
    simpl. case_bool_decide; [contradiction|]. left. reflexivity.
Qed.

Lemma index_lookup_entry azure_resources ty key az :
  find (live_identity ty key) (rev azure_resources) = Some az →
  ∃ rs, (ty, rs) ∈ ComparisonEngine.build_azure_index azure_resources ∧ (key, az) ∈ rs.
Proof.
  rewrite <- azure_index_lookup.
  unfold ComparisonEngine.index_lookup, dict_get_default.
  match goal with
  | |- context [match ?g with _ => _ end] => destruct g as [rs|] eqn:Hget
  end; [|discriminate].
  intros Hkey. exists rs. split; apply dict_get_elem; assumption.
Qed.

(** Property X16. A live resource is reported as missing in Terraform
    exactly when no declarative resource with a resolved name was matched
    under its key, the type and the lower-cased name joined by a colon. *)
Theorem live_resource_reported_iff_unmatched
    (resource_group : string) (azure_resources : list AzureResource.t)
    (terraform_resources : list TerraformResource.t) (r : ComparisonResult.t)
    (az : AzureResource.t) :
  ComparisonEngine.compare resource_group azure_resources terraform_resources = Ok r →
  az ∈ azure_resources →
  (∃ d, d ∈ ComparisonResult.differences r
        ∧ ResourceDifference.difference_type d = MISSING_IN_TERRAFORM
        ∧ ResourceDifference.resource_type d = AzureResource.resource_type az
        ∧ PyStr.lower (ResourceDifference.resource_name d)
          = PyStr.lower (AzureResource.name az))
  ↔ ¬ ∃ tf, tf ∈ terraform_resources
            ∧ PyStr.contains "<variable:" (ComparisonEngine.name_key tf) = false
            ∧ live_match azure_resources tf ≠ None
            ∧ canonical_type (TerraformResource.terraform_type tf)
                +:+ ":" +:+ ComparisonEngine.name_key tf
              = AzureResource.resource_type az
                  +:+ ":" +:+ PyStr.lower (AzureResource.name az).
Proof.
  intros H Haz.
  destruct (compare_parts _ _ _ _ H)
    as (D & M & l' & matched & Hd & HM & HD & _ & _ & _ & _ & _ & _ & Hm).
  fold skipped.
  assert (Hkey : (∃ tf, tf ∈ terraform_resources ∧ skipped tf = false
                        ∧ live_match azure_resources tf ≠ None
                        ∧ canonical_type (TerraformResource.terraform_type tf)
                            +:+ ":" +:+ ComparisonEngine.name_key tf
                          = AzureResource.resource_type az
                              +:+ ":" +:+ PyStr.lower (AzureResource.name az))
                 ↔ match_key (AzureResource.resource_type az)
                     (PyStr.lower (AzureResource.name az)) ∈ matched).
  { rewrite Hm. unfold match_key. split.
    - intros (tf & H1 & H2 & H3 & H4). exists tf. auto.
    - intros (tf & H1 & H2 & H3 & H4). exists tf. auto. }
  unfold skipped in Hkey. rewrite Hkey. clear Hkey. rewrite Hd. split.
  - intros (d & Hin & Hty & Hrt & Hnm) Hmatched.
    apply elem_of_app in Hin as [Hin|Hin].
    { rewrite Forall_forall in HD. exact (HD _ Hin Hty). }
    rewrite HM in Hin. apply unmatched_azure_elem in Hin
      as (ty & rs & key & az' & Hty' & Hk & Hnot & ->).
    simpl in Hrt, Hnm.
    pose proof (index_entry_lookup _ _ _ _ _ Hty' Hk) as Hfind.
    destruct (find_some _ _ Hfind) as [_ Hid].
    apply live_identity_eq in Hid as [_ Hlow].
    apply Hnot. rewrite Hrt, <- Hlow, Hnm. exact Hmatched.
  - intros Hnot.
    destruct (find (live_identity (AzureResource.resource_type az)
                      (PyStr.lower (AzureResource.name az)))
                   (rev azure_resources)) as [az'|] eqn:Hfind.
    + destruct (index_lookup_entry _ _ _ _ Hfind) as (rs & Hty & Hk).
      destruct (find_some _ _ Hfind) as [_ Hid].
      apply live_identity_eq in Hid as [Hrt Hlow].
      eexists. split.
      * apply elem_of_app. right. rewrite HM. apply unmatched_azure_elem.
        exists (AzureResource.resource_type az), rs,
               (PyStr.lower (AzureResource.name az)), az'. auto.
      * simpl. auto.
    + exfalso.
      assert (Hin : In az (rev azure_resources))
        by (apply in_rev; rewrite rev_involutive; apply list_elem_of_In, Haz).
      pose proof (find_none _ _ Hfind az Hin) as Hid.
      unfold live_identity in Hid. rewrite !String.eqb_refl in Hid. discriminate.
Qed.

Lemma live_resource_reported_iff_unmatched_witness :
  let azs := [Scenario.vm_az; Scenario.pip_az] in
  let tfs := [Scenario.vm_tf; Scenario.nsg_tf] in
  ComparisonEngine.compare "rg-demo" azs tfs = Ok (Scenario.compared azs tfs)
  ∧ Scenario.pip_az ∈ azs
  ∧ ∃ d, d ∈ ComparisonResult.differences (Scenario.compared azs tfs)
         ∧ ResourceDifference.difference_type d = MISSING_IN_TERRAFORM
         ∧ ResourceDifference.resource_type d = AzureResource.resource_type Scenario.pip_az
         ∧ PyStr.lower (ResourceDifference.resource_name d)
           = PyStr.lower (AzureResource.name Scenario.pip_az).
Proof.
  intros azs tfs.
  assert (Hrun : ComparisonEngine.compare "rg-demo" azs tfs = Ok (Scenario.compared azs tfs))
    by (vm_compute; reflexivity).
  assert (Hin : Scenario.pip_az ∈ azs) by (right; left).
  split; [exact Hrun|]. split; [exact Hin|].
  apply (live_resource_reported_iff_unmatched "rg-demo" azs tfs _ _ Hrun Hin).
  intros (tf & Htf & _ & _ & Hkey).
  apply elem_of_cons in Htf as [->|Htf]; [vm_compute in Hkey; discriminate|].
  apply elem_of_cons in Htf as [->|Htf]; [vm_compute in Hkey; discriminate|].
  inversion Htf.
Defined.

(** ** Tags that are no dictionary *)

Lemma foldM_steps_succeed {A S : Type} (f : S → A → result S) (l : list A) (x : A) :
  x ∈ l → ∀ s s', foldM f l s = Ok s' → ∃ s1 s2, f s1 x = Ok s2.
Proof.
  induction l as [|y l IH]; intros Hin s s'; [inversion Hin|]. simpl.
  destruct (f s y) as [s1|e] eqn:E; simpl; [|discriminate].
  apply elem_of_cons in Hin as [->|Hin]; [eauto|].
  apply IH. exact Hin.
Qed.

Lemma compare_properties_needs_tag_dict tf az v fds :
  dict_get "tags" (TerraformResource.config tf) = Some v →
  truthy v = true →
  ComparisonEngine._compare_properties tf az = Ok fds →
  ∃ d, v = VDict d.
Proof.
  intros Hget Htruthy. unfold ComparisonEngine._compare_properties.
  destruct (foldM _ _ _) as [ds|e]; simpl; [|discriminate].
  unfold dict_get_default.
  match goal with
  | |- context [match ?g with _ => _ end] =>
      replace g with (Some v) by (symmetry; exact Hget)
  end.
  unfold ComparisonEngine._compare_tags.
  destruct (ComparisonEngine.items_or_empty v) as [items|e] eqn:Hitems;
    simpl; [|discriminate].
  intros _. unfold ComparisonEngine.items_or_empty in Hitems.
  rewrite Htruthy in Hitems. destruct v; try discriminate. eauto.
Qed.

(** Property X17. [compare] raises when a declarative resource with a
    resolved name that exists in Azure carries, under [tags], a value that
    is true in a condition and is no dictionary, such as an unresolved
    reference to a variable. *)
Theorem tags_that_are_no_dictionary_abort_compare
    (resource_group : string) (azure_resources : list AzureResource.t)
    (terraform_resources : list TerraformResource.t)
    (tf : TerraformResource.t) (az : AzureResource.t) (v : value) :
  tf ∈ terraform_resources →
  PyStr.contains "<variable:" (ComparisonEngine.name_key tf) = false →
  live_match azure_resources tf = Some az →
  dict_get "tags" (TerraformResource.config tf) = Some v →
  truthy v = true →
  (∀ d, v ≠ VDict d) →
  ∃ e, ComparisonEngine.compare resource_group azure_resources terraform_resources = Raise e.
Proof.
  intros Hin Hname Hmatch Hget Htruthy Hnodict.
  unfold ComparisonEngine.compare.
  destruct (foldM _ terraform_resources _) as [st|e] eqn:E; simpl; [|eauto].
  exfalso.
  destruct (foldM_steps_succeed _ _ _ Hin _ _ E) as (s1 & s2 & Hstep).
  unfold ComparisonEngine.compare_step in Hstep.
  rewrite Hname, azure_index_lookup in Hstep.
  unfold live_match in Hmatch. rewrite Hmatch in Hstep.
  destruct (ComparisonEngine._compare_properties tf az) as [fds|e] eqn:Hcmp;
    [|discriminate].
  destruct (compare_properties_needs_tag_dict _ _ _ _ Hget Htruthy Hcmp) as [d ->].
  exact (Hnodict d eq_refl).
Qed.

Lemma tags_that_are_no_dictionary_abort_compare_witness :
  let tf := Scenario.declared "azurerm_virtual_network" "main"
              [ ("name", VStr "vnet-core"); ("tags", VStr "${var.tags}") ] in
  ComparisonEngine.compare "rg-demo" [Scenario.vnet_az] [tf] = Raise AttributeError
  ∧ ∃ e, ComparisonEngine.compare "rg-demo" [Scenario.vnet_az] [tf] = Raise e.
Proof.
  intros tf. split; [vm_compute; reflexivity|].
  apply (tags_that_are_no_dictionary_abort_compare "rg-demo" [Scenario.vnet_az] [tf]
           tf Scenario.vnet_az (VStr "${var.tags}")).
  - left.
  - vm_compute; reflexivity.
  - vm_compute; reflexivity.
  - vm_compute; reflexivity.
  - vm_compute; reflexivity.
  - intros d; discriminate.
Defined.

(** ** From the supported declarative resources to commands *)

Lemma supported_type_has_commands ty :
  ty ∈ SUPPORTED_TERRAFORM_TYPES →
  truthy (VStr ty) = true ∧ ∃ cfg, dict_get ty CliCommandGenerator.CLI_COMMANDS = Some cfg.
Proof.
  unfold SUPPORTED_TERRAFORM_TYPES. intros H.
  repeat (apply elem_of_cons in H as [->|H];
          [split; [vm_compute; reflexivity | eexists; vm_compute; reflexivity]|]).
  inversion H.
Qed.

Lemma create_command_for_supported resource_group subscription_id tf nm rt :
  TerraformResource.terraform_type tf ∈ SUPPORTED_TERRAFORM_TYPES →
  ∃ cmd,
    CliCommandGenerator._generate_create_command resource_group subscription_id
      (ResourceDifference.mk MISSING_IN_AZURE nm rt
         (Some (TerraformResource.terraform_type tf)) (Some tf) None [] MEDIUM)
    = Some cmd
    ∧ CliCommand.action cmd = "create"
    ∧ CliCommand.resource_name cmd = nm.
Proof.
  intros [Htruthy [cfg Hcfg]]%supported_type_has_commands.
  unfold CliCommandGenerator._generate_create_command.
  cbn [ResourceDifference.terraform_type ResourceDifference.terraform_resource
       ResourceDifference.resource_name ResourceDifference.resource_type].
  rewrite Htruthy, Hcfg. cbn [negb].
  eexists. split; [reflexivity|]. split; reflexivity.
Qed.

Lemma create_commands_of_produced resource_group subscription_id azure_resources tfs
    (l : list ResourceDifference.t) :
  (∀ tf, tf ∈ tfs → TerraformResource.terraform_type tf ∈ SUPPORTED_TERRAFORM_TYPES) →
  Forall (produced azure_resources tfs) l →
  CliCommand.resource_name
    <$> filter (fun c => CliCommand.action c = "create")
          (omap (CliCommandGenerator.command_of resource_group subscription_id) l)
  = ResourceDifference.resource_name
      <$> filter (fun d => ResourceDifference.difference_type d = MISSING_IN_AZURE) l.
Proof.
  intros Hsup. induction 1 as [|d l Hd _ IH]; [reflexivity|].
  change (omap (CliCommandGenerator.command_of resource_group subscription_id) (d :: l))
    with (match CliCommandGenerator.command_of resource_group subscription_id d with
          | Some cmd =>
              cmd :: omap (CliCommandGenerator.command_of resource_group subscription_id) l
          | None => omap (CliCommandGenerator.command_of resource_group subscription_id) l
          end).
  destruct Hd as [tf Hin Hskip Hnone | tf az fds Hin Hskip Hsome Hcmp Hne | az Hin Hfind].
  - unfold CliCommandGenerator.command_of at 1.
    cbn [ResourceDifference.difference_type].
    destruct (create_command_for_supported resource_group subscription_id tf
                (ComparisonEngine.display_name tf)
                (canonical_type (TerraformResource.terraform_type tf)) (Hsup _ Hin))
      as (cmd & -> & Hact & Hnm).
    rewrite !filter_cons. cbn [ResourceDifference.difference_type].
    rewrite decide_True by exact Hact. rewrite decide_True by reflexivity.
    rewrite !fmap_cons, IH, Hnm. reflexivity.
  - unfold CliCommandGenerator.command_of at 1.
    cbn [ResourceDifference.difference_type].
    rewrite (filter_cons _ (ResourceDifference.mk _ _ _ _ _ _ _ _)).
    cbn [ResourceDifference.difference_type].
    rewrite decide_False by discriminate.
    destruct (CliCommandGenerator._generate_update_command _ _ _) as [cmd|] eqn:E;
      [|exact IH].
    apply update_command_action in E.
    rewrite filter_cons, decide_False by (rewrite E; discriminate). exact IH.
  - unfold CliCommandGenerator.command_of at 1.
    cbn [ResourceDifference.difference_type].
    rewrite (filter_cons _ (ResourceDifference.mk _ _ _ _ _ _ _ _)).
    cbn [ResourceDifference.difference_type].
    rewrite decide_False by discriminate. exact IH.
Qed.

(** Property X18. Comparing the supported declarative resources and then
    generating commands gives one create command for each resource found
    missing in Azure, in the order of the result and under the name of the
    entry. *)
Theorem supported_missing_resources_are_created
    (resource_group : string) (subscription_id : option string)
    (azure_resources : list AzureResource.t) (resources : list TerraformResource.t)
    (r : ComparisonResult.t) :
  compare_resources resource_group azure_resources (get_supported_resources resources)
  = Ok r →
  CliCommand.resource_name
    <$> filter (fun c => CliCommand.action c = "create")
          (generate_cli_commands r subscription_id)
  = ResourceDifference.resource_name <$> ComparisonResult.missing_in_azure r.
Proof.
  intros H. unfold generate_cli_commands. rewrite generate_commands_omap.
  unfold ComparisonResult.missing_in_azure, ComparisonResult.of_type.
  eapply create_commands_of_produced; [|eapply compare_produced; exact H].
  intros tf Htf. unfold get_supported_resources in Htf.
  apply list_elem_of_filter in Htf as [Hty _]. exact Hty.
Qed.

Lemma supported_missing_resources_are_created_witness :
  let resources := [Scenario.nsg_tf; Scenario.vm_tf; Scenario.storage_tf] in
  let r := Scenario.compared [Scenario.vm_az] (get_supported_resources resources) in
  compare_resources "rg-demo" [Scenario.vm_az] (get_supported_resources resources) = Ok r
  ∧ ResourceDifference.resource_name <$> ComparisonResult.missing_in_azure r
    = ["nsg-web"; "acct1"]
  ∧ CliCommand.resource_name
      <$> filter (fun c => CliCommand.action c = "create")
            (generate_cli_commands r None)
    = ResourceDifference.resource_name <$> ComparisonResult.missing_in_azure r.
Proof.
  intros resources r. split; [vm_compute; reflexivity|]. split; [vm_compute; reflexivity|].
  apply (supported_missing_resources_are_created "rg-demo" None [Scenario.vm_az] resources r).
  vm_compute; reflexivity.
Defined.

(** ** A value is equal to itself *)

Lemma dict_mem_all_keys (d : pydict value) :
  forallb (fun k => dict_mem k d) (dict_keys d) = true.
Proof.
  apply forallb_forall. intros k Hk. apply dict_mem_keys, list_elem_of_In, Hk.
Qed.

(** Property X19. [_values_equal] holds of a value and itself: a
    declarative value that normalises to the live one is never reported
    as different. The dictionaries of the value have distinct keys, as
    Python dictionaries have. *)
Theorem values_equal_reflexive (v : value) :
  keys_distinct v → ComparisonEngine._values_equal v v = true.
Proof.
  induction v as [|b|n|s|l IH|d IH] using value_nested_ind; intros Hwf.
  - reflexivity.
  - destruct b; reflexivity.
  - simpl. apply Z.eqb_refl.
  - simpl. apply String.eqb_refl.
  - cbn [ComparisonEngine._values_equal]. rewrite Nat.eqb_refl. cbn [andb].
    cbn [keys_distinct] in Hwf.
    induction IH as [|x l Hx _ IHl]; [reflexivity|].
    destruct Hwf as [Hwx Hwl]. rewrite (Hx Hwx). cbn [andb]. exact (IHl Hwl).
  - cbn [ComparisonEngine._values_equal]. cbn [keys_distinct] in Hwf.
    destruct Hwf as [Hnd Hwf].
    unfold ComparisonEngine.same_key_set. rewrite dict_mem_all_keys. cbn [andb].
    assert (Hgen : ∀ d0 : list (string * value),
               (∀ kv, kv ∈ d0 → kv ∈ d) →
               List.Forall (fun kv : string * value =>
                              keys_distinct kv.2 →
                              ComparisonEngine._values_equal kv.2 kv.2 = true) d0 →
               (fix go (d : list (string * value)) : Prop :=
                  match d with
                  | [] => True
                  | (_, x) :: d' => keys_distinct x ∧ go d'
                  end) d0 →
               (fix go (d1 : list (string * value)) : bool :=
                  match d1 with
                  | [] => true
                  | (k, v1) :: d' =>
                      ComparisonEngine._values_equal v1 (dict_get_none k d) && go d'
                  end) d0 = true).
    { induction d0 as [|[k x] d0 IHd0]; intros Hsub Hall Hw; [reflexivity|].
      destruct Hw as [Hwx Hw]. inversion Hall as [|? ? Hx Hrest]; subst.
      unfold dict_get_none at 1, dict_get_default.
      rewrite (dict_elem_get k x d Hnd (Hsub _ (list_elem_of_here _ _))).
      cbn [snd] in Hx. rewrite (Hx Hwx). cbn [andb].
      apply IHd0; [|exact Hrest|exact Hw].
      intros kv Hkv. apply Hsub. right. exact Hkv. }
    apply Hgen; auto.
Qed.

Lemma values_equal_reflexive_witness :
  ComparisonEngine._values_equal
    (VDict [ ("sku", VList [VStr "standard"; VInt 2]); ("tier", VNone) ])
    (VDict [ ("sku", VList [VStr "standard"; VInt 2]); ("tier", VNone) ]) = true.
Proof.
  apply values_equal_reflexive. simpl. split; [|tauto].
  apply (bool_decide_unpack _). vm_compute. exact I.
Defined.

(** ** The order in which a reference to a variable is resolved *)

Lemma resolve_str_reference tfvars variables x :
  TerraformParser.resolve_str tfvars variables ("${var." +:+ x +:+ "}")
  = match dict_get x tfvars with
    | Some v => v
    | None =>
        match dict_get x variables with
        | Some var =>
            match TerraformVariable.default var with
            | VNone => VStr ("${var." +:+ x +:+ "}")
            | dflt => dflt
            end
        | None => VStr ("${var." +:+ x +:+ "}")
        end
    end.
Proof.
  unfold TerraformParser.resolve_str.
  rewrite endswith_brace.
  replace (PyStr.startswith "${var." ("${var." +:+ x +:+ "}")) with true by reflexivity.
  simpl andb. cbv iota.
  replace (PyStr.drop 6 ("${var." +:+ x +:+ "}")) with (x +:+ "}") by reflexivity.
  rewrite drop_last_brace. reflexivity.
Qed.

(** Property X20. A field of a resource block written as a reference to
    the variable [x] is parsed to the override of [x] when the caller gave
    one, whatever the declaration of [x] says; without an override it is
    parsed to the declared default when that is not [None]. The value put
    in is taken as it is and is not resolved again. *)
Theorem reference_takes_override_then_default
    (tfvars : pydict value) (variables : pydict TerraformVariable.t)
    (resource_type block_name : string) (block : pydict value) (k x : string) :
  dict_get k block = Some (VStr ("${var." +:+ x +:+ "}")) →
  let parsed := TerraformParser.parse_resource tfvars variables
                  resource_type block_name block in
  (∀ v, dict_get x tfvars = Some v →
        dict_get k (TerraformResource.config parsed) = Some v)
  ∧ (∀ var, dict_get x tfvars = None →
            dict_get x variables = Some var →
            TerraformVariable.default var ≠ VNone →
            dict_get k (TerraformResource.config parsed)
            = Some (TerraformVariable.default var)).
Proof.
  intros Hk parsed. subst parsed. unfold TerraformParser.parse_resource.
  cbn [TerraformResource.config].
  rewrite dict_get_resolve_config, Hk. cbn [fmap option_fmap option_map].
  cbn [TerraformParser._resolve_value]. rewrite resolve_str_reference.
  split.
  - intros v ->. reflexivity.
  - intros var -> -> Hdflt.
    destruct (TerraformVariable.default var); try reflexivity. contradiction.
Qed.

Lemma reference_takes_override_then_default_witness :
  let variables :=
    [ ("location", TerraformVariable.mk "location" (VStr "westeurope") None None) ] in
  let block := [ ("name", VStr "vnet-core"); ("location", VStr "${var.location}") ] in
  dict_get "location"
    (TerraformResource.config
       (TerraformParser.parse_resource [ ("location", VStr "northeurope") ] variables
          "azurerm_virtual_network" "main" block))
  = Some (VStr "northeurope")
  ∧ dict_get "location"
      (TerraformResource.config
         (TerraformParser.parse_resource [] variables
            "azurerm_virtual_network" "main" block))
    = Some (VStr "westeurope").
Proof.
  intros variables block. split.
  - apply (reference_takes_override_then_default
             [ ("location", VStr "northeurope") ] variables
             "azurerm_virtual_network" "main" block "location" "location");
      reflexivity.
  - apply (reference_takes_override_then_default [] variables
             "azurerm_virtual_network" "main" block "location" "location"
             eq_refl) with (var := TerraformVariable.mk "location" (VStr "westeurope") None None);
      [reflexivity | reflexivity | discriminate].
Defined.

(** ** The width of a cell of the report *)

Lemma string_length_app (a b : string) :
  String.length (a +:+ b) = String.length a + String.length b.
Proof.
  induction a as [|c a IH]; [reflexivity|].
  rewrite append_cons. simpl. rewrite IH. reflexivity.
Qed.

Lemma take_length (n : nat) (s : string) : String.length (PyStr2.take n s) ≤ n.
Proof.
  revert s. induction n as [|n IH]; intros [|c s]; simpl; try lia.
  specialize (IH s). lia.
Qed.

(** Property X21. [_format_value] shows a value that is neither a list
    nor a dictionary in at most 50 characters, and shows a string of at
    most 50 characters as it is. Lengths are counted in bytes, the
    characters of an ASCII string. *)
Theorem scalar_cell_is_bounded (v : value) :
  (∀ l, v ≠ VList l) →
  (∀ d, v ≠ VDict d) →
  String.length (MarkdownReportGenerator._format_value v) ≤ 50
  ∧ (∀ s, v = VStr s → String.length s ≤ 50 →
          MarkdownReportGenerator._format_value v = s).
Proof.
  intros Hlist Hdict.
  assert (Hcut : ∀ s,
            String.length
              (if (50 <? String.length s)%nat then PyStr2.take 47 s +:+ "..." else s)
            ≤ 50).
  { intros s. destruct (50 <? String.length s)%nat eqn:E.
    - rewrite string_length_app. pose proof (take_length 47 s).
      change (String.length "...") with 3. lia.
    - apply Nat.ltb_ge in E. exact E. }
  split.
  - destruct v as [|b|n|s|l|d].
    + vm_compute. lia.
    + destruct b; vm_compute; lia.
    + apply Hcut.
    + apply Hcut.
    + exfalso. exact (Hlist l eq_refl).
    + exfalso. exact (Hdict d eq_refl).
  - intros s -> Hlen. unfold MarkdownReportGenerator._format_value, py_str.
    destruct (50 <? String.length s)%nat eqn:E; [|reflexivity].
    apply Nat.ltb_lt in E. lia.
Qed.

Lemma scalar_cell_is_bounded_witness :
  let s := "Microsoft.Network/virtualNetworks/subnets/providers/locks" in
  MarkdownReportGenerator._format_value (VStr s)
  = "Microsoft.Network/virtualNetworks/subnets/provi..."
  ∧ String.length (MarkdownReportGenerator._format_value (VStr s)) ≤ 50.
Proof.
  intros s. split; [vm_compute; reflexivity|].
  apply (scalar_cell_is_bounded (VStr s)); intros; discriminate.
Defined.
